(** * Aye-Aye Chef: the client's ingredient rules, screens and schema

    A shallow embedding of the parts of the repository that carry behaviour:

    - [mobile-app/src/utils/ingredientDetection.js] (fruit detection, recipe
      categories, meal-type suggestion);
    - [mobile-app/src/utils/constants.js] (the scan-status table);
    - [mobile-app/src/services/api.js] (authorization header, the seven calls
      and their request bodies);
    - [mobile-app/src/screens/ConfirmScreen.js] (loading scan results, editing
      and confirming the ingredient list);
    - [mobile-app/src/screens/RecipeScreen.js] (recipe generation, the error
      alerts, the template recipes);
    - [mobile-app/src/components/RecipeCategorySelector.js];
    - [scripts/setup-database.sql] (tables [scans] and [scan_items] with their
      constraints);
    - [mobile-app/src/services/auth.js], [mobile-app/src/services/camera.js],
      [mobile-app/src/screens/CameraScreen.js] (choosing and uploading a
      picture), [mobile-app/src/screens/SignInScreen.js] and
      [mobile-app/src/utils/Logger.js].

    Asynchronous functions are written as functions of the outcome of the
    calls they await and return the new screen state together with the list
    of effects they performed (alerts, API calls, navigation, timers). *)

From Stdlib Require Import String Ascii List ZArith QArith Bool Lia Floats Uint63 DecimalString.
Import ListNotations.

Local Close Scope Q_scope.
Local Open Scope string_scope.
Local Open Scope list_scope.

(* ================================================================= *)
(** ** JavaScript values *)

Module JS.

(** The primitive values that reach the modelled code.  Numbers are IEEE
    binary64, as in the language. *)
Inductive value : Type :=
| VUndefined
| VNull
| VBool (b : bool)
| VNum (x : float)
| VStr (s : string).

(** ToBoolean: [undefined], [null], [false], [0], [-0], [NaN] and the empty
    string are falsy. *)
Definition truthy (v : value) : bool :=
  match v with
  | VUndefined | VNull => false
  | VBool b => b
  | VNum x => negb (PrimFloat.is_zero x || PrimFloat.is_nan x)
  | VStr s => negb (s =? "")
  end.

(** [a || b] *)
Definition or (a b : value) : value := if truthy a then a else b.

(** A value that is neither [undefined] nor [null]. *)
Definition present (v : value) : bool :=
  match v with
  | VUndefined | VNull => false
  | _ => true
  end.

(** A text property of an object: the property is absent ([undefined]), is
    [null], or holds a string.  [label] and [fdc_id] are TEXT columns and the
    screens call string methods on them. *)
Inductive text : Type :=
| TAbsent
| TNull
| TStr (s : string).

(** [t !== s] for a string literal [s]. *)
Definition text_neq (t : text) (s : string) : bool :=
  match t with
  | TStr u => negb (u =? s)
  | _ => true
  end.

(** [t === s] for a string literal [s]. *)
Definition text_eq (t : text) (s : string) : bool := negb (text_neq t s).

(** [t || d] for a non-empty string literal [d]. *)
Definition text_or (t : text) (d : string) : string :=
  match t with
  | TStr u => if u =? "" then d else u
  | _ => d
  end.

(** [String.prototype.toLowerCase], on strings kept as the bytes of their
    UTF-8 encoding.  The letters A-Z are lowered, and so are the two
    characters beyond them whose lower case holds an ASCII letter: the
    Kelvin sign U+212A (three bytes) becomes 'k', and the dotted capital I
    U+0130 (two bytes) becomes 'i' followed by U+0307.  Every other
    character is kept: its lower case has no ASCII letter either, so that
    the comparisons of a lowered string with the ASCII names of the tables
    come out as in the language. *)
Definition lower_ascii (c : ascii) : ascii :=
  let n := nat_of_ascii c in
  if (65 <=? n)%nat && (n <=? 90)%nat then ascii_of_nat (n + 32) else c.

Definition is_dotted_I (c1 c2 : ascii) : bool :=
  ((nat_of_ascii c1 =? 196) && (nat_of_ascii c2 =? 176))%nat.

Definition is_kelvin (c1 c2 c3 : ascii) : bool :=
  ((nat_of_ascii c1 =? 226) && (nat_of_ascii c2 =? 132)
   && (nat_of_ascii c3 =? 170))%nat.

Definition COMBINING_DOT_ABOVE : string :=
  String (ascii_of_nat 204) (String (ascii_of_nat 135) EmptyString).

Fixpoint toLowerCase (s : string) : string :=
  match s with
  | EmptyString => EmptyString
  | String c1 s1 =>
      let kept := String (lower_ascii c1) (toLowerCase s1) in
      match s1 with
      | EmptyString => kept
      | String c2 s2 =>
          if is_dotted_I c1 c2 then
            String "i" (COMBINING_DOT_ABOVE ++ toLowerCase s2)
          else
            match s2 with
            | EmptyString => kept
            | String c3 s3 =>
                if is_kelvin c1 c2 c3 then String "k" (toLowerCase s3) else kept
            end
      end
  end.

(** [s.includes(sub)]: [sub] occurs in [s] as a contiguous substring. *)
Fixpoint includes (s sub : string) : bool :=
  if String.prefix sub s then true
  else match s with
       | EmptyString => false
       | String _ s' => includes s' sub
       end.

(** [s.startsWith(p)] *)
Definition startsWith (s p : string) : bool := String.prefix p s.

(** [Array.prototype.includes] on an array of strings. *)
Definition array_includes (l : list string) (s : string) : bool :=
  existsb (String.eqb s) l.

(** Strings are kept as the bytes of their UTF-8 encoding.  The white space
    that [String.prototype.trim] and [parseFloat] strip (WhiteSpace and
    LineTerminator of the language): U+0009 to U+000D and U+0020, one byte
    each; U+00A0, two bytes; U+1680, U+2000 to U+200A, U+2028, U+2029,
    U+202F, U+205F, U+3000 and U+FEFF, three bytes each. *)
Definition is_space (c : ascii) : bool :=
  let n := nat_of_ascii c in
  (n =? 32)%nat || ((9 <=? n)%nat && (n <=? 13)%nat).

Definition is_space2 (c1 c2 : ascii) : bool :=
  ((nat_of_ascii c1 =? 194) && (nat_of_ascii c2 =? 160))%nat.

Definition is_space3 (c1 c2 c3 : ascii) : bool :=
  let a := nat_of_ascii c1 in
  let b := nat_of_ascii c2 in
  let c := nat_of_ascii c3 in
  ((a =? 225) && (b =? 154) && (c =? 128)
   || (a =? 226) && (b =? 128)
      && ((128 <=? c) && (c <=? 138) || (c =? 168) || (c =? 169) || (c =? 175))
   || (a =? 226) && (b =? 129) && (c =? 159)
   || (a =? 227) && (b =? 128) && (c =? 128)
   || (a =? 239) && (b =? 187) && (c =? 191))%nat.

(** [s.trimStart()]: the white-space characters that [s] starts with are
    dropped, one character (one to three bytes) at a time. *)
Fixpoint trimStart (s : string) : string :=
  match s with
  | EmptyString => EmptyString
  | String c1 s1 =>
      if is_space c1 then trimStart s1
      else
        match s1 with
        | EmptyString => s
        | String c2 s2 =>
            if is_space2 c1 c2 then trimStart s2
            else
              match s2 with
              | EmptyString => s
              | String c3 s3 => if is_space3 c1 c2 c3 then trimStart s3 else s
              end
        end
  end.

(** [s.trimEnd()]: [s] is cut where what is left of it is white space
    only. *)
Fixpoint trimEnd (s : string) : string :=
  match s with
  | EmptyString => EmptyString
  | String c s' =>
      if trimStart s =? "" then EmptyString else String c (trimEnd s')
  end.

Definition trim (s : string) : string := trimEnd (trimStart s).

(** *** Numbers from text *)

(** The Number value of an integer: the nearest binary64, ties to even. *)
Definition of_Z (n : Z) : float := SF2Prim (binary_normalize prec emax n 0 false).

(** The Number value of [m * 10^e] for [m >= 0], with the sign given: the
    nearest binary64, ties to even.  A negative power of ten is divided out
    with 64 extra bits and a sticky bit, which rounds as the exact quotient
    does; the first tests set aside the exponents for which the result is
    infinite or zero whatever the digits. *)
Definition of_decimal (negative : bool) (m e : Z) : float :=
  let signed (x : float) := if negative then PrimFloat.opp x else x in
  if (m =? 0)%Z then signed PrimFloat.zero
  else if (400 <? e)%Z then signed PrimFloat.infinity
  else if (e + Z.log2 m <? -400)%Z then signed PrimFloat.zero
  else if (0 <=? e)%Z then
    signed (SF2Prim (binary_normalize prec emax (m * 10 ^ e) 0 false))
  else
    let den := (10 ^ (- e))%Z in
    let s := (Z.log2 den + 64)%Z in
    let num := Z.shiftl m s in
    let sticky := if (num mod den =? 0)%Z then 0%Z else 1%Z in
    signed (SF2Prim (binary_normalize prec emax (2 * (num / den) + sticky)
                       (- (s + 1)) false)).

Definition digit (c : ascii) : option Z :=
  let n := nat_of_ascii c in
  if (48 <=? n)%nat && (n <=? 57)%nat then Some (Z.of_nat (n - 48)) else None.

(** The longest run of decimal digits that [s] starts with: its value on
    top of [acc], its length on top of [count], and the rest of [s]. *)
Fixpoint digits (s : string) (acc count : Z) : Z * Z * string :=
  match s with
  | EmptyString => (acc, count, s)
  | String c rest =>
      match digit c with
      | Some d => digits rest (10 * acc + d)%Z (count + 1)%Z
      | None => (acc, count, s)
      end
  end.

(** An optional sign. *)
Definition sign_of (s : string) : bool * string :=
  match s with
  | String c rest =>
      if (c =? "-")%char then (true, rest)
      else if (c =? "+")%char then (false, rest)
      else (false, s)
  | EmptyString => (false, s)
  end.

(** The value of the exponent part that [s] starts with ([e] or [E], an
    optional sign, at least one digit); 0 when it starts with none. *)
Definition exponent (s : string) : Z :=
  match s with
  | String c rest =>
      if (c =? "e")%char || (c =? "E")%char then
        let (negative, rest') := sign_of rest in
        let '(e, count, _) := digits rest' 0%Z 0%Z in
        if (count =? 0)%Z then 0%Z else if negative then (- e)%Z else e
      else 0%Z
  | EmptyString => 0%Z
  end.

(** [parseFloat(s)] on a string: leading white space is skipped, then the
    longest prefix that is a decimal literal (sign, 'Infinity' or digits
    with an optional fraction and exponent) is read; [NaN] when there is
    none. *)
Definition parseFloat (s : string) : float :=
  let (negative, t) := sign_of (trimStart s) in
  if String.prefix "Infinity" t then
    if negative then PrimFloat.neg_infinity else PrimFloat.infinity
  else
    let '(int, ni, r1) := digits t 0%Z 0%Z in
    let '(mant, nf, r2) :=
      match r1 with
      | String c rest => if (c =? ".")%char then digits rest int 0%Z else (int, 0%Z, r1)
      | EmptyString => (int, 0%Z, r1)
      end in
    if (ni + nf =? 0)%Z then PrimFloat.nan
    else of_decimal negative mant (exponent r2 - nf).

(** *** JSON text *)

(** [JSON.stringify(v)], as the tree of the text it writes. *)
#[warnings="-register-all"]
Inductive json : Type :=
| JNull
| JBool (b : bool)
| JNum (x : float)
| JStr (s : string)
| JArr (l : list json)
| JObj (props : list (string * json)).

(** A number is written as [null] when it is [NaN] or infinite, and as 0
    when it is -0. *)
Definition stringify_number (x : float) : json :=
  if PrimFloat.is_finite x then
    JNum (if PrimFloat.is_zero x then PrimFloat.zero else x)
  else JNull.

(** The value of a property in the text; [None] when the property is left
    out (its value is [undefined]). *)
Definition stringify_value (v : value) : option json :=
  match v with
  | VUndefined => None
  | VNull => Some JNull
  | VBool b => Some (JBool b)
  | VNum x => Some (stringify_number x)
  | VStr s => Some (JStr s)
  end.

Definition stringify_text (t : text) : option json :=
  match t with
  | TAbsent => None
  | TNull => Some JNull
  | TStr s => Some (JStr s)
  end.

(** An object with the properties listed, in that order. *)
Definition stringify_object (props : list (string * option json)) : json :=
  JObj (flat_map (fun p => match snd p with
                           | Some j => [(fst p, j)]
                           | None => []
                           end) props).

(** The value that the text gives to a property of an object. *)
Fixpoint json_lookup (props : list (string * json)) (key : string) : option json :=
  match props with
  | [] => None
  | (k, j) :: rest => if k =? key then Some j else json_lookup rest key
  end.

Definition json_property (j : json) (key : string) : option json :=
  match j with
  | JObj props => json_lookup props key
  | _ => None
  end.

(** A call either returns or throws. *)
Inductive outcome (A : Type) : Type :=
| Returned (a : A)
| Thrown (message : string).
Arguments Returned {A} a.
Arguments Thrown {A} message.

End JS.

(* ================================================================= *)
(** ** Ingredient items *)

(** An ingredient object as the API returns it and as the screens keep it.
    A field that the object does not have reads as [VUndefined], [TAbsent]
    or [None]. *)
Record item : Type := mkItem {
  label : JS.text;
  fdc_id : JS.text;
  confidence : JS.value;
  grams_est : JS.value;
  grams : JS.value;
  confirmed : bool;
  manually_added : option bool
}.

(* ================================================================= *)
(** ** utils/ingredientDetection.js *)

Module IngredientDetection.
Import JS.

Definition COMMON_FRUITS : list string :=
  [ "orange"; "lemon"; "lime"; "grapefruit"; "tangerine"; "mandarin";
    "strawberry"; "blueberry"; "raspberry"; "blackberry"; "cranberry"; "cherry";
    "banana"; "pineapple"; "mango"; "papaya"; "coconut"; "kiwi"; "passion fruit";
    "peach"; "plum"; "apricot"; "nectarine";
    "apple"; "pear";
    "watermelon"; "cantaloupe"; "honeydew"; "melon";
    "grape"; "fig"; "date"; "pomegranate"; "avocado";
    "dragon fruit"; "star fruit"; "lychee"; "rambutan"; "durian" ].

Definition SMOOTHIE_VEGETABLES : list string :=
  [ "spinach"; "kale"; "carrot"; "beet"; "cucumber"; "celery" ].

(** [ingredient.label?.toLowerCase() || ''] *)
Definition lowered_label (ingredient : item) : string :=
  match label ingredient with
  | TStr s => if toLowerCase s =? "" then "" else toLowerCase s
  | TAbsent | TNull => ""
  end.

(** [names.some(n => label.includes(n) || n.includes(label))] *)
Definition some_matches (names : list string) (l : string) : bool :=
  existsb (fun n => includes l n || includes n l) names.

Definition isFruit (ingredient : item) : bool :=
  some_matches COMMON_FRUITS (lowered_label ingredient).

Definition isSmoothieVegetable (ingredient : item) : bool :=
  some_matches SMOOTHIE_VEGETABLES (lowered_label ingredient).

(** The body of the [forEach] callback: the new value of [fruitCount]. *)
Definition tally (fruitCount : nat) (ingredient : item) : nat :=
  if isFruit ingredient || isSmoothieVegetable ingredient
  then S fruitCount else fruitCount.

Definition fruitCount (ingredients : list item) : nat :=
  fold_left tally ingredients 0%nat.

(** [fruitCount / totalCount].  The quotient is taken in the rationals: for
    counts below 2^32 (array lengths) the binary64 quotient compares with
    the literal [0.6] as the exact one does. *)
Definition fruitPercentage (ingredients : list item) : Q :=
  (inject_Z (Z.of_nat (fruitCount ingredients))
   / inject_Z (Z.of_nat (List.length ingredients)))%Q.

(** [ingredients] is [None] when the argument is [null] or [undefined]. *)
Definition detectFruits (ingredients : option (list item)) : bool :=
  match ingredients with
  | None => false
  | Some [] => false
  | Some l => negb (Qle_bool (fruitPercentage l) (6 # 10)%Q)
  end.

Record categories : Type := mkCategories {
  isFruitBased : bool;
  suggestedCategories : list string;
  defaultCategory : string
}.

Definition getRecipeCategories (ingredients : option (list item)) : categories :=
  let isFruitBased := detectFruits ingredients in
  if isFruitBased then
    {| isFruitBased := true;
       suggestedCategories := ["smoothie"; "dessert"];
       defaultCategory := "smoothie" |}
  else
    {| isFruitBased := false;
       suggestedCategories := ["italian"; "thai"; "mexican"; "indian"; "mediterranean"];
       defaultCategory := "italian" |}.

(** A [Date]: what [getHours] returns for it (the local hour of the day; the
    [NaN] of an invalid date fails every comparison below, as any hour
    outside 6-20 does). *)
Record Date : Type := mkDate { getHours : Z }.

(** [suggestMealType(ingredients, currentTime = new Date())]: [now] is the
    value of [new Date()], used when the second argument is omitted. *)
Definition suggestMealType (now : Date) (ingredients : option (list item))
    (currentTime : option Date) : string :=
  let currentTime := match currentTime with Some t => t | None => now end in
  let hour := getHours currentTime in
  let isFruitBased := detectFruits ingredients in
  if ((6 <=? hour) && (hour <? 11))%Z then "breakfast"
  else if ((11 <=? hour) && (hour <? 16))%Z then "lunch"
  else if ((16 <=? hour) && (hour <? 21))%Z then "dinner"
  else "snack".

Record validation : Type := mkValidation {
  isValid : bool;
  message : string;
  suggestion : option string
}.

Definition validateMealCombination (mealType recipeCategory : string)
    (ingredients : option (list item)) : validation :=
  let isFruitBased := detectFruits ingredients in
  if isFruitBased && array_includes ["smoothie"; "dessert"] recipeCategory then
    {| isValid := true;
       message := "Perfect " ++ recipeCategory ++ " for " ++ mealType ++ "!";
       suggestion := None |}
  else if negb isFruitBased
          && array_includes ["italian"; "thai"; "mexican"; "indian"; "mediterranean"]
               recipeCategory then
    if mealType =? "snack" then
      {| isValid := true;
         message := "Light " ++ recipeCategory ++ " snack coming up!";
         suggestion := Some "Consider smaller portions for snack time" |}
    else
      {| isValid := true;
         message := "Delicious " ++ recipeCategory ++ " " ++ mealType ++ "!";
         suggestion := None |}
  else
    {| isValid := false;
       message := "Unusual combination, but let's try it!";
       suggestion := Some "This combination might work better with different ingredients" |}.

End IngredientDetection.

(* ================================================================= *)
(** ** utils/constants.js *)

Module Constants.

Record scan_status_table : Type := mkScanStatus {
  PROCESSING : string;
  READY : string;
  CONFIRMED : string;
  COMPLETED : string
}.

Definition SCAN_STATUS : scan_status_table :=
  {| PROCESSING := "processing";
     READY := "ready";
     CONFIRMED := "confirmed";
     COMPLETED := "completed" |}.

Definition API_TIMEOUT : Z := 30000.

End Constants.

(* ================================================================= *)
(** ** services/api.js *)

Module Api.

(** What every call resolves to: [{ success: true, data }] or
    [{ success: false, error }].  [data] is [None] when the parsed body is
    falsy. *)
Record result (D : Type) : Type := mkResult {
  success : bool;
  data : option D;
  error : JS.text
}.
Arguments mkResult {D} success data error.
Arguments success {D} r.
Arguments data {D} r.
Arguments error {D} r.

(** One entry of [items] in the body of a confirm-scan request. *)
Record confirm_item : Type := mkConfirmItem {
  ci_fdc_id : JS.text;
  ci_label : JS.text;
  ci_grams : JS.value;
  ci_confirmed : bool;
  ci_manually_added : bool
}.

Record confirm_preferences : Type := mkConfirmPreferences {
  cp_diets : list string;
  cp_cuisines : list string;
  cp_allergens : list string;
  cp_servings : Z
}.

(** The argument of [startScan]: base64 image data, or an object with
    [s3Key]. *)
Inductive image_data : Type :=
| Base64 (s : string)
| S3Key (key : string).

(** The methods of [ApiService] that go through [apiCall]. *)
Inductive call : Type :=
| GetPresignedUrl (contentType : string)
| StartScan (imageData : image_data)
| GetScan (scanId : string)
| ConfirmScan (scanId : string) (items : list confirm_item)
    (preferences : confirm_preferences)
| CreateRecipe (scanId : string) (servings : Z) (cuisine skillLevel : string)
    (dietaryRestrictions : list string) (mealType recipeCategory : string)
    (testMode : bool)
| GetRecipe (recipeId : string)
| LogMeal (recipeId : string) (servings : Z).

Inductive http_method : Type := GET | POST.

Definition method_of (c : call) : http_method :=
  match c with
  | GetScan _ | GetRecipe _ => GET
  | _ => POST
  end.

Definition endpoint_of (c : call) : string :=
  match c with
  | GetPresignedUrl _ => "/uploads/presign"
  | StartScan _ => "/scans"
  | GetScan scanId => "/scans/" ++ scanId
  | ConfirmScan scanId _ _ => "/scans/" ++ scanId ++ "/confirm"
  | CreateRecipe _ _ _ _ _ _ _ _ => "/recipes"
  | GetRecipe recipeId => "/recipes/" ++ recipeId
  | LogMeal _ _ => "/meals"
  end.

(** The [body] option that each method hands to [apiCall]: the text itself
    for base64 image data, [JSON.stringify] of an object for the rest, none
    for the two GET calls. *)
Inductive body : Type :=
| Raw (s : string)
| Json (j : JS.json).

Definition strings_json (l : list string) : JS.json := JS.JArr (map JS.JStr l).

(** One element of [items] in the text of a confirm-scan body. *)
Definition confirm_item_json (ci : confirm_item) : JS.json :=
  JS.stringify_object
    [ ("fdc_id", JS.stringify_text (ci_fdc_id ci));
      ("label", JS.stringify_text (ci_label ci));
      ("grams", JS.stringify_value (ci_grams ci));
      ("confirmed", Some (JS.JBool (ci_confirmed ci)));
      ("manually_added", Some (JS.JBool (ci_manually_added ci))) ].

(** [JSON.stringify({ items, ...preferences })] *)
Definition confirmScan_body (items : list confirm_item)
    (preferences : confirm_preferences) : JS.json :=
  JS.JObj
    [ ("items", JS.JArr (map confirm_item_json items));
      ("diets", strings_json (cp_diets preferences));
      ("cuisines", strings_json (cp_cuisines preferences));
      ("allergens", strings_json (cp_allergens preferences));
      ("servings", JS.stringify_number (JS.of_Z (cp_servings preferences))) ].

Definition body_of (c : call) : option body :=
  match c with
  | GetPresignedUrl contentType =>
      Some (Json (JS.JObj [("contentType", JS.JStr contentType)]))
  | StartScan (Base64 s) => Some (Raw s)
  | StartScan (S3Key key) => Some (Json (JS.JObj [("s3Key", JS.JStr key)]))
  | GetScan _ | GetRecipe _ => None
  | ConfirmScan _ items preferences => Some (Json (confirmScan_body items preferences))
  | CreateRecipe scanId servings cuisine skillLevel dietaryRestrictions mealType
      recipeCategory testMode =>
      Some (Json (JS.JObj
        [ ("scan_id", JS.JStr scanId);
          ("servings", JS.stringify_number (JS.of_Z servings));
          ("cuisine", JS.JStr cuisine);
          ("skill_level", JS.JStr skillLevel);
          ("dietary_restrictions", strings_json dietaryRestrictions);
          ("meal_type", JS.JStr mealType);
          ("recipe_category", JS.JStr recipeCategory);
          ("test_mode", JS.JBool testMode) ]))
  | LogMeal recipeId servings =>
      Some (Json (JS.JObj
        [ ("recipe_id", JS.JStr recipeId);
          ("servings", JS.stringify_number (JS.of_Z servings)) ]))
  end.

(** [getAuthHeaders]: [token] is what [authService.getUserToken] resolved
    to ([None] for [undefined] or [null]). *)
Definition authorization_header (token : option string) : string :=
  match token with
  | Some t => if t =? "" then "" else "Bearer " ++ t
  | None => ""
  end.

Record request : Type := mkRequest {
  req_method : http_method;
  req_endpoint : string;
  req_content_type : string;
  req_authorization : string;
  req_call : call
}.

Definition request_of (token : option string) (c : call) : request :=
  {| req_method := method_of c;
     req_endpoint := endpoint_of c;
     req_content_type := "application/json";
     req_authorization := authorization_header token;
     req_call := c |}.

(** What [fetch] and the reading of the body come to: a response with its
    status, its text and its parsed JSON, an abort of the controller, or any
    other rejection. *)
Inductive fetched (D : Type) : Type :=
| Response (status : Z) (body : string) (json : JS.outcome (option D))
| Aborted
| Rejected (message : string).
Arguments Response {D} status body json.
Arguments Aborted {D}.
Arguments Rejected {D} message.

Definition decimal (n : Z) : string :=
  NilZero.string_of_int (Z.to_int n).

(** [response.ok] *)
Definition ok (status : Z) : bool := ((200 <=? status) && (status <=? 299))%Z.

(** [apiCall], after the request was sent. *)
Definition apiCall {D : Type} (f : fetched D) : result D :=
  match f with
  | Response status body json =>
      if ok status then
        match json with
        | JS.Returned d => mkResult true d JS.TAbsent
        | JS.Thrown m => mkResult false None (JS.TStr m)
        end
      else
        mkResult false None
          (JS.TStr ("HTTP error! status: " ++ decimal status ++ ", body: " ++ body))
  | Aborted =>
      mkResult false None
        (JS.TStr ("Request timed out after " ++ decimal (Constants.API_TIMEOUT / 1000) ++ " seconds"))
  | Rejected m => mkResult false None (JS.TStr m)
  end.

End Api.

(* ================================================================= *)
(** ** screens/ConfirmScreen.js *)

Module ConfirmScreen.
Import JS.

Definition DIETARY_PREFERENCES : list string :=
  [ "Vegetarian"; "Vegan"; "Gluten-free"; "Dairy-free"; "Keto"; "Paleo";
    "Low-carb"; "Mediterranean" ].

(** [route.params] *)
Record route_params : Type := mkRoute {
  scanId : string;
  imageUri : string;
  detectedItems : option (list item)
}.

(** The [useState] cells of the component. *)
Record state : Type := mkState {
  loading : bool;
  items : list item;
  servings : Z;
  selectedDiets : list string;
  selectedAllergens : list string;
  customDiet : string;
  newIngredientName : string;
  newIngredientGrams : string;
  userName : string;
  selectedMealType : string;
  selectedRecipeType : string;
  selectedCookingLevel : string;
  isFruitDetected : bool
}.

Definition initial : state :=
  {| loading := true;
     items := [];
     servings := 2;
     selectedDiets := [];
     selectedAllergens := [];
     customDiet := "";
     newIngredientName := "";
     newIngredientGrams := "100";
     userName := "";
     selectedMealType := "lunch";
     selectedRecipeType := "international";
     selectedCookingLevel := "intermediate";
     isFruitDetected := false |}.

Definition setLoading (b : bool) (st : state) : state :=
  mkState b (items st) (servings st) (selectedDiets st) (selectedAllergens st)
    (customDiet st) (newIngredientName st) (newIngredientGrams st) (userName st)
    (selectedMealType st) (selectedRecipeType st) (selectedCookingLevel st)
    (isFruitDetected st).

Definition setItems (l : list item) (st : state) : state :=
  mkState (loading st) l (servings st) (selectedDiets st) (selectedAllergens st)
    (customDiet st) (newIngredientName st) (newIngredientGrams st) (userName st)
    (selectedMealType st) (selectedRecipeType st) (selectedCookingLevel st)
    (isFruitDetected st).

Definition setServings (n : Z) (st : state) : state :=
  mkState (loading st) (items st) n (selectedDiets st) (selectedAllergens st)
    (customDiet st) (newIngredientName st) (newIngredientGrams st) (userName st)
    (selectedMealType st) (selectedRecipeType st) (selectedCookingLevel st)
    (isFruitDetected st).

Definition setSelectedDiets (l : list string) (st : state) : state :=
  mkState (loading st) (items st) (servings st) l (selectedAllergens st)
    (customDiet st) (newIngredientName st) (newIngredientGrams st) (userName st)
    (selectedMealType st) (selectedRecipeType st) (selectedCookingLevel st)
    (isFruitDetected st).

Definition setCustomDiet (s : string) (st : state) : state :=
  mkState (loading st) (items st) (servings st) (selectedDiets st)
    (selectedAllergens st) s (newIngredientName st) (newIngredientGrams st)
    (userName st) (selectedMealType st) (selectedRecipeType st)
    (selectedCookingLevel st) (isFruitDetected st).

Definition setNewIngredientName (s : string) (st : state) : state :=
  mkState (loading st) (items st) (servings st) (selectedDiets st)
    (selectedAllergens st) (customDiet st) s (newIngredientGrams st)
    (userName st) (selectedMealType st) (selectedRecipeType st)
    (selectedCookingLevel st) (isFruitDetected st).

Definition setNewIngredientGrams (s : string) (st : state) : state :=
  mkState (loading st) (items st) (servings st) (selectedDiets st)
    (selectedAllergens st) (customDiet st) (newIngredientName st) s
    (userName st) (selectedMealType st) (selectedRecipeType st)
    (selectedCookingLevel st) (isFruitDetected st).

Definition setUserName (s : string) (st : state) : state :=
  mkState (loading st) (items st) (servings st) (selectedDiets st)
    (selectedAllergens st) (customDiet st) (newIngredientName st)
    (newIngredientGrams st) s (selectedMealType st) (selectedRecipeType st)
    (selectedCookingLevel st) (isFruitDetected st).

Definition setSelectedMealType (s : string) (st : state) : state :=
  mkState (loading st) (items st) (servings st) (selectedDiets st)
    (selectedAllergens st) (customDiet st) (newIngredientName st)
    (newIngredientGrams st) (userName st) s (selectedRecipeType st)
    (selectedCookingLevel st) (isFruitDetected st).

Definition setSelectedRecipeType (s : string) (st : state) : state :=
  mkState (loading st) (items st) (servings st) (selectedDiets st)
    (selectedAllergens st) (customDiet st) (newIngredientName st)
    (newIngredientGrams st) (userName st) (selectedMealType st) s
    (selectedCookingLevel st) (isFruitDetected st).

Definition setSelectedCookingLevel (s : string) (st : state) : state :=
  mkState (loading st) (items st) (servings st) (selectedDiets st)
    (selectedAllergens st) (customDiet st) (newIngredientName st)
    (newIngredientGrams st) (userName st) (selectedMealType st)
    (selectedRecipeType st) s (isFruitDetected st).

Definition setIsFruitDetected (b : bool) (st : state) : state :=
  mkState (loading st) (items st) (servings st) (selectedDiets st)
    (selectedAllergens st) (customDiet st) (newIngredientName st)
    (newIngredientGrams st) (userName st) (selectedMealType st)
    (selectedRecipeType st) (selectedCookingLevel st) b.

(** The [preferences] object passed to the Recipe screen. *)
Record preferences : Type := mkPreferences {
  p_diets : list string;
  p_cuisines : list string;
  p_allergens : list string;
  p_mealType : string;
  p_recipeType : string;
  p_cookingLevel : string;
  p_isFruitDetected : bool
}.

(** The parameters of [navigation.navigate('Recipe', ...)]. *)
Record recipe_params : Type := mkRecipeParams {
  r_scanId : string;
  r_confirmedItems : list item;
  r_servings : Z;
  r_preferences : preferences
}.

(** What a handler does besides setting state ([console.log] left out). *)
Inductive effect : Type :=
| Alert (title message : string)
| Call (c : Api.call)
| Navigate (screen : string) (params : recipe_params)
| SetTimeout (ms : Z).
    (* the only timer callback of the screen is [loadScanResults] *)

(** The user object of [authService.getCurrentUser()]. *)
Record user : Type := mkUser {
  loginId : JS.text;     (* user.signInDetails?.loginId *)
  username : JS.text
}.

(** [email.split('@')[0]] *)
Fixpoint before_at (email : string) : string :=
  match email with
  | EmptyString => EmptyString
  | String c rest => if (nat_of_ascii c =? 64)%nat then EmptyString
                     else String c (before_at rest)
  end.

(** [loadUserInfo]; [awaited] is what [await authService.getCurrentUser()]
    comes to, its [user] field read as [data].  An exception is swallowed. *)
Definition loadUserInfo (st : state) (awaited : outcome (Api.result user)) : state :=
  match awaited with
  | Returned userResult =>
      match Api.success userResult, Api.data userResult with
      | true, Some u =>
          let email :=
            match loginId u with
            | TStr s => if s =? "" then text_or (username u) "" else s
            | _ => text_or (username u) ""
            end in
          setUserName (before_at email) st
      | _, _ => st
      end
  | Thrown _ => st
  end.

(** The body of a get-scan response. *)
Record scan_data : Type := mkScanData {
  d_items : option (list item);
  d_status : JS.text
}.

Fixpoint mapi_from {A B : Type} (f : A -> nat -> B) (index : nat) (l : list A)
  : list B :=
  match l with
  | [] => []
  | a :: l' => f a index :: mapi_from f (S index) l'
  end.

(** [array.map((item, index) => ...)] *)
Definition mapi {A B : Type} (f : A -> nat -> B) (l : list A) : list B :=
  mapi_from f 0 l.

(** The callback that auto-confirms the first ingredient and normalizes the
    gram fields. *)
Definition firstConfirmed (it : item) (index : nat) : item :=
  {| label := label it;
     fdc_id := fdc_id it;
     confidence := confidence it;
     grams_est := JS.or (JS.or (grams_est it) (grams it)) (VNum 100);
     grams := JS.or (JS.or (grams it) (grams_est it)) (VNum 100);
     confirmed := (index =? 0)%nat;
     manually_added := Some false |}.

Definition mockItem (name : string) : item :=
  {| label := TStr name;
     fdc_id := TStr "";
     confidence := VNum 0.5;
     grams_est := VNum 100;
     grams := VUndefined;
     confirmed := true;
     manually_added := None |}.

Definition is_mock_scan (id : string) : bool :=
  startsWith id "mock_" || startsWith id "manual_" || startsWith id "test_".

(** One invocation of [loadScanResults]; [awaited] is what
    [await apiService.getScan(scanId)] comes to (not looked at when the
    call is not made). *)
Definition loadScanResults (rp : route_params) (st : state)
    (awaited : outcome (Api.result scan_data)) : state * list effect :=
  if is_mock_scan (scanId rp) then
    (setLoading false (setItems [mockItem "unknown food"] st), [])
  else
    let call := Call (Api.GetScan (scanId rp)) in
    match awaited with
    | Thrown message =>
        (setLoading false (setItems [] st),
         [call; Alert "Error" ("Failed to load scan results: " ++ message)])
    | Returned result =>
        match Api.success result, Api.data result with
        | true, Some d =>
            match d_items d with
            | Some (i :: l) =>
                let itemsWithFirstConfirmed := mapi firstConfirmed (i :: l) in
                let st1 := setItems itemsWithFirstConfirmed st in
                let fruitsDetected :=
                  IngredientDetection.detectFruits (Some itemsWithFirstConfirmed) in
                let st2 := setIsFruitDetected fruitsDetected st1 in
                let st3 :=
                  if fruitsDetected then setSelectedRecipeType "smoothie" st2 else st2 in
                (setLoading false st3, [call])
            | _ =>
                if text_eq (d_status d) "processing" then
                  (st, [call; SetTimeout 2000])
                else
                  (setLoading false (setItems [mockItem "unknown food item"] st), [call])
            end
        | _, _ =>
            match detectedItems rp with
            | Some (i :: l) =>
                let itemsWithFirstConfirmed := mapi firstConfirmed (i :: l) in
                (setLoading false (setItems itemsWithFirstConfirmed st), [call])
            | _ =>
                let errorMsg := text_or (Api.error result) "Unknown error" in
                (setLoading false (setItems [mockItem "unknown food item"] st),
                 [call;
                  Alert "Detection Failed"
                    ("Real AI detection failed: " ++ errorMsg
                     ++ String (ascii_of_nat 10) (String (ascii_of_nat 10)
                          "Using fallback detection for now."))])
            end
        end
    end.

(** An invocation that ended by arming the two-second timer. *)
Definition rescheduled (effects : list effect) : bool :=
  existsb (fun e => match e with SetTimeout _ => true | _ => false end) effects.


(** [l[index] = f(l[index])] for an index within the array. *)
Fixpoint update_at {A : Type} (f : A -> A) (index : nat) (l : list A) : list A :=
  match l, index with
  | [], _ => []
  | a :: l', O => f a :: l'
  | a :: l', S n => a :: update_at f n l'
  end.

Definition set_grams (gramsValue : float) (it : item) : item :=
  {| label := label it;
     fdc_id := fdc_id it;
     confidence := confidence it;
     grams_est := VNum gramsValue;
     grams := VNum gramsValue;
     confirmed := confirmed it;
     manually_added := manually_added it |}.

Definition flip_confirmed (it : item) : item :=
  {| label := label it;
     fdc_id := fdc_id it;
     confidence := confidence it;
     grams_est := grams_est it;
     grams := grams it;
     confirmed := negb (confirmed it);
     manually_added := manually_added it |}.

(** [x || d] for a number [x] and a numeric literal [d]. *)
Definition num_or (x d : float) : float :=
  if truthy (VNum x) then x else d.

Section Handlers.

(** The platform's [parseFloat], from the text of an input field to a
    number ([NaN] when the text starts with no number); [JS.parseFloat] is
    the function of the language. *)
Variable parseFloat : string -> float.

(** An index outside the array makes the handler throw a TypeError before
    it reaches [setItems]: the state stays. *)
Definition updateItemGrams (index : nat) (grams_text : string) (st : state)
  : state :=
  let gramsValue := num_or (parseFloat grams_text) 0 in
  if (index <? List.length (items st))%nat
  then setItems (update_at (set_grams gramsValue) index (items st)) st
  else st.

Definition toggleItemConfirmed (index : nat) (st : state) : state :=
  if (index <? List.length (items st))%nat
  then setItems (update_at flip_confirmed index (items st)) st
  else st.

(** [togglePreference(item, selectedDiets, setSelectedDiets)] *)
Definition togglePreference (pref : string) (st : state) : state :=
  let list := selectedDiets st in
  if array_includes list pref
  then setSelectedDiets (filter (fun i => negb (i =? pref)) list) st
  else setSelectedDiets (list ++ [pref]) st.

Definition addCustomDiet (st : state) : state :=
  let trimmed := trim (customDiet st) in
  if negb (trimmed =? "") && negb (array_includes (selectedDiets st) trimmed)
  then setCustomDiet "" (setSelectedDiets (selectedDiets st ++ [trimmed]) st)
  else st.

(** [now] is the value of [Date.now()]. *)
Definition addNewIngredient (now : Z) (st : state) : state :=
  let trimmed := trim (newIngredientName st) in
  if negb (trimmed =? "") then
    let newItem :=
      {| label := TStr trimmed;
         fdc_id := TStr ("manual_" ++ Api.decimal now);
         confidence := VNum 1;
         grams_est := VUndefined;
         grams := VNum (num_or (parseFloat (newIngredientGrams st)) 100);
         confirmed := true;
         manually_added := Some true |} in
    setNewIngredientGrams "100"
      (setNewIngredientName "" (setItems (items st ++ [newItem]) st))
  else st.

(** The entry of the request body built from a confirmed item. *)
Definition confirmation_item (it : item) : Api.confirm_item :=
  {| Api.ci_fdc_id := fdc_id it;
     Api.ci_label := label it;
     Api.ci_grams := JS.or (grams it) (grams_est it);
     Api.ci_confirmed := true;
     Api.ci_manually_added :=
       match manually_added it with Some b => b | None => false end |}.

Definition cuisines_of (st : state) : list string :=
  if isFruitDetected st then [] else [selectedRecipeType st].

Definition navigationPreferences (st : state) : preferences :=
  {| p_diets := selectedDiets st;
     p_cuisines := cuisines_of st;
     p_allergens := selectedAllergens st;
     p_mealType := selectedMealType st;
     p_recipeType := selectedRecipeType st;
     p_cookingLevel := selectedCookingLevel st;
     p_isFruitDetected := isFruitDetected st |}.

(** [handleConfirm]; [awaited] is what [await apiService.confirmScan(...)]
    comes to.  The state returned is the one after [finally]. *)
Definition handleConfirm (rp : route_params) (st : state)
    (awaited : outcome (Api.result unit)) : state * list effect :=
  let confirmedItems := filter confirmed (items st) in
  if (List.length confirmedItems =? 0)%nat then
    (st, [Alert "Error" "Please confirm at least one ingredient"])
  else
    let confirmationData_items := map confirmation_item confirmedItems in
    let call :=
      Call (Api.ConfirmScan (scanId rp) confirmationData_items
              {| Api.cp_diets := selectedDiets st;
                 Api.cp_cuisines := cuisines_of st;
                 Api.cp_allergens := selectedAllergens st;
                 Api.cp_servings := servings st |}) in
    match awaited with
    | Returned confirmResponse =>
        (setLoading false st,
         [call;
          Navigate "Recipe"
            {| r_scanId := scanId rp;
               r_confirmedItems := confirmedItems;
               r_servings := servings st;
               r_preferences := navigationPreferences st |}])
    | Thrown _ =>
        (setLoading false st,
         [call;
          Navigate "Recipe"
            {| r_scanId := scanId rp;
               r_confirmedItems := filter confirmed (items st);
               r_servings := servings st;
               r_preferences := navigationPreferences st |}])
    end.

(** *** What is on the screen *)

(** The component returns the spinner while [loading && items.length === 0]. *)
Definition shows_form (st : state) : bool :=
  negb (loading st && (List.length (items st) =? 0)%nat).

Definition MEAL_TYPES : list string := ["Breakfast"; "Lunch"; "Dinner"; "Snack"].
Definition COOKING_LEVELS : list string := ["Beginner"; "Intermediate"; "Advanced"].

Definition recipeTypeTitle (st : state) : string :=
  if isFruitDetected st then "Recipe Type:" else "Cuisine Type:".

(** The chips under that title. *)
Definition recipeTypeOptions (st : state) : list string :=
  if isFruitDetected st then ["Smoothie"; "Dessert"]
  else ["Italian"; "Mexican"; "Asian"; "Indian"; "Mediterranean"; "American"].

(** *** User and platform events *)

Inductive event : Type :=
| LoadScanResults (awaited : outcome (Api.result scan_data))
| LoadUserInfo (awaited : outcome (Api.result user))
| ChangeGrams (index : nat) (grams_text : string)
| PressCheckbox (index : nat)
| ChangeNewIngredientName (name : string)
| ChangeNewIngredientGrams (grams_text : string)
| PressAddIngredient (now : Z)
| PressServingsMinus
| PressServingsPlus
| PressMealType (mealType : string)
| PressRecipeType (recipeType : string)
| PressCookingLevel (level : string)
| PressDiet (diet : string)
| ChangeCustomDiet (diet : string)
| PressAddCustomDiet
| PressGenerateRecipe (awaited : outcome (Api.result unit)).

(** A chip is pressed only if it is on the screen. *)
Definition press (options : list string) (name : string)
    (setter : string -> state -> state) (st : state) : state :=
  if array_includes options name then setter (toLowerCase name) st else st.

Definition dispatch (rp : route_params) (st : state) (e : event)
  : state * list effect :=
  match e with
  | LoadScanResults awaited => loadScanResults rp st awaited
  | LoadUserInfo awaited => (loadUserInfo st awaited, [])
  | PressGenerateRecipe awaited =>
      if shows_form st && negb (loading st) then handleConfirm rp st awaited
      else (st, [])
  | _ =>
      if shows_form st then
        (match e with
         | ChangeGrams index grams_text => updateItemGrams index grams_text st
         | PressCheckbox index => toggleItemConfirmed index st
         | ChangeNewIngredientName name => setNewIngredientName name st
         | ChangeNewIngredientGrams grams_text => setNewIngredientGrams grams_text st
         | PressAddIngredient now => addNewIngredient now st
         | PressServingsMinus => setServings (Z.max 1 (servings st - 1)) st
         | PressServingsPlus => setServings (servings st + 1) st
         | PressMealType mealType => press MEAL_TYPES mealType setSelectedMealType st
         | PressRecipeType recipeType =>
             press (recipeTypeOptions st) recipeType setSelectedRecipeType st
         | PressCookingLevel level =>
             press COOKING_LEVELS level setSelectedCookingLevel st
         | PressDiet diet =>
             if array_includes DIETARY_PREFERENCES diet
                || array_includes (selectedDiets st) diet
             then togglePreference diet st else st
         | ChangeCustomDiet diet => setCustomDiet diet st
         | PressAddCustomDiet => addCustomDiet st
         | _ => st
         end, [])
      else (st, [])
  end.

(** The states the screen can be in after it was mounted with [rp]. *)
Inductive reachable (rp : route_params) : state -> Prop :=
| reachable_initial : reachable rp initial
| reachable_step st e :
    reachable rp st -> reachable rp (fst (dispatch rp st e)).

(** The effects of a sequence of events, in order. *)
Fixpoint run (rp : route_params) (st : state) (events : list event)
  : state * list effect :=
  match events with
  | [] => (st, [])
  | e :: rest =>
      let (st', effects) := dispatch rp st e in
      let (st'', effects') := run rp st' rest in
      (st'', effects ++ effects')
  end.

End Handlers.

End ConfirmScreen.

(* ================================================================= *)
(** ** components/RecipeCategorySelector.js *)

Module RecipeCategorySelector.

Record category : Type := mkCategory {
  id : string;
  name : string;
  description : string;
  examples : list string
}.

(** The options listed by the modal, by its [isFruitDetected] property
    ([false] when the property is not given). *)
Definition categoryOptions (isFruitDetected : bool) : list category :=
  if isFruitDetected then
    [ mkCategory "smoothie" "🥤 Smoothie" "Blended fruit drinks"
        ["Green Smoothie"; "Berry Blast"; "Tropical Mix"];
      mkCategory "dessert" "🍰 Dessert" "Sweet fruit treats"
        ["Fruit Salad"; "Parfait"; "Fruit Tart"] ]
  else
    [ mkCategory "italian" "🇮🇹 Italian" "Fresh pasta, authentic flavors"
        ["Parmigiana"; "Cacciatora"; "Herb Roasted"];
      mkCategory "thai" "🇹🇭 Thai" "Sweet, sour, salty, spicy balance"
        ["Green Curry"; "Pad Kra Pao"; "Satay"];
      mkCategory "mexican" "🇲🇽 Mexican" "Bold flavors, fresh ingredients"
        ["Fajitas"; "Grilled"; "Sautéed"];
      mkCategory "indian" "🇮🇳 Indian" "Rich spices, traditional techniques"
        ["Curry"; "Tandoori"; "Biryani"];
      mkCategory "mediterranean" "🇬🇷 Mediterranean"
        "Fresh herbs, olive oil, healthy cooking"
        ["Grilled"; "Baked"; "Fresh Salads"] ].

Definition title (isFruitDetected : bool) : string :=
  if isFruitDetected then "What type of recipe?" else "Choose Your Cuisine".

Definition subtitle (isFruitDetected : bool) : string :=
  if isFruitDetected then "Perfect for your fruits"
  else "Get detailed, authentic recipes".

End RecipeCategorySelector.

(* ================================================================= *)
(** ** screens/RecipeScreen.js *)

Module RecipeScreen.
Import JS.

(** The [notes] of an ingredient line: a string, or, in the template
    recipes, a member of [Object.prototype] (see [getIngredientNotes]). *)
Inductive note : Type :=
| Note (s : string)
| Inherited (key : string).

Record recipe_ingredient : Type := mkRecipeIngredient {
  ri_name : JS.text;
  ri_grams : JS.value;
  ri_notes : note;
  ri_fdc_id : option string
}.

(** A recipe object, built here or received from the API. *)
Record recipe : Type := mkRecipe {
  id : JS.text;
  ai_generated : option bool;
  title : string;
  recipe_servings : Z;
  estimated_time : option string;
  difficulty : option string;
  cuisine : option string;
  meal_type : option string;
  recipe_category : option string;
  tags : list string;
  ingredients : list recipe_ingredient;
  steps : list string;
  substitutions : list string;
  warnings : list string
}.

(** [route.params] *)
Record route_params : Type := mkRoute {
  scanId : string;
  confirmedItems : option (list item);
  servings : Z;
  preferences : option ConfirmScreen.preferences
}.

(** The state cells that the modelled functions read or write (the
    nutrition estimate, the user name and the flags of the other modals are
    left out). *)
Record state : Type := mkState {
  loading : bool;
  recipe_shown : option recipe;
  recipeOptions : option (list recipe);
  showRecipeSelection : bool;
  selectedRecipeIndex : nat;
  selectedCuisine : string;
  selectedSkillLevel : string;
  dietaryRestrictions : list string;
  selectedMealType : string;
  selectedRecipeCategory : string;
  isFruitDetected : bool;
  showPreferences : bool
}.

(** [a || b] on strings. *)
Definition str_or (a b : string) : string := if a =? "" then b else a.

(** [preferences?.field || d] *)
Definition pref_or (p : option ConfirmScreen.preferences)
    (field : ConfirmScreen.preferences -> string) (d : string) : string :=
  match p with
  | Some q => str_or (field q) d
  | None => d
  end.

Definition first_cuisine (p : option ConfirmScreen.preferences) : string :=
  match p with
  | Some q => match ConfirmScreen.p_cuisines q with
              | c :: _ => toLowerCase c
              | [] => ""
              end
  | None => ""
  end.

(** The initial values given to [useState]. *)
Definition initial (rp : route_params) : state :=
  let p := preferences rp in
  {| loading := true;
     recipe_shown := None;
     recipeOptions := Some [];
     showRecipeSelection := false;
     selectedRecipeIndex := 0;
     selectedCuisine :=
       str_or (first_cuisine p) (pref_or p ConfirmScreen.p_recipeType "international");
     selectedSkillLevel := pref_or p ConfirmScreen.p_cookingLevel "intermediate";
     dietaryRestrictions :=
       match p with Some q => ConfirmScreen.p_diets q | None => [] end;
     selectedMealType := pref_or p ConfirmScreen.p_mealType "lunch";
     selectedRecipeCategory := pref_or p ConfirmScreen.p_recipeType "smoothie";
     isFruitDetected :=
       match p with Some q => ConfirmScreen.p_isFruitDetected q | None => false end;
     showPreferences :=
       (pref_or p ConfirmScreen.p_mealType "" =? "")
       && (pref_or p ConfirmScreen.p_recipeType "" =? "")
       && (pref_or p ConfirmScreen.p_cookingLevel "" =? "") |}.

Definition setLoading (b : bool) (st : state) : state :=
  mkState b (recipe_shown st) (recipeOptions st) (showRecipeSelection st)
    (selectedRecipeIndex st) (selectedCuisine st) (selectedSkillLevel st)
    (dietaryRestrictions st) (selectedMealType st) (selectedRecipeCategory st)
    (isFruitDetected st) (showPreferences st).

Definition setRecipe (r : option recipe) (st : state) : state :=
  mkState (loading st) r (recipeOptions st) (showRecipeSelection st)
    (selectedRecipeIndex st) (selectedCuisine st) (selectedSkillLevel st)
    (dietaryRestrictions st) (selectedMealType st) (selectedRecipeCategory st)
    (isFruitDetected st) (showPreferences st).

Definition setRecipeOptions (l : option (list recipe)) (st : state) : state :=
  mkState (loading st) (recipe_shown st) l (showRecipeSelection st)
    (selectedRecipeIndex st) (selectedCuisine st) (selectedSkillLevel st)
    (dietaryRestrictions st) (selectedMealType st) (selectedRecipeCategory st)
    (isFruitDetected st) (showPreferences st).

Definition setShowRecipeSelection (b : bool) (st : state) : state :=
  mkState (loading st) (recipe_shown st) (recipeOptions st) b
    (selectedRecipeIndex st) (selectedCuisine st) (selectedSkillLevel st)
    (dietaryRestrictions st) (selectedMealType st) (selectedRecipeCategory st)
    (isFruitDetected st) (showPreferences st).

Definition setSelectedRecipeIndex (n : nat) (st : state) : state :=
  mkState (loading st) (recipe_shown st) (recipeOptions st) (showRecipeSelection st)
    n (selectedCuisine st) (selectedSkillLevel st)
    (dietaryRestrictions st) (selectedMealType st) (selectedRecipeCategory st)
    (isFruitDetected st) (showPreferences st).

Definition setSelectedCuisine (c : string) (st : state) : state :=
  mkState (loading st) (recipe_shown st) (recipeOptions st) (showRecipeSelection st)
    (selectedRecipeIndex st) c (selectedSkillLevel st)
    (dietaryRestrictions st) (selectedMealType st) (selectedRecipeCategory st)
    (isFruitDetected st) (showPreferences st).

Definition setSelectedMealType (m : string) (st : state) : state :=
  mkState (loading st) (recipe_shown st) (recipeOptions st) (showRecipeSelection st)
    (selectedRecipeIndex st) (selectedCuisine st) (selectedSkillLevel st)
    (dietaryRestrictions st) m (selectedRecipeCategory st)
    (isFruitDetected st) (showPreferences st).

Definition setSelectedRecipeCategory (c : string) (st : state) : state :=
  mkState (loading st) (recipe_shown st) (recipeOptions st) (showRecipeSelection st)
    (selectedRecipeIndex st) (selectedCuisine st) (selectedSkillLevel st)
    (dietaryRestrictions st) (selectedMealType st) c
    (isFruitDetected st) (showPreferences st).

Definition setIsFruitDetected (b : bool) (st : state) : state :=
  mkState (loading st) (recipe_shown st) (recipeOptions st) (showRecipeSelection st)
    (selectedRecipeIndex st) (selectedCuisine st) (selectedSkillLevel st)
    (dietaryRestrictions st) (selectedMealType st) (selectedRecipeCategory st)
    b (showPreferences st).

(** [confirmedItems || []] *)
Definition items_or_empty (l : option (list item)) : option (list item) :=
  match l with
  | Some l' => Some l'
  | None => Some []
  end.

(** [initializePreferences]; [now] is the value of [new Date()]. *)
Definition initializePreferences (now : IngredientDetection.Date)
    (rp : route_params) (st : state) : state :=
  match preferences rp with
  | None =>
      let ingredients := items_or_empty (confirmedItems rp) in
      let fruitDetected := IngredientDetection.detectFruits ingredients in
      let st1 := setIsFruitDetected fruitDetected st in
      let suggestedMeal := IngredientDetection.suggestMealType now ingredients None in
      let st2 := setSelectedMealType suggestedMeal st1 in
      let defaultCategory :=
        IngredientDetection.defaultCategory
          (IngredientDetection.getRecipeCategories ingredients) in
      let st3 := setSelectedRecipeCategory defaultCategory st2 in
      if negb fruitDetected then setSelectedCuisine defaultCategory st3 else st3
  | Some _ => st
  end.

(** What the buttons of an alert run when pressed. *)
Inductive action : Type :=
| RunGenerateRecipe
| RunGenerateMockRecipe
| GoBack.

Record button : Type := mkButton {
  text : string;
  onPress : action
}.

(** What a timer of the screen runs when it fires:
    [reject(new Error(message))] on the promise that [generateRecipe] races
    against the create-recipe call.  It settles that race when the call has
    not come back, and does nothing otherwise; no function of the screen is
    run and no state is set. *)
Inductive callback : Type :=
| RejectRace (message : string).

(** What a handler does besides setting state ([console.log] and
    [console.error] left out). *)
Inductive effect : Type :=
| Alert (title message : string) (buttons : list button)
| Call (c : Api.call)
| SetTimeout (run : callback) (ms : Z)
| NavigateBack.

(** The body of a create-recipe response. *)
Record create_data : Type := mkCreateData {
  recipe_ids : option (list string);
  recipe_id : JS.text;
  recipes : option (list recipe);
  test_mode : bool
}.

(** The body of a get-recipe response ([nutrition] left out). *)
Record recipe_details : Type := mkRecipeDetails {
  details_recipe : option recipe
}.

(** A text value inside a template literal or a URL. *)
Definition text_to_string (t : JS.text) : string :=
  match t with
  | TStr s => s
  | TNull => "null"
  | TAbsent => "undefined"
  end.

Definition newline : string := String (ascii_of_nat 10) "".

Definition NO_RECIPES_MESSAGE : string :=
  "Our AI couldn't generate recipes for your ingredients. This might be because:"
  ++ newline ++ newline
  ++ "• The ingredients are unusual or not commonly cooked together" ++ newline
  ++ "• The AI service is temporarily unavailable" ++ newline
  ++ "• The ingredient detection wasn't accurate" ++ newline ++ newline
  ++ "Please try scanning different ingredients or try again later.".

(** The [catch] block of [generateRecipe], for an error with [message]. *)
Definition generateRecipe_catch (message : string) (st : state)
  : state * list effect :=
  let isNoRecipeError :=
    includes message "Recipe generation failed"
    || includes message "AI could not generate recipes" in
  let isNetworkError :=
    includes message "timeout" || includes message "Network"
    || includes message "fetch" in
  let alert :=
    if isNetworkError then
      Alert "Connection Issue"
        ("Unable to connect to the recipe service. Please check your internet connection and try again."
         ++ newline ++ newline ++ "Error: " ++ message)
        [ mkButton "Retry" RunGenerateRecipe;
          mkButton "Use Mock Recipe" RunGenerateMockRecipe;
          mkButton "Go Back" GoBack ]
    else if isNoRecipeError then
      Alert "No Recipes Found" NO_RECIPES_MESSAGE
        [ mkButton "Try Again" RunGenerateRecipe;
          mkButton "Use Mock Recipe" RunGenerateMockRecipe;
          mkButton "Go Back" GoBack ]
    else
      Alert "Recipe Generation Failed"
        ("Unable to generate recipes: " ++ message ++ newline ++ newline
         ++ "Please try again or check your connection.")
        [ mkButton "Retry" RunGenerateRecipe;
          mkButton "Use Mock Recipe" RunGenerateMockRecipe;
          mkButton "Go Back" GoBack ] in
  (setLoading false st, [alert]).

Definition TIMEOUT_MESSAGE : string := "Request timeout after 15 seconds".
Definition FETCH_FAILED_MESSAGE : string := "Failed to fetch recipe details".

Section Engine.

(** The message of the TypeError the engine throws when a property of
    [null] or [undefined] is read. *)
Variable type_error : string.

(** The part shared by the two branches that load a recipe:
    [await apiService.getRecipe(id)] and what follows it. *)
Definition load_recipe (recipeId : string) (index : option nat) (st : state)
    (fetched : outcome (Api.result recipe_details)) : state * list effect :=
  let call := Call (Api.GetRecipe recipeId) in
  let failed (message : string) :=
    let (st', effects) := generateRecipe_catch message st in
    (st', call :: effects) in
  match fetched with
  | Thrown message => failed message
  | Returned recipeResponse =>
      if Api.success recipeResponse then
        match Api.data recipeResponse with
        | Some recipeData =>
            let st1 := setRecipe (details_recipe recipeData) st in
            let st2 := match index with
                       | Some n => setSelectedRecipeIndex n st1
                       | None => st1
                       end in
            (setLoading false st2, [call])
        | None => failed type_error
        end
      else failed FETCH_FAILED_MESSAGE
  end.

(** [generateRecipe] from the point where the race between
    [apiService.createRecipe(...)] and the 15-second timer is settled:
    [created] is what the race comes to ([Thrown TIMEOUT_MESSAGE] when the
    timer wins); [fetched] is what [await apiService.getRecipe(...)] comes
    to, when that call is made. *)
Definition generateRecipe_resume (st : state)
    (created : outcome (Api.result create_data))
    (fetched : outcome (Api.result recipe_details)) : state * list effect :=
  match created with
  | Thrown message => generateRecipe_catch message st
  | Returned createResponse =>
      let unexpected :=
        generateRecipe_catch
          (text_or (Api.error createResponse) "Unexpected API response format") st in
      if negb (Api.success createResponse) then unexpected
      else
        match Api.data createResponse with
        | None => generateRecipe_catch type_error st
        | Some d =>
            match recipe_ids d with
            | Some _ =>
                let st1 := setRecipeOptions (recipes d) st in
                match recipes d with
                | None => generateRecipe_catch type_error st1
                | Some [r] =>
                    if test_mode d
                       || match ai_generated r with Some _ => true | None => false end
                    then
                      (setLoading false
                         (setSelectedRecipeIndex 0 (setRecipe (Some r) st1)), [])
                    else load_recipe (text_to_string (id r)) (Some 0%nat) st1 fetched
                | Some _ => (setLoading false (setShowRecipeSelection true st1), [])
                end
            | None =>
                match recipe_id d with
                | TStr rid =>
                    if rid =? "" then unexpected else load_recipe rid None st fetched
                | _ => unexpected
                end
            end
        end
  end.

(** One invocation of [generateRecipe]: the 15-second timer is armed (the
    executor of [timeoutPromise] runs at once, and the timer is never
    cleared), the create-recipe call is made, then the rest. *)
Definition generateRecipe (rp : route_params) (st : state)
    (created : outcome (Api.result create_data))
    (fetched : outcome (Api.result recipe_details)) : state * list effect :=
  let timer := SetTimeout (RejectRace TIMEOUT_MESSAGE) 15000 in
  let call :=
    Call (Api.CreateRecipe (scanId rp) (servings rp)
            (if isFruitDetected st then "healthy" else selectedCuisine st)
            (selectedSkillLevel st) (dietaryRestrictions st)
            (selectedMealType st) (selectedRecipeCategory st) false) in
  let rest := generateRecipe_resume st created fetched in
  (fst rest, timer :: call :: snd rest).

End Engine.

(** [s.charAt(0).toUpperCase() + s.slice(1)] (ASCII) *)
Definition upper_ascii (c : ascii) : ascii :=
  let n := nat_of_ascii c in
  if (97 <=? n)%nat && (n <=? 122)%nat then ascii_of_nat (n - 32) else c.

Definition capitalize (s : string) : string :=
  match s with
  | EmptyString => EmptyString
  | String c s' => String (upper_ascii c) s'
  end.

(** [confirmedItems?.map(...) || [default]] *)
Definition mock_ingredients (l : option (list item)) : list recipe_ingredient :=
  match l with
  | Some l' =>
      map (fun it =>
             {| ri_name := label it;
                ri_grams := JS.or (grams_est it) (VNum 100);
                ri_notes := Note "prepared as needed";
                ri_fdc_id := Some (text_or (fdc_id it) "") |}) l'
  | None =>
      [ {| ri_name := TStr "Main ingredient";
           ri_grams := VNum 200;
           ri_notes := Note "prepared as needed";
           ri_fdc_id := Some "" |} ]
  end.

(** [generateMockRecipe]: the template recipe shown as the fallback. *)
Definition mockRecipe (rp : route_params) (st : state) : recipe :=
  let cuisineType :=
    if isFruitDetected st then selectedRecipeCategory st else selectedCuisine st in
  {| id := TAbsent;
     ai_generated := None;
     title := "Mock " ++ capitalize cuisineType ++ " Recipe";
     recipe_servings := servings rp;
     estimated_time := Some "25 minutes";
     difficulty := Some (selectedSkillLevel st);
     cuisine := Some cuisineType;
     meal_type := Some (selectedMealType st);
     recipe_category := Some (selectedRecipeCategory st);
     tags := [cuisineType; selectedSkillLevel st; selectedMealType st; "25-min"];
     ingredients := mock_ingredients (confirmedItems rp);
     steps :=
       [ "Prepare all ingredients by washing and cutting as needed.";
           "Heat 2 tablespoons oil in a large pan over medium heat.";
           "Add the main ingredients and cook for 5-7 minutes.";
           "Season with salt, pepper, and your favorite spices.";
           "Continue cooking until ingredients are tender and well combined.";
           "Taste and adjust seasoning as needed.";
           "Serve hot and enjoy your meal!" ];
     substitutions :=
       [ "You can substitute ingredients based on what you have available";
           "Adjust cooking time based on ingredient size and preference";
           "Add herbs and spices to enhance flavor" ];
     warnings :=
       [ "This is a mock recipe for testing purposes";
           "Adjust cooking times and temperatures as needed" ] |}.

Definition generateMockRecipe (rp : route_params) (st : state) : state :=
  setLoading false (setRecipe (Some (mockRecipe rp st)) st).

(** What pressing an alert button runs; [created] and [fetched] are what
    the calls of a new [generateRecipe] come to. *)
Definition press (type_error : string) (a : action) (rp : route_params) (st : state)
    (created : outcome (Api.result create_data))
    (fetched : outcome (Api.result recipe_details)) : state * list effect :=
  match a with
  | RunGenerateRecipe => generateRecipe type_error rp st created fetched
  | RunGenerateMockRecipe => (generateMockRecipe rp st, [])
  | GoBack => (st, [NavigateBack])
  end.

(** *** What the screen renders *)

(** The five [return]s of the component. *)
Inductive view : Type :=
| LoadingView
| PreferencesView
| SelectionView (options : list recipe)
| FailedView (retry : button)
| RecipeView (r : recipe).

(** The button of the 'Failed to generate recipe' view. *)
Definition TRY_AGAIN : button := mkButton "Try Again" RunGenerateRecipe.

(** The tests the component makes, in order, to choose what it returns:
    [loading], [showPreferences],
    [showRecipeSelection && recipeOptions.length > 0] and [!recipe].
    Reading [length] of an undefined [recipeOptions] throws. *)
Definition render (type_error : string) (st : state) : outcome view :=
  if loading st then Returned LoadingView
  else if showPreferences st then Returned PreferencesView
  else
    let rest :=
      match recipe_shown st with
      | None => FailedView TRY_AGAIN
      | Some r => RecipeView r
      end in
    if showRecipeSelection st then
      match recipeOptions st with
      | None => Thrown type_error
      | Some [] => Returned rest
      | Some l => Returned (SelectionView l)
      end
    else Returned rest.

(** *** The template recipes *)

Definition INGREDIENT_NOTES : list (string * string) :=
  [ ("apple", "washed and cored");
    ("banana", "ripe, peeled and sliced");
    ("egg", "room temperature works best");
    ("potato", "washed and peeled if desired");
    ("tomato", "ripe and fresh");
    ("chicken", "boneless, skinless");
    ("onion", "peeled and diced") ].

Fixpoint lookup (table : list (string * string)) (key : string) : option string :=
  match table with
  | [] => None
  | (k, v) :: rest => if k =? key then Some v else lookup rest key
  end.

(** The names that every object literal inherits from [Object.prototype];
    each holds a function, ['__proto__'] the prototype itself. *)
Definition OBJECT_PROTOTYPE_KEYS : list string :=
  [ "constructor"; "hasOwnProperty"; "isPrototypeOf"; "propertyIsEnumerable";
    "toLocaleString"; "toString"; "valueOf"; "__proto__";
    "__defineGetter__"; "__defineSetter__"; "__lookupGetter__";
    "__lookupSetter__" ].

(** [notes[ingredient] || 'prepared as needed']: the table's entry, the
    inherited member when the label names one (it is truthy), the default
    otherwise.  A missing label reads the key 'undefined' or 'null'. *)
Definition getIngredientNotes (ingredient : JS.text) : note :=
  let key := text_to_string ingredient in
  match lookup INGREDIENT_NOTES key with
  | Some text => Note text
  | None =>
      if array_includes OBJECT_PROTOTYPE_KEYS key then Inherited key
      else Note "prepared as needed"
  end.

Definition recipe_ingredient_of (it : item) : recipe_ingredient :=
  {| ri_name := label it;
     ri_grams := JS.or (grams_est it) (VNum 100);
     ri_notes := getIngredientNotes (label it);
     ri_fdc_id := None |}.

(** [ingredients[0]?.label || 'Ingredient'] *)
Definition first_label (ingredients : list item) : string :=
  match ingredients with
  | it :: _ => text_or (label it) "Ingredient"
  | [] => "Ingredient"
  end.

Definition generatePalakPaneerRecipe (ingredients : list item) (servings : Z) : recipe :=
  {| id := TAbsent;
     ai_generated := None;
     title := "Palak Paneer (Indian Spinach Cottage Cheese Curry)";
     recipe_servings := servings;
     estimated_time := Some "30 minutes";
     difficulty := None;
     cuisine := None;
     meal_type := None;
     recipe_category := None;
     tags := [ "indian";
             "vegetarian";
             "curry";
             "30-min" ];
     ingredients := map recipe_ingredient_of ingredients;
     steps :=
       [ "Heat 2 tablespoons oil in a heavy-bottomed pan over medium heat";
         "Add 1 teaspoon cumin seeds and let them splutter for 30 seconds";
         "Add 1 finely chopped onion and sauté until golden brown (5-6 minutes)";
         "Add 1 tablespoon ginger-garlic paste and cook for 1 minute until fragrant";
         "Add 1 chopped tomato and cook until soft and mushy (3-4 minutes)";
         "Add the washed spinach leaves and cook until wilted (2-3 minutes)";
         "Let the mixture cool, then blend to a smooth puree with little water";
         "Return puree to the pan, add 1/2 tsp turmeric, 1 tsp coriander powder, 1/2 tsp garam masala";
         "Simmer for 5 minutes, then gently add paneer cubes";
         "Cook for 3-4 minutes without stirring too much to prevent paneer from breaking";
         "Add salt to taste and 2 tablespoons fresh cream";
         "Garnish with fresh coriander and serve hot with basmati rice or naan bread" ];
     substitutions :=
       [ "Vegan: Substitute paneer with firm tofu";
         "Add cashews while blending for extra creaminess";
         "Use coconut milk instead of cream for dairy-free option" ];
     warnings :=
       [ "Potential allergens: Dairy (paneer, cream). Use tofu for dairy-free";
         "Don't overcook paneer as it becomes rubbery" ] |}.

Definition generatePaneerSpinachSaladRecipe (ingredients : list item) (servings : Z) : recipe :=
  {| id := TAbsent;
     ai_generated := None;
     title := "Fresh Paneer Spinach Salad with Indian Spices";
     recipe_servings := servings;
     estimated_time := Some "15 minutes";
     difficulty := None;
     cuisine := None;
     meal_type := None;
     recipe_category := None;
     tags := [ "indian";
             "vegetarian";
             "fresh";
             "15-min";
             "healthy" ];
     ingredients := map recipe_ingredient_of ingredients;
     steps :=
       [ "Wash and thoroughly dry fresh spinach leaves";
         "Cut paneer into small cubes and lightly pan-fry until golden";
         "In a large bowl, combine spinach leaves with the warm paneer";
         "Prepare dressing: mix 2 tbsp olive oil, 1 tbsp lemon juice, 1/2 tsp chaat masala";
         "Add 1/4 tsp black pepper, 1/2 tsp roasted cumin powder, and salt to taste";
         "Toss the salad with dressing just before serving";
         "Garnish with pomegranate seeds and chopped mint if available";
         "Serve immediately as a light meal or side dish" ];
     substitutions :=
       [ "Add cherry tomatoes and cucumber for extra freshness";
         "Use hung curd instead of oil for lighter dressing";
         "Add roasted peanuts for crunch" ];
     warnings :=
       [ "Potential allergens: Dairy (paneer)";
         "Dress the salad just before serving to prevent wilting" ] |}.

Definition generateSpinachPaneerCurryRecipe (ingredients : list item) (servings : Z) : recipe :=
  {| id := TAbsent;
     ai_generated := None;
     title := "Spinach Paneer Curry (Restaurant Style)";
     recipe_servings := servings;
     estimated_time := Some "25 minutes";
     difficulty := None;
     cuisine := None;
     meal_type := None;
     recipe_category := None;
     tags := [ "indian";
             "vegetarian";
             "curry";
             "25-min";
             "restaurant-style" ];
     ingredients := map recipe_ingredient_of ingredients;
     steps :=
       [ "Blanch spinach in boiling water for 2 minutes, then plunge in ice water";
         "Drain and blend spinach with 2 green chilies to smooth paste";
         "Heat 3 tablespoons ghee or oil in a pan over medium heat";
         "Add 1 bay leaf, 2 green cardamom, 1-inch cinnamon stick";
         "Add 1 sliced onion and cook until golden brown";
         "Add 1 tbsp ginger-garlic paste, cook for 1 minute";
         "Add 1/2 tsp turmeric, 1 tsp coriander powder, 1/2 tsp red chili powder";
         "Add the spinach puree and cook for 8-10 minutes on medium heat";
         "Add 1/4 cup water if needed, then add paneer cubes gently";
         "Simmer for 5 minutes, add 1/2 tsp garam masala";
         "Finish with 2 tbsp cream and fresh coriander";
         "Serve hot with rotis or steamed rice" ];
     substitutions :=
       [ "Use mustard greens mixed with spinach for variation";
         "Add a pinch of sugar to balance the flavors";
         "Use butter instead of ghee for richer taste" ];
     warnings :=
       [ "Potential allergens: Dairy (paneer, cream, ghee)";
         "Don't boil the curry after adding cream" ] |}.

Definition generateFreshRecipe (ingredients : list item) (servings : Z) (type : string) : recipe :=
  {| id := TAbsent;
     ai_generated := None;
     title := "Fresh " ++ first_label ingredients ++ " Bowl";
     recipe_servings := servings;
     estimated_time := Some "10 minutes";
     difficulty := None;
     cuisine := None;
     meal_type := None;
     recipe_category := None;
     tags := [ "fresh";
             "raw";
             "healthy";
             "10-min" ];
     ingredients := map recipe_ingredient_of ingredients;
     steps :=
       [ "Wash all ingredients thoroughly under cold running water";
         "Pat dry with clean paper towels or kitchen cloth";
         "Cut ingredients into bite-sized pieces using a sharp knife";
         "Arrange attractively in a serving bowl or individual plates";
         "Drizzle with fresh lemon juice or your favorite dressing";
         "Season with salt and freshly ground black pepper to taste";
         "Serve immediately while fresh and crisp" ];
     substitutions :=
       [ "Add toasted nuts or seeds for extra crunch and protein";
         "Use balsamic vinegar instead of lemon juice";
         "Drizzle with extra virgin olive oil for healthy fats" ];
     warnings :=
       [ "Wash all fresh ingredients thoroughly to remove dirt and bacteria";
         "Consume immediately for best texture and nutrition" ] |}.

Definition generateCookedRecipe (ingredients : list item) (servings : Z) (type : string) : recipe :=
  {| id := TAbsent;
     ai_generated := None;
     title := "Sautéed " ++ first_label ingredients ++ " Stir-Fry";
     recipe_servings := servings;
     estimated_time := Some "20 minutes";
     difficulty := None;
     cuisine := None;
     meal_type := None;
     recipe_category := None;
     tags := [ "cooked";
             "sautéed";
             "warm";
             "20-min" ];
     ingredients := map recipe_ingredient_of ingredients;
     steps :=
       [ "Heat 2 tablespoons oil in a large pan or wok over medium-high heat";
         "Add harder ingredients first (like potatoes, carrots) if present";
         "Cook for 3-5 minutes until starting to soften";
         "Add softer ingredients (like leafy greens, tomatoes)";
         "Stir-fry for 2-3 minutes until heated through but still crisp";
         "Season with salt, pepper, and your favorite spices";
         "Add a splash of soy sauce or lemon juice for extra flavor";
         "Serve hot as a side dish or main course" ];
     substitutions :=
       [ "Use butter instead of oil for richer flavor";
         "Add garlic and ginger for extra aroma";
         "Include your favorite herbs and spices" ];
     warnings :=
       [ "Don't overcook vegetables to maintain nutrients and texture";
         "Cook to safe internal temperatures for any meat or eggs" ] |}.

Definition generateBakedRecipe (ingredients : list item) (servings : Z) (type : string) : recipe :=
  {| id := TAbsent;
     ai_generated := None;
     title := "Roasted " ++ first_label ingredients ++ " Medley";
     recipe_servings := servings;
     estimated_time := Some "35 minutes";
     difficulty := None;
     cuisine := None;
     meal_type := None;
     recipe_category := None;
     tags := [ "baked";
             "roasted";
             "warm";
             "35-min" ];
     ingredients := map recipe_ingredient_of ingredients;
     steps :=
       [ "Preheat oven to 400°F (200°C)";
         "Wash and cut ingredients into uniform pieces";
         "Toss with 2-3 tablespoons olive oil in a large bowl";
         "Season generously with salt, pepper, and herbs";
         "Arrange in a single layer on a large baking sheet";
         "Roast for 20-25 minutes, flipping halfway through";
         "Cook until tender and lightly golden brown";
         "Serve hot as a side dish or light meal" ];
     substitutions :=
       [ "Add herbs like rosemary, thyme, or oregano";
         "Drizzle with balsamic vinegar before serving";
         "Top with grated cheese in the last 5 minutes" ];
     warnings :=
       [ "Don't overcrowd the baking sheet for even cooking";
         "Check for doneness with a fork - should be tender" ] |}.

(** [mainIngredients.map(i => i.label.toLowerCase())]: a TypeError when a
    label is missing. *)
Fixpoint lowered_labels (type_error : string) (l : list item)
  : outcome (list string) :=
  match l with
  | [] => Returned []
  | it :: rest =>
      match label it with
      | TStr s =>
          match lowered_labels type_error rest with
          | Returned names => Returned (toLowerCase s :: names)
          | Thrown m => Thrown m
          end
      | TAbsent | TNull => Thrown type_error
      end
  end.

Definition generateMultipleMockRecipes (type_error : string)
    (ingredients : list item) (servings : Z)
    (preferences : option ConfirmScreen.preferences) : outcome (list recipe) :=
  let mainIngredients :=
    filter (fun it => text_neq (label it) "food" && text_neq (label it) "produce")
      ingredients in
  let primaryIngredient :=
    match mainIngredients with
    | it :: _ => text_or (label it) "food"
    | [] => "food"
    end in
  match lowered_labels type_error mainIngredients with
  | Thrown m => Thrown m
  | Returned ingredientNames =>
      if array_includes ingredientNames "paneer"
         && array_includes ingredientNames "spinach"
      then
        Returned [ generatePalakPaneerRecipe ingredients servings;
                   generatePaneerSpinachSaladRecipe ingredients servings;
                   generateSpinachPaneerCurryRecipe ingredients servings ]
      else
        Returned [ generateFreshRecipe ingredients servings "fresh";
                   generateCookedRecipe ingredients servings "cooked";
                   generateBakedRecipe ingredients servings "baked" ]
  end.

(** *** Arriving from the confirm screen *)

(** [navigation.navigate('Recipe', { scanId, confirmedItems, servings,
    preferences })] on the confirm screen, read on this screen as
    [route.params]. *)
Definition route_of (params : ConfirmScreen.recipe_params) : route_params :=
  {| scanId := ConfirmScreen.r_scanId params;
     confirmedItems := Some (ConfirmScreen.r_confirmedItems params);
     servings := ConfirmScreen.r_servings params;
     preferences := Some (ConfirmScreen.r_preferences params) |}.

(** The effect that runs once after the first render:
    [initializePreferences()], then [generateRecipe()] unless the preferences
    panel is shown.  [generateRecipe] reads the cells of the first render
    (its closure) for the create-recipe call; the cells it sets afterwards
    are set on top of what [initializePreferences] has set. *)
Definition mount (type_error : string) (now : IngredientDetection.Date)
    (rp : route_params)
    (created : outcome (Api.result create_data))
    (fetched : outcome (Api.result recipe_details)) : state * list effect :=
  let st := initial rp in
  let st' := initializePreferences now rp st in
  if negb (showPreferences st) then
    let timer := SetTimeout (RejectRace TIMEOUT_MESSAGE) 15000 in
    let call :=
      Call (Api.CreateRecipe (scanId rp) (servings rp)
              (if isFruitDetected st then "healthy" else selectedCuisine st)
              (selectedSkillLevel st) (dietaryRestrictions st)
              (selectedMealType st) (selectedRecipeCategory st) false) in
    let rest := generateRecipe_resume type_error st' created fetched in
    (fst rest, timer :: call :: snd rest)
  else (st', []).

End RecipeScreen.

(* ================================================================= *)
(** ** scripts/setup-database.sql *)

Module Database.

(** SQL's three truth values. *)
Inductive truth : Type := True3 | False3 | Unknown3.

Definition or3 (a b : truth) : truth :=
  match a, b with
  | True3, _ | _, True3 => True3
  | False3, False3 => False3
  | _, _ => Unknown3
  end.

(** A CHECK constraint rejects a row only when its condition is false. *)
Definition check (t : truth) : bool :=
  match t with
  | False3 => false
  | True3 | Unknown3 => true
  end.

(** [v IN (l)] for a nullable text [v]. *)
Definition in3 (v : option string) (l : list string) : truth :=
  match v with
  | None => Unknown3
  | Some s => if existsb (String.eqb s) l then True3 else False3
  end.

(** [v = b] for a nullable boolean [v]. *)
Definition eq3 (v : option bool) (b : bool) : truth :=
  match v with
  | None => Unknown3
  | Some c => if Bool.eqb c b then True3 else False3
  end.

(** [v IS NOT NULL] *)
Definition is_not_null {A : Type} (v : option A) : truth :=
  match v with
  | Some _ => True3
  | None => False3
  end.

Definition not_null {A : Type} (v : option A) : bool :=
  match v with
  | Some _ => true
  | None => false
  end.

(** A row of [scans]; [None] is NULL. *)
Record scan : Type := mkScan {
  scan_id : option string;
  scan_user_id : option string;
  scan_s3_key : option string;
  scan_status : option string;
  scan_created_at : option Z
}.

(** A row of [scan_items]. *)
Record scan_item : Type := mkScanItem {
  si_id : option string;
  si_scan_id : option string;
  si_label : option string;
  si_fdc_id : option string;
  si_confidence : option float;
  si_grams_est : option float;
  si_grams : option float;
  si_confirmed : option bool;
  si_created_at : option Z
}.

Record database : Type := mkDatabase {
  scans : list scan;
  scan_items : list scan_item
}.

Definition empty : database := {| scans := []; scan_items := [] |}.

Definition SCAN_STATUSES : list string :=
  ["processing"; "ready"; "confirmed"; "completed"].

(** The column constraints of [scans]: PRIMARY KEY and NOT NULL columns, and
    [CHECK (status IN ('processing','ready','confirmed','completed'))]. *)
Definition scan_ok (r : scan) : bool :=
  not_null (scan_id r) && not_null (scan_user_id r) && not_null (scan_s3_key r)
  && not_null (scan_status r)
  && check (in3 (scan_status r) SCAN_STATUSES).

(** The column constraints of [scan_items], with
    [scan_items_confirmed_requires_grams]:
    [CHECK (confirmed = FALSE OR grams IS NOT NULL)]. *)
Definition scan_item_ok (r : scan_item) : bool :=
  not_null (si_id r) && not_null (si_scan_id r) && not_null (si_label r)
  && not_null (si_confirmed r)
  && check (or3 (eq3 (si_confirmed r) false) (is_not_null (si_grams r))).

Definition same_key (a b : option string) : bool :=
  match a, b with
  | Some x, Some y => x =? y
  | _, _ => false
  end.

Fixpoint unique_keys (keys : list (option string)) : bool :=
  match keys with
  | [] => true
  | k :: rest => negb (existsb (same_key k) rest) && unique_keys rest
  end.

(** [scan_items.scan_id REFERENCES scans(id)] *)
Definition references_ok (db : database) : bool :=
  forallb (fun r => existsb (fun s => same_key (si_scan_id r) (scan_id s)) (scans db))
    (scan_items db).

(** A column of an INSERT: left out (its DEFAULT applies) or given a value,
    which may be NULL. *)
Inductive given (A : Type) : Type :=
| Default
| Value (v : option A).
Arguments Default {A}.
Arguments Value {A} v.

Definition column {A : Type} (g : given A) (default : option A) : option A :=
  match g with
  | Default => default
  | Value v => v
  end.

(** What the server supplies to a statement: [gen_random_uuid()] and [now()]. *)
Record context : Type := mkContext {
  gen_random_uuid : string;
  now : Z
}.

Inductive statement : Type :=
| InsertScan (id user_id s3_key status : given string) (created_at : given Z)
| InsertScanItem (id scan_id label fdc_id : given string)
    (confidence grams_est grams : given float) (confirmed : given bool)
    (created_at : given Z)
| UpdateScans (cond : scan -> bool) (assign : scan -> scan)
| UpdateScanItems (cond : scan_item -> bool) (assign : scan_item -> scan_item)
| DeleteScans (cond : scan -> bool)
| DeleteScanItems (cond : scan_item -> bool).

Definition update {A : Type} (cond : A -> bool) (assign : A -> A) (rows : list A)
  : list A :=
  map (fun r => if cond r then assign r else r) rows.

(** The rows an UPDATE writes all meet the column constraints. *)
Definition updated_ok {A : Type} (ok : A -> bool) (cond : A -> bool)
    (assign : A -> A) (rows : list A) : bool :=
  forallb (fun r => if cond r then ok (assign r) else true) rows.

(** A statement either commits a new database or is rejected. *)
Definition execute (ctx : context) (db : database) (st : statement)
  : option database :=
  match st with
  | InsertScan c_id c_user_id c_s3_key c_status c_created_at =>
      let r := {| scan_id := column c_id (Some (gen_random_uuid ctx));
                  scan_user_id := column c_user_id None;
                  scan_s3_key := column c_s3_key None;
                  scan_status := column c_status (Some "processing");
                  scan_created_at := column c_created_at (Some (now ctx)) |} in
      if scan_ok r && negb (existsb (fun s => same_key (scan_id r) (scan_id s)) (scans db))
      then Some {| scans := scans db ++ [r]; scan_items := scan_items db |}
      else None
  | InsertScanItem c_id c_scan_id c_label c_fdc_id c_confidence c_grams_est c_grams
      c_confirmed c_created_at =>
      let r := {| si_id := column c_id (Some (gen_random_uuid ctx));
                  si_scan_id := column c_scan_id None;
                  si_label := column c_label None;
                  si_fdc_id := column c_fdc_id None;
                  si_confidence := column c_confidence None;
                  si_grams_est := column c_grams_est None;
                  si_grams := column c_grams None;
                  si_confirmed := column c_confirmed (Some false);
                  si_created_at := column c_created_at (Some (now ctx)) |} in
      if scan_item_ok r
         && negb (existsb (fun s => same_key (si_id r) (si_id s)) (scan_items db))
         && existsb (fun s => same_key (si_scan_id r) (scan_id s)) (scans db)
      then Some {| scans := scans db; scan_items := scan_items db ++ [r] |}
      else None
  | UpdateScans cond assign =>
      let db' := {| scans := update cond assign (scans db);
                    scan_items := scan_items db |} in
      if updated_ok scan_ok cond assign (scans db)
         && unique_keys (map scan_id (scans db'))
         && references_ok db'
      then Some db' else None
  | UpdateScanItems cond assign =>
      let db' := {| scans := scans db;
                    scan_items := update cond assign (scan_items db) |} in
      if updated_ok scan_item_ok cond assign (scan_items db)
         && unique_keys (map si_id (scan_items db'))
         && references_ok db'
      then Some db' else None
  | DeleteScans cond =>
      let kept := filter (fun s => negb (cond s)) (scans db) in
      (* ON DELETE CASCADE *)
      Some {| scans := kept;
              scan_items :=
                filter (fun r => existsb (fun s => same_key (si_scan_id r) (scan_id s)) kept)
                  (scan_items db) |}
  | DeleteScanItems cond =>
      Some {| scans := scans db;
              scan_items := filter (fun r => negb (cond r)) (scan_items db) |}
  end.

(** The database after a statement: unchanged when it is rejected. *)
Definition step (ctx : context) (db : database) (st : statement) : database :=
  match execute ctx db st with
  | Some db' => db'
  | None => db
  end.

(** The databases that statements build from the empty tables. *)
Inductive reachable : database -> Prop :=
| reachable_empty : reachable empty
| reachable_step db ctx st : reachable db -> reachable (step ctx db st).

End Database.

(* ================================================================= *)
(** ** The REST surface *)

Module Gateway.

(** The server side of the seven calls of [ApiService], as far as
    authentication goes. *)
Section Service.

(** The identity provider's verdict on a token. *)
Variable valid_token : string -> bool.

(** The state behind the API (bucket, tables) and the seven functions. *)
Variable backend : Type.
Variable serve : Api.call -> string -> backend -> backend * (Z * string).

(** The token of an [Authorization: Bearer <token>] header. *)
Definition bearer_token (header : string) : option string :=
  if String.prefix "Bearer " header
  then Some (String.substring 7 (String.length header - 7) header)
  else None.

Definition authenticated (req : Api.request) : bool :=
  match bearer_token (Api.req_authorization req) with
  | Some token => valid_token token
  | None => false
  end.

Definition UNAUTHORIZED : Z * string := (401%Z, "Unauthorized").

(** Modelled from the spec: the serverless functions and the API gateway
    that serve the REST surface are not among the repository's files (only
    the client, the API documentation and the scripts that probe the
    endpoints without a token are).  The spec describes the surface as a
    conventional CRUD API over JSON with bearer-token authentication: a
    request is served only when its [Authorization] header is
    [Bearer <token>] for a token the identity provider accepts; any other
    request is answered 401 and reaches no function. *)
Definition handle (req : Api.request) (b : backend) : backend * (Z * string) :=
  match bearer_token (Api.req_authorization req) with
  | Some token =>
      if valid_token token then serve (Api.req_call req) token b
      else (b, UNAUTHORIZED)
  | None => (b, UNAUTHORIZED)
  end.

End Service.

End Gateway.

(* ================================================================= *)
(** ** services/auth.js *)

Module Auth.
Import JS.

(** The functions of [authService] wrap a call of the identity library:
    [called] is what that call comes to.  The [user] of a result is kept in
    [data]. *)
Definition signIn {U : Type} (called : outcome U) : Api.result U :=
  match called with
  | Returned result => Api.mkResult true (Some result) TAbsent
  | Thrown message => Api.mkResult false None (TStr message)
  end.

Definition signUp {U : Type} (called : outcome U) : Api.result U :=
  match called with
  | Returned result => Api.mkResult true (Some result) TAbsent
  | Thrown message => Api.mkResult false None (TStr message)
  end.

Definition confirmSignUp (called : outcome unit) : Api.result unit :=
  match called with
  | Returned _ => Api.mkResult true None TAbsent
  | Thrown message => Api.mkResult false None (TStr message)
  end.

Definition signOut (called : outcome unit) : Api.result unit :=
  match called with
  | Returned _ => Api.mkResult true None TAbsent
  | Thrown message => Api.mkResult false None (TStr message)
  end.

Definition getCurrentUser {U : Type} (called : outcome U) : Api.result U :=
  match called with
  | Returned user => Api.mkResult true (Some user) TAbsent
  | Thrown message => Api.mkResult false None (TStr message)
  end.

(** [getUserToken]; [session] is what [fetchAuthSession()] comes to, read
    as [session.tokens?.idToken?.toString()] ([None] when a link of the
    chain is missing).  An exception gives [null]. *)
Definition getUserToken (session : outcome (option string)) : option string :=
  match session with
  | Returned token => token
  | Thrown _ => None
  end.

End Auth.

(* ================================================================= *)
(** ** services/camera.js *)

Module CameraService.
Import JS.

(** The [image] of a result: [{ uri, width, height }]. *)
Record image : Type := mkImage {
  uri : string;
  width : Z;
  height : Z
}.

(** What the picker resolves to; [assets] is read only when the user did
    not cancel. *)
Record picker_result : Type := mkPickerResult {
  canceled : bool;
  assets : list image
}.

(** What the service asks of the platform. *)
Inductive effect : Type :=
| RequestMediaLibraryPermissions
| LaunchImageLibrary.

Section Engine.

(** The message of the TypeError that [result.assets[0].uri] throws when
    there is no asset. *)
Variable type_error : string.

(** [requestMediaLibraryPermissions]; [asked] is what
    [ImagePicker.requestMediaLibraryPermissionsAsync()] comes to, read as its
    [status].  The [status] of the result is kept in [data]. *)
Definition requestMediaLibraryPermissions (asked : outcome string)
  : Api.result string :=
  match asked with
  | Returned status => Api.mkResult (status =? "granted") (Some status) TAbsent
  | Thrown message => Api.mkResult false None (TStr message)
  end.

(** [pickImage]; [launched] is what [ImagePicker.launchImageLibraryAsync(...)]
    comes to, when the library is opened.  The [image] of the result is kept
    in [data]. *)
Definition pickImage (asked : outcome string) (launched : outcome picker_result)
  : Api.result image * list effect :=
  let libraryPermission := requestMediaLibraryPermissions asked in
  if negb (Api.success libraryPermission) then
    (Api.mkResult false None (TStr "Media library permission denied"),
     [RequestMediaLibraryPermissions])
  else
    let effects := [RequestMediaLibraryPermissions; LaunchImageLibrary] in
    match launched with
    | Thrown message => (Api.mkResult false None (TStr message), effects)
    | Returned result =>
        if canceled result then
          (Api.mkResult false None (TStr "User canceled"), effects)
        else
          match assets result with
          | asset :: _ =>
              (Api.mkResult true
                 (Some {| uri := uri asset;
                          width := width asset;
                          height := height asset |})
                 TAbsent,
               effects)
          | [] => (Api.mkResult false None (TStr type_error), effects)
          end
    end.

End Engine.

End CameraService.

(* ================================================================= *)
(** ** screens/CameraScreen.js *)

Module CameraScreen.
Import JS.

Record state : Type := mkState {
  image : option CameraService.image;
  loading : bool;
  userName : string
}.

Definition initial : state :=
  {| image := None; loading := false; userName := "" |}.

Definition setImage (i : option CameraService.image) (st : state) : state :=
  mkState i (loading st) (userName st).

Definition setLoading (b : bool) (st : state) : state :=
  mkState (image st) b (userName st).

(** The body of a presign response and of a start-scan response, read
    through the fields the screen uses.  A body is a JSON object or [null]
    ([data] is [None] for [null]). *)
Record presign_data : Type := mkPresignData {
  uploadUrl : JS.text;
  s3Key : JS.text
}.

Record start_data : Type := mkStartData {
  scan_id : JS.text;
  start_items : option (list item)
}.

(** The parameters of [navigation.navigate('Confirm', ...)]; [detectedItems]
    is [None] when the property is not passed. *)
Record confirm_params : Type := mkConfirmParams {
  scanId : JS.text;
  imageUri : string;
  detectedItems : option (list item)
}.

(** What a handler does besides setting state. *)
Inductive effect : Type :=
| Alert (title : string) (message : JS.text)
| PickImage                       (* cameraService.pickImage() *)
| ReadImage (imageUri : string)   (* fetch(image.uri), then the blob as a data URL *)
| Call (c : Api.call)
| UploadImage (presignedUrl : JS.text) (imageUri : string)
                                  (* apiService.uploadImage(...) *)
| Navigate (screen : string) (params : confirm_params)
| ReplaceLater (ms : Z) (screen : string) (params : confirm_params).
                                  (* setTimeout(() => navigation.replace(...), ms) *)

(** [handlePickImage]; [picked], [presigned], [uploaded] and [started] are
    what the four awaited calls come to (each looked at only when the call
    is made).  The S3 key reaches [startScan] as a string, which that method
    takes for image data and sends as the request body; a missing key makes
    [startScan] throw before any request. *)
Definition handlePickImage (st : state)
    (picked : outcome (Api.result CameraService.image))
    (presigned : outcome (Api.result presign_data))
    (uploaded : outcome (Api.result unit))
    (started : outcome (Api.result start_data)) : state * list effect :=
  (* Alert.alert('Error', message); setLoading(false); return *)
  let stopped (st' : state) (done : list effect) (message : JS.text) :=
    (setLoading false st', done ++ [Alert "Error" message]) in
  (* the catch block *)
  let caught (st' : state) (done : list effect) :=
    (setLoading false st', done ++ [Alert "Error" (TStr "Something went wrong")]) in
  let st0 := setLoading true st in
  let pick := [PickImage] in
  match picked with
  | Thrown _ => caught st0 pick
  | Returned imageResult =>
      if negb (Api.success imageResult) then
        stopped st0 pick (Api.error imageResult)
      else
        let st1 := setImage (Api.data imageResult) st0 in
        let presign := pick ++ [Call (Api.GetPresignedUrl "image/jpeg")] in
        match presigned with
        | Thrown _ => caught st1 presign
        | Returned presignResult =>
            if negb (Api.success presignResult) then
              stopped st1 presign (TStr "Failed to get upload URL")
            else
              match Api.data presignResult, Api.data imageResult with
              | None, _ => caught st1 presign
              | Some _, None => caught st1 presign
              | Some p, Some img =>
                  let upload :=
                    presign ++ [UploadImage (uploadUrl p) (CameraService.uri img)] in
                  match uploaded with
                  | Thrown _ => caught st1 upload
                  | Returned uploadResult =>
                      if negb (Api.success uploadResult) then
                        stopped st1 upload (TStr "Failed to upload image")
                      else
                        match s3Key p with
                        | TStr key =>
                            let start :=
                              upload ++ [Call (Api.StartScan (Api.Base64 key))] in
                            match started with
                            | Thrown _ => caught st1 start
                            | Returned scanResult =>
                                if negb (Api.success scanResult) then
                                  stopped st1 start (TStr "Failed to start scan")
                                else
                                  match Api.data scanResult with
                                  | Some d =>
                                      (setLoading false st1,
                                       start
                                       ++ [Navigate "Confirm"
                                             {| scanId := scan_id d;
                                                imageUri := CameraService.uri img;
                                                detectedItems := None |}])
                                  | None => caught (setLoading false st1) start
                                  end
                            end
                        | TAbsent | TNull => caught st1 upload
                        end
                  end
              end
        end
  end.

(** An exception as the Process Image handler reads it. *)
Record exception : Type := mkException {
  name : string;
  message : string
}.

(** An awaited step of that handler either is done or raised an
    exception. *)
Inductive attempt (A : Type) : Type :=
| Done (a : A)
| Raised (e : exception).
Arguments Done {A} a.
Arguments Raised {A} e.

Definition newline : string := String (ascii_of_nat 10) "".

(** [t] as a condition: a non-empty string. *)
Definition truthy_text (t : JS.text) : bool :=
  match t with
  | TStr s => negb (s =? "")
  | TAbsent | TNull => false
  end.

Section ProcessImage.

(** [JSON.stringify] of a start-scan result and of its [data], as the error
    messages quote them. *)
Variable stringify_result : Api.result start_data -> string.
Variable stringify_data : option start_data -> string.

(** The handler of the Process Image button, which is on the screen when an
    image is set.  [read] is what reading the image as a data URL comes to,
    [started] what [await apiService.startScan(base64)] comes to, and
    [navigated] what [navigation.navigate(...)] comes to.  The state returned
    is the one after [finally]. *)
Definition processImage (st : state) (read : attempt string)
    (started : attempt (Api.result start_data)) (navigated : attempt unit)
  : state * list effect :=
  match image st with
  | None => (st, [])
  | Some img =>
      let st' := setLoading false (setLoading true st) in
      let reading := ReadImage (CameraService.uri img) in
      (* the outer catch block *)
      let detectionFailed (error : exception) :=
        Alert "AI Detection Failed"
          (TStr ("Error: " ++ message error ++ newline ++ newline
                 ++ "Type: " ++ name error ++ newline ++ newline
                 ++ "Check browser console for full details.")) in
      match read with
      | Raised error => (st', [reading; detectionFailed error])
      | Done base64 =>
          let call := Call (Api.StartScan (Api.Base64 base64)) in
          (* the inner catch block, which alerts and throws the error again *)
          let apiFailed (apiError : exception) :=
            (st',
             [ reading; call;
               Alert "API Error"
                 (TStr ("The scan API failed:" ++ newline ++ newline
                        ++ message apiError ++ newline ++ newline
                        ++ "Check console for full details."));
               detectionFailed apiError ]) in
          match started with
          | Raised apiError => apiFailed apiError
          | Done scanResult =>
              if Api.success scanResult then
                match Api.data scanResult with
                | Some d =>
                    if truthy_text (scan_id d) then
                      let params :=
                        {| scanId := scan_id d;
                           imageUri := CameraService.uri img;
                           detectedItems :=
                             Some (match start_items d with
                                   | Some l => l
                                   | None => []
                                   end) |} in
                      match navigated with
                      | Done _ => (st', [reading; call; Navigate "Confirm" params])
                      | Raised _ =>
                          (st', [reading; call; ReplaceLater 100 "Confirm" params])
                      end
                    else
                      apiFailed
                        (mkException "Error"
                           ("No scan_id in response: "
                            ++ stringify_data (Api.data scanResult)))
                | None =>
                    apiFailed
                      (mkException "Error"
                         ("No scan_id in response: "
                          ++ stringify_data (Api.data scanResult)))
                end
              else
                apiFailed
                  (mkException "Error"
                     ("API call failed: " ++ stringify_result scanResult))
          end
      end
  end.

End ProcessImage.

(** The route of the confirm screen mounted with these parameters (its
    [scanId] is a string when it comes from a successful scan). *)
Definition confirm_route (params : confirm_params) : option ConfirmScreen.route_params :=
  match scanId params with
  | TStr id =>
      Some {| ConfirmScreen.scanId := id;
              ConfirmScreen.imageUri := imageUri params;
              ConfirmScreen.detectedItems := detectedItems params |}
  | TAbsent | TNull => None
  end.

End CameraScreen.

(* ================================================================= *)
(** ** screens/SignInScreen.js *)

Module SignInScreen.
Import JS.

Record state : Type := mkState {
  email : string;
  password : string;
  isSignUp : bool;
  confirmationCode : string;
  needsConfirmation : bool;
  loading : bool
}.

Definition initial : state :=
  {| email := ""; password := ""; isSignUp := false; confirmationCode := "";
     needsConfirmation := false; loading := false |}.

Definition setLoading (b : bool) (st : state) : state :=
  mkState (email st) (password st) (isSignUp st) (confirmationCode st)
    (needsConfirmation st) b.


(** What a handler does besides setting state. *)
Inductive effect : Type :=
| Alert (title : string) (message : JS.text)
| SignIn (email password : string)
| SignUp (email password : string)
| ConfirmSignUp (email confirmationCode : string)
| Replace (screen : string).      (* navigation.replace(screen) *)


(** [handleSignIn]; [awaited] is what
    [await authService.signIn(email, password)] comes to.  The handler has
    no [try]: were the call to throw, the statements after it would not
    run. *)
Definition handleSignIn {U : Type} (st : state) (awaited : outcome (Api.result U))
  : state * list effect :=
  if (email st =? "") || (password st =? "") then
    (st, [Alert "Error" (TStr "Please enter email and password")])
  else
    let call := SignIn (email st) (password st) in
    match awaited with
    | Thrown _ => (setLoading true st, [call])
    | Returned result =>
        if Api.success result then
          (setLoading false st, [call; Replace "Camera"])
        else
          (setLoading false st, [call; Alert "Sign In Failed" (Api.error result)])
    end.



End SignInScreen.

(* ================================================================= *)
(** ** utils/Logger.js *)

Module Logger.
Import JS.

(** An argument of a log call: a primitive, or an object with its own
    enumerable properties in order (an array is an object whose keys are its
    indices). *)
#[warnings="-register-all"]
Inductive argument : Type :=
| Primitive (v : JS.value)
| Object (properties : list (string * argument)).

Definition sensitiveKeys : list string :=
  ["token"; "password"; "secret"; "key"; "auth"; "jwt"].

(** [sensitiveKeys.some(sensitive => key.toLowerCase().includes(sensitive))] *)
Definition is_sensitive (key : string) : bool :=
  existsb (fun sensitive => includes (toLowerCase key) sensitive) sensitiveKeys.

Definition sanitizeObject (obj : list (string * argument))
  : list (string * argument) :=
  map (fun property =>
         if is_sensitive (fst property)
         then (fst property, Primitive (VStr "[REDACTED]"))
         else property)
    obj.

(** [Logger.error(message, ...args)]: the arguments passed on to
    [console.error] after the tag and the message. *)
Definition error (args : list argument) : list argument :=
  map (fun arg =>
         match arg with
         | Object properties => Object (sanitizeObject properties)
         | Primitive _ => arg
         end)
    args.

End Logger.

(* ================================================================= *)
(** ** Vocabulary of the properties *)

Module Properties.
Import JS.

(** An ingredient whose label is absent, [null] or the empty string. *)
Definition unlabeled (it : item) : Prop :=
  label it = TAbsent \/ label it = TNull \/ label it = TStr "".

(** An ingredient that the detector tallies: its label matches a fruit or a
    smoothie vegetable. *)
Definition tallied (it : item) : bool :=
  IngredientDetection.isFruit it || IngredientDetection.isSmoothieVegetable it.

(** An ingredient whose lowered label contains the name of a common fruit. *)
Definition labeled_fruit (it : item) : Prop :=
  exists fruit,
    In fruit IngredientDetection.COMMON_FRUITS
    /\ includes (IngredientDetection.lowered_label it) fruit = true.

(** The gram amount that [handleConfirm] sends for an item is a value
    (neither [undefined] nor [null]). *)
Definition has_grams (it : item) : bool :=
  present (JS.or (grams it) (grams_est it)).


(** The alerts among the effects of the confirm screen. *)
Definition alerts (effects : list ConfirmScreen.effect) : list (string * string) :=
  flat_map (fun e => match e with
                     | ConfirmScreen.Alert title message => [(title, message)]
                     | _ => []
                     end) effects.

(** A get-scan response that succeeded with a body. *)
Definition answered (a : JS.outcome (Api.result ConfirmScreen.scan_data))
  : option ConfirmScreen.scan_data :=
  match a with
  | Returned r => if Api.success r then Api.data r else None
  | Thrown _ => None
  end.

(** The body carries at least one item. *)
Definition with_items (d : ConfirmScreen.scan_data) : bool :=
  match ConfirmScreen.d_items d with
  | Some (_ :: _) => true
  | _ => false
  end.

(** A get-scan response that reports a scan still being processed: it
    succeeded, carries no item and its status is 'processing'. *)
Definition still_processing (a : JS.outcome (Api.result ConfirmScreen.scan_data))
  : bool :=
  match answered a with
  | Some d => negb (with_items d) && text_eq (ConfirmScreen.d_status d) "processing"
  | None => false
  end.


(** The route has detected items as a backup. *)
Definition has_backup (rp : ConfirmScreen.route_params) : bool :=
  match ConfirmScreen.detectedItems rp with
  | Some (_ :: _) => true
  | _ => false
  end.


(** The buttons of the alerts among the effects of the recipe screen. *)
Definition alert_buttons (effects : list RecipeScreen.effect)
  : list (list RecipeScreen.button) :=
  flat_map (fun e => match e with
                     | RecipeScreen.Alert _ _ buttons => [buttons]
                     | _ => []
                     end) effects.

(** The create-recipe call failed: it threw or timed out, or its result does
    not have [success] set. *)
Definition creation_failed (a : JS.outcome (Api.result RecipeScreen.create_data))
  : bool :=
  match a with
  | Returned r => negb (Api.success r)
  | Thrown _ => true
  end.



(** The digit 1 followed by [n] zeros, as typed on a numeric keypad. *)
Definition one_and_zeros (n : nat) : string :=
  "1" ++ String.concat "" (List.repeat "0" n).

(** The status of a scan row is one of the four enumerated values. *)
Definition status_enumerated (r : Database.scan) : Prop :=
  exists s, Database.scan_status r = Some s
            /\ (s = "processing" \/ s = "ready" \/ s = "confirmed" \/ s = "completed").

(** A scan item that is confirmed has a gram amount. *)
Definition confirmed_has_grams (r : Database.scan_item) : Prop :=
  Database.si_confirmed r = Some true -> Database.si_grams r <> None.

(** The alert lets the user run [generateRecipe] again. *)
Definition offers_retry (buttons : list RecipeScreen.button) : Prop :=
  exists text, In (RecipeScreen.mkButton text RecipeScreen.RunGenerateRecipe) buttons.

(** The alert lets the user take the template recipe. *)
Definition offers_mock (buttons : list RecipeScreen.button) : Prop :=
  In (RecipeScreen.mkButton "Use Mock Recipe" RecipeScreen.RunGenerateMockRecipe) buttons.

(** The placeholder ingredient of the fallback. *)
Definition PLACEHOLDER : item :=
  {| label := TStr "unknown food item";
     fdc_id := TStr "";
     confidence := VNum 0.5;
     grams_est := VNum 100;
     grams := VUndefined;
     confirmed := true;
     manually_added := None |}.

(** The state after a detected list was normalized and put on the screen,
    with the result of the fruit detection recorded. *)
Definition detection_recorded (l : list item) (st : ConfirmScreen.state)
  : ConfirmScreen.state :=
  let detected := IngredientDetection.detectFruits (Some l) in
  let st' := ConfirmScreen.setIsFruitDetected detected (ConfirmScreen.setItems l st) in
  if detected then ConfirmScreen.setSelectedRecipeType "smoothie" st' else st'.

(** What one invocation of [generateRecipe] performs after its create-recipe
    call: nothing more, a get-recipe call, an error alert, or a get-recipe
    call and then an error alert; the alert offers both the retry and the
    template recipe. *)
Definition after_create (rest : list RecipeScreen.effect) : Prop :=
  rest = []
  \/ (exists recipeId, rest = [RecipeScreen.Call (Api.GetRecipe recipeId)])
  \/ (exists title message buttons,
        rest = [RecipeScreen.Alert title message buttons]
        /\ offers_retry buttons /\ offers_mock buttons)
  \/ (exists recipeId title message buttons,
        rest = [RecipeScreen.Call (Api.GetRecipe recipeId);
                RecipeScreen.Alert title message buttons]
        /\ offers_retry buttons /\ offers_mock buttons).

(** The timer that [generateRecipe] arms before its create-recipe call. *)
Definition race_timer : RecipeScreen.effect :=
  RecipeScreen.SetTimeout (RecipeScreen.RejectRace RecipeScreen.TIMEOUT_MESSAGE) 15000.


(** The create-recipe call that [generateRecipe] makes in state [st]. *)
Definition create_call (rp : RecipeScreen.route_params) (st : RecipeScreen.state)
  : RecipeScreen.effect :=
  RecipeScreen.Call
    (Api.CreateRecipe (RecipeScreen.scanId rp) (RecipeScreen.servings rp)
       (if RecipeScreen.isFruitDetected st then "healthy"
        else RecipeScreen.selectedCuisine st)
       (RecipeScreen.selectedSkillLevel st) (RecipeScreen.dietaryRestrictions st)
       (RecipeScreen.selectedMealType st) (RecipeScreen.selectedRecipeCategory st)
       false).

(** The ways one invocation of [loadScanResults] can go, each with the state
    and the effects it ends with. *)
Inductive load_case (rp : ConfirmScreen.route_params) (st : ConfirmScreen.state)
    (awaited : outcome (Api.result ConfirmScreen.scan_data))
  : ConfirmScreen.state * list ConfirmScreen.effect -> Prop :=
| load_mock :
    ConfirmScreen.is_mock_scan (ConfirmScreen.scanId rp) = true ->
    load_case rp st awaited
      (ConfirmScreen.setLoading false
         (ConfirmScreen.setItems [ConfirmScreen.mockItem "unknown food"] st),
       [])
| load_thrown message :
    ConfirmScreen.is_mock_scan (ConfirmScreen.scanId rp) = false ->
    awaited = Thrown message ->
    load_case rp st awaited
      (ConfirmScreen.setLoading false (ConfirmScreen.setItems [] st),
       [ConfirmScreen.Call (Api.GetScan (ConfirmScreen.scanId rp));
        ConfirmScreen.Alert "Error" ("Failed to load scan results: " ++ message)])
| load_items d i l :
    ConfirmScreen.is_mock_scan (ConfirmScreen.scanId rp) = false ->
    answered awaited = Some d ->
    ConfirmScreen.d_items d = Some (i :: l) ->
    load_case rp st awaited
      (ConfirmScreen.setLoading false
         (detection_recorded
            (ConfirmScreen.mapi ConfirmScreen.firstConfirmed (i :: l)) st),
       [ConfirmScreen.Call (Api.GetScan (ConfirmScreen.scanId rp))])
| load_processing d :
    ConfirmScreen.is_mock_scan (ConfirmScreen.scanId rp) = false ->
    answered awaited = Some d ->
    with_items d = false ->
    text_eq (ConfirmScreen.d_status d) "processing" = true ->
    load_case rp st awaited
      (st,
       [ConfirmScreen.Call (Api.GetScan (ConfirmScreen.scanId rp));
        ConfirmScreen.SetTimeout 2000])
| load_empty d :
    ConfirmScreen.is_mock_scan (ConfirmScreen.scanId rp) = false ->
    answered awaited = Some d ->
    with_items d = false ->
    text_eq (ConfirmScreen.d_status d) "processing" = false ->
    load_case rp st awaited
      (ConfirmScreen.setLoading false (ConfirmScreen.setItems [PLACEHOLDER] st),
       [ConfirmScreen.Call (Api.GetScan (ConfirmScreen.scanId rp))])
| load_backup result i l :
    ConfirmScreen.is_mock_scan (ConfirmScreen.scanId rp) = false ->
    awaited = Returned result ->
    answered awaited = None ->
    ConfirmScreen.detectedItems rp = Some (i :: l) ->
    load_case rp st awaited
      (ConfirmScreen.setLoading false
         (ConfirmScreen.setItems
            (ConfirmScreen.mapi ConfirmScreen.firstConfirmed (i :: l)) st),
       [ConfirmScreen.Call (Api.GetScan (ConfirmScreen.scanId rp))])
| load_failed result :
    ConfirmScreen.is_mock_scan (ConfirmScreen.scanId rp) = false ->
    awaited = Returned result ->
    answered awaited = None ->
    has_backup rp = false ->
    load_case rp st awaited
      (ConfirmScreen.setLoading false (ConfirmScreen.setItems [PLACEHOLDER] st),
       [ConfirmScreen.Call (Api.GetScan (ConfirmScreen.scanId rp));
        ConfirmScreen.Alert "Detection Failed"
          ("Real AI detection failed: " ++ text_or (Api.error result) "Unknown error"
           ++ String (ascii_of_nat 10) (String (ascii_of_nat 10)
                "Using fallback detection for now."))]).

(** The choices of the confirm screen are ids of its chips (or the default
    'international'), and the recipe type is a fruit option whenever fruit
    was detected. *)
Definition selections_enumerated (st : ConfirmScreen.state) : Prop :=
  In (ConfirmScreen.selectedMealType st) ["breakfast"; "lunch"; "dinner"; "snack"]
  /\ In (ConfirmScreen.selectedCookingLevel st)
       ["beginner"; "intermediate"; "advanced"]
  /\ In (ConfirmScreen.selectedRecipeType st)
       (if ConfirmScreen.isFruitDetected st then ["smoothie"; "dessert"]
        else ["international"; "smoothie"; "dessert"; "italian"; "mexican";
              "asian"; "indian"; "mediterranean"; "american"]).

(** The titles of the alerts among the effects of the recipe screen. *)
Definition alert_titles (effects : list RecipeScreen.effect) : list string :=
  flat_map (fun e => match e with
                     | RecipeScreen.Alert title _ _ => [title]
                     | _ => []
                     end) effects.




(** A scan item refers to a row of [scans]. *)
Definition refers_to_scan (db : Database.database) (r : Database.scan_item) : Prop :=
  exists s id,
    In s (Database.scans db)
    /\ Database.si_scan_id r = Some id /\ Database.scan_id s = Some id.


(** The navigations among the effects of the camera screen. *)
Definition navigations (effects : list CameraScreen.effect)
  : list (string * CameraScreen.confirm_params) :=
  flat_map (fun e => match e with
                     | CameraScreen.Navigate screen params
                     | CameraScreen.ReplaceLater _ screen params => [(screen, params)]
                     | _ => []
                     end) effects.




(** The start-scan call delivered a scan id: it came back with [success],
    a body and a non-empty [scan_id]. *)
Definition scan_started
    (started : CameraScreen.attempt (Api.result CameraScreen.start_data))
  : option CameraScreen.start_data :=
  match started with
  | CameraScreen.Done r =>
      if Api.success r then
        match Api.data r with
        | Some d => if CameraScreen.truthy_text (CameraScreen.scan_id d) then Some d else None
        | None => None
        end
      else None
  | CameraScreen.Raised _ => None
  end.

End Properties.

(* ================================================================= *)
(** * Properties *)

(** ** Strings and values *)

Lemma prefix_empty (s : string) : String.prefix "" s = true.
Proof. destruct s; reflexivity. Qed.

Lemma includes_empty (s : string) : JS.includes s "" = true.
Proof. destruct s; reflexivity. Qed.

Lemma includes_self (s : string) : JS.includes s s = true.
Proof.
  assert (H : forall t, String.prefix t t = true).
  { induction t as [|c t IH]; simpl; [reflexivity|].
    destruct (ascii_dec c c); [exact IH | congruence]. }
  destruct s; simpl; [reflexivity|].
  destruct (ascii_dec a a); [|congruence]. now rewrite H.
Qed.

Lemma truthy_present (v : JS.value) : JS.truthy v = true -> JS.present v = true.
Proof. destruct v; simpl; congruence. Qed.

Lemma or_truthy_r (a b : JS.value) : JS.truthy b = true -> JS.truthy (JS.or a b) = true.
Proof. unfold JS.or. destruct (JS.truthy a) eqn:E; auto. Qed.

Lemma array_includes_In (l : list string) (s : string) :
  JS.array_includes l s = true <-> In s l.
Proof.
  unfold JS.array_includes. rewrite existsb_exists. split.
  - intros [x [Hin Heq]]. apply String.eqb_eq in Heq. now subst.
  - intros Hin. exists s. split; [assumption | apply String.eqb_refl].
Qed.

(** The text of a confirm-scan item: [confirmed] and [grams] are written
    as [JSON.stringify] writes the values handed to [confirmScan]. *)
Lemma confirm_item_json_properties (ci : Api.confirm_item) :
  JS.json_property (Api.confirm_item_json ci) "confirmed"
  = Some (JS.JBool (Api.ci_confirmed ci))
  /\ JS.json_property (Api.confirm_item_json ci) "grams"
     = JS.stringify_value (Api.ci_grams ci).
Proof.
  unfold Api.confirm_item_json, JS.stringify_object.
  destruct (Api.ci_fdc_id ci), (Api.ci_label ci), (Api.ci_grams ci);
    split; reflexivity.
Qed.

(** A value that is present is written as [null] exactly when it is a
    number that is not finite. *)
Lemma stringify_present (v : JS.value) :
  JS.present v = true ->
  exists j, JS.stringify_value v = Some j
            /\ (j = JS.JNull
                <-> exists x, v = JS.VNum x /\ PrimFloat.is_finite x = false).
Proof.
  destruct v as [| |b|x|s]; try discriminate; intros _; eexists;
    (split; [reflexivity|]).
  - split; [discriminate | intros (x & H & _); discriminate].
  - unfold JS.stringify_number. destruct (PrimFloat.is_finite x) eqn:E; split.
    + discriminate.
    + intros (y & H & Hy). injection H as <-. congruence.
    + intros _. now exists x.
    + reflexivity.
  - split; [discriminate | intros (x & H & _); discriminate].
Qed.

Lemma hundred_truthy : JS.truthy (JS.VNum 100) = true.
Proof. reflexivity. Qed.

Lemma existsb_In_true {A : Type} (f : A -> bool) (l : list A) (a : A) :
  In a l -> f a = true -> existsb f l = true.
Proof. intros Hin Hf. apply existsb_exists. now exists a. Qed.

(** ** Fruit detection *)

Section Detection.
Import IngredientDetection Properties.

Lemma fold_tally_bounds (l : list item) (n : nat) :
  (n <= fold_left tally l n <= n + List.length l)%nat.
Proof.
  revert n. induction l as [|it l IH]; intros n; simpl; [lia|].
  specialize (IH (tally n it)).
  assert (n <= tally n it <= S n)%nat
    by (unfold tally; destruct (isFruit it || isSmoothieVegetable it); lia).
  lia.
Qed.

Lemma fold_tally_all (l : list item) (n : nat) :
  Forall (fun it => tallied it = true) l ->
  fold_left tally l n = (n + List.length l)%nat.
Proof.
  intros H. revert n. induction H as [|it l Hit _ IH]; intros n; simpl; [lia|].
  rewrite IH. unfold tally. unfold tallied in Hit. rewrite Hit. lia.
Qed.

(** The comparison [fruitCount / totalCount > 0.6] on integers. *)
Lemma detectFruits_ratio (l : list item) :
  l <> [] ->
  detectFruits (Some l)
  = (3 * Z.of_nat (List.length l) <? 5 * Z.of_nat (fruitCount l))%Z.
Proof.
  destruct l as [|it l]; [congruence|]. intros _.
  unfold detectFruits, fruitPercentage.
  set (c := fruitCount (it :: l)).
  change (List.length (it :: l)) with (S (List.length l)).
  rewrite Nat2Z.inj_succ, <- Zpos_P_of_succ_nat.
  set (p := Pos.of_succ_nat (List.length l)).
  unfold Qle_bool, Qdiv, Qmult, Qinv, inject_Z. simpl Qnum. simpl Qden.
  rewrite Z.leb_antisym, negb_involutive.
  destruct (Z.ltb_spec (6 * Z.pos p) (Z.of_nat c * 1 * 10));
    destruct (Z.ltb_spec (3 * Z.pos p) (5 * Z.of_nat c)); try reflexivity; lia.
Qed.

Lemma detectFruits_all_tallied (l : list item) :
  l <> [] -> Forall (fun it => tallied it = true) l -> detectFruits (Some l) = true.
Proof.
  intros Hne Hall. rewrite detectFruits_ratio by assumption.
  unfold fruitCount. rewrite fold_tally_all by assumption.
  destruct l; [congruence|]. simpl List.length. apply Z.ltb_lt. lia.
Qed.

Lemma unlabeled_lowered (it : item) : unlabeled it -> lowered_label it = "".
Proof.
  unfold unlabeled, lowered_label. intros [H | [H | H]]; rewrite H; reflexivity.
Qed.

Lemma labeled_fruit_isFruit (it : item) : labeled_fruit it -> isFruit it = true.
Proof.
  intros [fruit [Hin Hinc]]. unfold isFruit, some_matches.
  apply existsb_In_true with (a := fruit); [assumption|].
  now rewrite Hinc.
Qed.

End Detection.

Section DetectionClaims.
Import JS IngredientDetection Properties.

(** C8.  An ingredient whose label is absent, [null] or the empty string is
    counted as a fruit: the empty string occurs in every fruit name, so the
    two-way [includes] test succeeds and the tally goes up by one.  Hence a
    non-empty list of unlabeled ingredients is classified as fruit-based,
    while the empty list and a missing list are not. *)
Theorem unlabeled_ingredient_counts_as_fruit :
  (forall it : item, unlabeled it ->
     (forall fruit, In fruit COMMON_FRUITS ->
        includes fruit (lowered_label it) = true)
     /\ isFruit it = true
     /\ (forall n, tally n it = S n))
  /\ (forall l : list item, l <> [] -> Forall unlabeled l ->
        detectFruits (Some l) = true)
  /\ detectFruits (Some []) = false
  /\ detectFruits None = false.
Proof.
  assert (Hone : forall it, unlabeled it -> isFruit it = true).
  { intros it Hu. unfold isFruit. rewrite (unlabeled_lowered it Hu). reflexivity. }
  split; [|split; [|split]].
  - intros it Hu. split; [|split].
    + intros fruit _. rewrite (unlabeled_lowered it Hu). apply includes_empty.
    + now apply Hone.
    + intros n. unfold tally. now rewrite (Hone it Hu).
  - intros l Hne Hall. apply detectFruits_all_tallied; [assumption|].
    eapply Forall_impl; [|exact Hall].
    intros it Hu. unfold tallied. now rewrite (Hone it Hu).
  - reflexivity.
  - reflexivity.
Qed.

(** C8 at three unlabeled ingredients (label absent, [null], empty). *)
Lemma unlabeled_ingredient_counts_as_fruit_witness :
  detectFruits
    (Some [ mkItem TAbsent TAbsent VUndefined VUndefined VUndefined false None;
            mkItem TNull TAbsent VUndefined VUndefined VUndefined false None;
            mkItem (TStr "") TAbsent VUndefined VUndefined VUndefined false None ])
  = true.
Proof.
  apply (proj1 (proj2 unlabeled_ingredient_counts_as_fruit)).
  - discriminate.
  - apply Forall_cons; [left; reflexivity|].
    apply Forall_cons; [right; left; reflexivity|].
    apply Forall_cons; [right; right; reflexivity|].
    apply Forall_nil.
Defined.

(** C9.  [suggestMealType] does not depend on its ingredients: two calls at
    the same time give the same meal type whatever the two ingredient lists
    are, and the result is read off the hour alone (breakfast for 6-10, lunch
    for 11-15, dinner for 16-20, snack otherwise). *)
Theorem suggestMealType_depends_on_hour_only :
  forall (now : Date) (A B : option (list item)) (t : option Date),
    suggestMealType now A t = suggestMealType now B t
    /\ (let hour := getHours (match t with Some d => d | None => now end) in
        suggestMealType now A t
        = if ((6 <=? hour) && (hour <=? 10))%Z then "breakfast"
          else if ((11 <=? hour) && (hour <=? 15))%Z then "lunch"
          else if ((16 <=? hour) && (hour <=? 20))%Z then "dinner"
          else "snack").
Proof.
  intros now A B t. split; [reflexivity|].
  unfold suggestMealType. cbv zeta.
  set (hour := getHours match t with Some d => d | None => now end).
  replace (hour <? 11)%Z with (hour <=? 10)%Z by lia.
  replace (hour <? 16)%Z with (hour <=? 15)%Z by lia.
  replace (hour <? 21)%Z with (hour <=? 20)%Z by lia.
  reflexivity.
Qed.

(** A non-empty list of ingredients labeled as fruit gets the smoothie and
    dessert categories. *)
Lemma getRecipeCategories_fruit (l : list item) :
  l <> [] -> Forall labeled_fruit l ->
  getRecipeCategories (Some l)
  = {| isFruitBased := true;
       suggestedCategories := ["smoothie"; "dessert"];
       defaultCategory := "smoothie" |}.
Proof.
  intros Hne Hall. unfold getRecipeCategories.
  rewrite detectFruits_all_tallied; [reflexivity | assumption |].
  eapply Forall_impl; [|exact Hall].
  intros it Hf. unfold tallied. now rewrite (labeled_fruit_isFruit it Hf).
Qed.

(** Every name of the fruit table is a fruit label, in any ASCII case. *)
Lemma common_fruit_labeled (it : item) (s : string) :
  label it = TStr s -> In (toLowerCase s) COMMON_FRUITS -> labeled_fruit it.
Proof.
  intros Hl Hin. exists (toLowerCase s). split; [assumption|].
  unfold lowered_label. rewrite Hl.
  destruct (toLowerCase s =? "") eqn:E.
  - apply String.eqb_eq in E. rewrite E. reflexivity.
  - apply includes_self.
Qed.

End DetectionClaims.

(** ** The confirm screen *)

Section ConfirmScreenFacts.
Import JS ConfirmScreen Properties.

Variable parseFloat : string -> float.

Lemma items_setLoading b st : items (setLoading b st) = items st.
Proof. reflexivity. Qed.

Lemma items_setItems l st : items (setItems l st) = l.
Proof. reflexivity. Qed.

Lemma has_grams_firstConfirmed (it : item) (index : nat) :
  has_grams (firstConfirmed it index) = true.
Proof.
  unfold has_grams, firstConfirmed; simpl.
  assert (H : truthy (JS.or (JS.or (grams it) (grams_est it)) (VNum 100)) = true)
    by (apply or_truthy_r, hundred_truthy).
  unfold JS.or at 1. rewrite H. now apply truthy_present.
Qed.

Lemma has_grams_set_grams (x : float) (it : item) : has_grams (set_grams x it) = true.
Proof.
  unfold has_grams, set_grams, JS.or; simpl.
  now destruct (negb (PrimFloat.is_zero x || PrimFloat.is_nan x)).
Qed.

Lemma has_grams_flip_confirmed (it : item) :
  has_grams (flip_confirmed it) = has_grams it.
Proof. reflexivity. Qed.

Lemma has_grams_mockItem (name : string) : has_grams (mockItem name) = true.
Proof. reflexivity. Qed.

Lemma num_or_hundred_truthy (x : float) : truthy (VNum (num_or x 100)) = true.
Proof.
  unfold num_or. destruct (truthy (VNum x)) eqn:E; [exact E | reflexivity].
Qed.

Lemma Forall_mapi_from {A B : Type} (P : B -> Prop) (f : A -> nat -> B)
    (l : list A) (n : nat) :
  (forall a i, P (f a i)) -> Forall P (mapi_from f n l).
Proof.
  intros H. revert n. induction l as [|a l IH]; intros n; simpl; constructor; auto.
Qed.

Lemma Forall_update_at {A : Type} (P : A -> Prop) (f : A -> A) (l : list A)
    (index : nat) :
  (forall a, P a -> P (f a)) -> Forall P l -> Forall P (update_at f index l).
Proof.
  intros Hf Hl. revert index.
  induction Hl as [|a l Ha Hl IH]; intros index; destruct index; simpl;
    constructor; auto.
Qed.

(** The list that [loadScanResults] leaves on the screen holds only items
    with a gram amount. *)
Lemma loadScanResults_has_grams rp st awaited :
  Forall (fun it => has_grams it = true) (items st) ->
  Forall (fun it => has_grams it = true) (items (fst (loadScanResults rp st awaited))).
Proof.
  intros Hst. unfold loadScanResults.
  destruct (is_mock_scan (scanId rp)); [repeat constructor|].
  destruct awaited as [result|message]; [|constructor].
  assert (Hmap : forall l, Forall (fun it => has_grams it = true) (mapi firstConfirmed l))
    by (intros l; apply Forall_mapi_from; apply has_grams_firstConfirmed).
  assert (Hfallback :
    Forall (fun it => has_grams it = true)
      (items (fst (match detectedItems rp with
                   | Some (i :: l) =>
                       (setLoading false (setItems (mapi firstConfirmed (i :: l)) st),
                        [Call (Api.GetScan (scanId rp))])
                   | _ =>
                       (setLoading false (setItems [mockItem "unknown food item"] st),
                        [Call (Api.GetScan (scanId rp));
                         Alert "Detection Failed"
                           ("Real AI detection failed: "
                            ++ text_or (Api.error result) "Unknown error"
                            ++ String (ascii_of_nat 10) (String (ascii_of_nat 10)
                                 "Using fallback detection for now."))])
                   end)))).
  { destruct (detectedItems rp) as [[|i l]|].
    - repeat constructor.
    - apply Hmap.
    - repeat constructor. }
  destruct (Api.success result); [|exact Hfallback].
  destruct (Api.data result) as [d|]; [|exact Hfallback].
  destruct (d_items d) as [[|i l]|].
  - destruct (text_eq (d_status d) "processing"); [exact Hst | repeat constructor].
  - cbv zeta.
    destruct (IngredientDetection.detectFruits (Some (mapi firstConfirmed (i :: l))));
      simpl; apply Hmap.
  - destruct (text_eq (d_status d) "processing"); [exact Hst | repeat constructor].
Qed.

Lemma handleConfirm_items rp st awaited :
  items (fst (handleConfirm rp st awaited)) = items st.
Proof.
  unfold handleConfirm.
  destruct (List.length (filter confirmed (items st)) =? 0)%nat; [reflexivity|].
  destruct awaited; reflexivity.
Qed.

Lemma loadUserInfo_items st awaited : items (loadUserInfo st awaited) = items st.
Proof.
  unfold loadUserInfo. destruct awaited as [r|]; [|reflexivity].
  destruct (Api.success r); [|reflexivity].
  destruct (Api.data r); reflexivity.
Qed.

Lemma press_items options name setter st :
  (forall s st', items (setter s st') = items st') ->
  items (press options name setter st) = items st.
Proof.
  intros H. unfold press. destruct (array_includes options name); auto.
Qed.

(** Every event keeps the gram amounts in place. *)
Lemma dispatch_has_grams rp st e :
  Forall (fun it => has_grams it = true) (items st) ->
  Forall (fun it => has_grams it = true) (items (fst (dispatch parseFloat rp st e))).
Proof.
  intros Hst.
  destruct e; unfold dispatch;
    try (destruct (shows_form st); [|exact Hst]); simpl fst.
  - now apply loadScanResults_has_grams.
  - rewrite loadUserInfo_items. exact Hst.
  - unfold updateItemGrams.
    destruct (index <? List.length (items st))%nat; [|exact Hst].
    rewrite items_setItems. apply Forall_update_at; [|exact Hst].
    intros a _. apply has_grams_set_grams.
  - unfold toggleItemConfirmed.
    destruct (index <? List.length (items st))%nat; [|exact Hst].
    rewrite items_setItems. apply Forall_update_at; [|exact Hst].
    intros a Ha. now rewrite has_grams_flip_confirmed.
  - exact Hst.
  - exact Hst.
  - unfold addNewIngredient.
    destruct (negb (trim (newIngredientName st) =? "")); [|exact Hst].
    simpl. apply Forall_app. split; [exact Hst|].
    constructor; [|constructor].
    unfold has_grams, JS.or; simpl grams; simpl grams_est.
    rewrite num_or_hundred_truthy. reflexivity.
  - exact Hst.
  - exact Hst.
  - rewrite press_items; [exact Hst | reflexivity].
  - rewrite press_items; [exact Hst | reflexivity].
  - rewrite press_items; [exact Hst | reflexivity].
  - match goal with
    | |- context [if ?b then togglePreference _ _ else _] => destruct b
    end; [|exact Hst].
    unfold togglePreference. destruct (array_includes (selectedDiets st) diet); exact Hst.
  - exact Hst.
  - unfold addCustomDiet.
    destruct (negb (trim (customDiet st) =? "")
              && negb (array_includes (selectedDiets st) (trim (customDiet st))));
      exact Hst.
  - destruct (negb (loading st)); simpl; [|exact Hst].
    rewrite handleConfirm_items. exact Hst.
Qed.

Lemma reachable_has_grams rp st :
  reachable parseFloat rp st -> Forall (fun it => has_grams it = true) (items st).
Proof.
  induction 1 as [|st e _ IH]; [constructor|].
  now apply dispatch_has_grams.
Qed.

(** What [handleConfirm] does when something is confirmed: one confirm-scan
    call carrying the confirmed items, then the navigation. *)
Lemma handleConfirm_effects rp st awaited :
  filter confirmed (items st) <> [] ->
  exists params,
    snd (handleConfirm rp st awaited)
    = [ Call (Api.ConfirmScan (scanId rp)
                (map confirmation_item (filter confirmed (items st)))
                {| Api.cp_diets := selectedDiets st;
                   Api.cp_cuisines := cuisines_of st;
                   Api.cp_allergens := selectedAllergens st;
                   Api.cp_servings := servings st |});
        Navigate "Recipe" params ].
Proof.
  intros Hne. unfold handleConfirm.
  destruct (filter confirmed (items st)) as [|it l] eqn:E; [congruence|].
  simpl Nat.eqb. cbv iota. destruct awaited; eexists; reflexivity.
Qed.

Lemma handleConfirm_none_confirmed rp st awaited :
  filter confirmed (items st) = [] ->
  handleConfirm rp st awaited
  = (st, [Alert "Error" "Please confirm at least one ingredient"]).
Proof. intros E. unfold handleConfirm. now rewrite E. Qed.

Lemma filter_none {A : Type} (f : A -> bool) (l : list A) :
  (forall a, In a l -> f a = false) -> filter f l = [].
Proof.
  induction l as [|a l IH]; intros H; simpl; [reflexivity|].
  rewrite (H a (or_introl eq_refl)). apply IH. intros b Hb. apply H. now right.
Qed.

(** C1.  Confirming zero ingredients is rejected: when no item of the list
    is confirmed, [handleConfirm] (what the Generate Recipe button runs)
    shows the error alert and does nothing else: no confirm-scan call (no
    API call at all), no navigation, and the screen state is the one before. *)
Theorem zero_confirmed_is_rejected :
  forall (rp : route_params) (st : state) (awaited : outcome (Api.result unit)),
    (forall it, In it (items st) -> confirmed it = false) ->
    snd (handleConfirm rp st awaited)
      = [Alert "Error" "Please confirm at least one ingredient"]
    /\ (forall c, ~ In (Call c) (snd (handleConfirm rp st awaited)))
    /\ (forall screen params,
          ~ In (Navigate screen params) (snd (handleConfirm rp st awaited)))
    /\ fst (handleConfirm rp st awaited) = st
    /\ (shows_form st = true -> loading st = false ->
        dispatch parseFloat rp st (PressGenerateRecipe awaited)
        = (st, [Alert "Error" "Please confirm at least one ingredient"])).
Proof.
  intros rp st awaited Hnone.
  assert (E := handleConfirm_none_confirmed rp st awaited (filter_none _ _ Hnone)).
  rewrite E; simpl. repeat split.
  - intros c [H|[]]; discriminate.
  - intros screen params [H|[]]; discriminate.
  - intros Hform Hload. rewrite Hform, Hload. exact E.
Qed.

(** In every state the screen can reach, each item that [handleConfirm]
    hands to [confirmScan] carries [confirmed = true] and a gram amount that
    is neither [undefined] nor [null]. *)
Lemma confirm_request_items_carry_grams rp st awaited scan sent prefs :
  reachable parseFloat rp st ->
  In (Call (Api.ConfirmScan scan sent prefs)) (snd (handleConfirm rp st awaited)) ->
  forall ci, In ci sent ->
    Api.ci_confirmed ci = true /\ present (Api.ci_grams ci) = true.
Proof.
  intros Hreach Hin ci Hci.
  destruct (filter confirmed (items st)) as [|it0 l0] eqn:E.
  - rewrite (handleConfirm_none_confirmed rp st awaited E) in Hin.
    destruct Hin as [H|[]]; discriminate.
  - destruct (handleConfirm_effects rp st awaited) as [params Heff]; [congruence|].
    rewrite Heff in Hin. destruct Hin as [H|[H|[]]]; [|discriminate].
    injection H as _ Hitems _. subst sent.
    apply in_map_iff in Hci. destruct Hci as [it [Hci Hit]]. subst ci.
    split; [reflexivity|].
    apply filter_In in Hit. destruct Hit as [Hit _].
    pose proof (reachable_has_grams rp st Hreach) as Hall.
    rewrite Forall_forall in Hall. exact (Hall it Hit).
Qed.

End ConfirmScreenFacts.

(** ** The tables *)

Section DatabaseFacts.
Import Database Properties.

Lemma scan_ok_status (r : scan) : scan_ok r = true -> status_enumerated r.
Proof.
  unfold scan_ok, status_enumerated. intros H.
  repeat (apply andb_prop in H; destruct H as [H ?]).
  destruct (scan_status r) as [s|]; [|discriminate].
  exists s. split; [reflexivity|].
  unfold in3, SCAN_STATUSES in *. simpl existsb in *.
  destruct (String.eqb_spec s "processing"); [auto|].
  destruct (String.eqb_spec s "ready"); [auto|].
  destruct (String.eqb_spec s "confirmed"); [auto|].
  destruct (String.eqb_spec s "completed"); [auto 6|].
  discriminate.
Qed.

Lemma scan_item_ok_grams (r : scan_item) : scan_item_ok r = true -> confirmed_has_grams r.
Proof.
  unfold scan_item_ok, confirmed_has_grams. intros H Hc.
  repeat (apply andb_prop in H; destruct H as [H ?]).
  rewrite Hc in *. destruct (si_grams r); [discriminate|discriminate].
Qed.

Lemma update_keeps {A : Type} (P : A -> Prop) (ok : A -> bool) (cond : A -> bool)
    (assign : A -> A) (rows : list A) :
  (forall r, ok r = true -> P r) ->
  Forall P rows -> updated_ok ok cond assign rows = true ->
  Forall P (update cond assign rows).
Proof.
  intros Hok Hrows. unfold updated_ok, update.
  induction Hrows as [|r rows Hr _ IH]; simpl; intros H; [constructor|].
  apply andb_prop in H. destruct H as [H1 H2].
  constructor; [|now apply IH].
  destruct (cond r); auto.
Qed.

Lemma Forall_filter {A : Type} (P : A -> Prop) (f : A -> bool) (l : list A) :
  Forall P l -> Forall P (filter f l).
Proof.
  induction 1 as [|a l Ha _ IH]; simpl; [constructor|].
  destruct (f a); [constructor|]; assumption.
Qed.

(** A property that the column constraints of [scans] imply is kept by every
    statement. *)
Lemma step_keeps_scans (P : scan -> Prop) (ctx : context) (db : database)
    (st : statement) :
  (forall r, scan_ok r = true -> P r) ->
  Forall P (scans db) -> Forall P (scans (step ctx db st)).
Proof.
  intros Hok Hdb. unfold step, execute.
  destruct st as [c1 c2 c3 c4 c5 | c1 c2 c3 c4 c5 c6 c7 c8 c9
                 | cond assign | cond assign | cond | cond].
  - match goal with |- context [if ?b then _ else _] => destruct b eqn:E end;
      [|exact Hdb].
    apply andb_prop in E. destruct E as [E _].
    simpl. apply Forall_app. split; [exact Hdb|]. constructor; [|constructor].
    now apply Hok.
  - match goal with |- context [if ?b then _ else _] => destruct b end; exact Hdb.
  - match goal with |- context [if ?b then _ else _] => destruct b eqn:E end;
      [|exact Hdb].
    apply andb_prop in E. destruct E as [E _].
    apply andb_prop in E. destruct E as [E _].
    simpl. now apply update_keeps with (ok := scan_ok).
  - match goal with |- context [if ?b then _ else _] => destruct b end; exact Hdb.
  - simpl. now apply Forall_filter.
  - exact Hdb.
Qed.

(** The same for [scan_items]. *)
Lemma step_keeps_scan_items (P : scan_item -> Prop) (ctx : context) (db : database)
    (st : statement) :
  (forall r, scan_item_ok r = true -> P r) ->
  Forall P (scan_items db) -> Forall P (scan_items (step ctx db st)).
Proof.
  intros Hok Hdb. unfold step, execute.
  destruct st as [c1 c2 c3 c4 c5 | c1 c2 c3 c4 c5 c6 c7 c8 c9
                 | cond assign | cond assign | cond | cond].
  - match goal with |- context [if ?b then _ else _] => destruct b end; exact Hdb.
  - match goal with |- context [if ?b then _ else _] => destruct b eqn:E end;
      [|exact Hdb].
    apply andb_prop in E. destruct E as [E _].
    apply andb_prop in E. destruct E as [E _].
    simpl. apply Forall_app. split; [exact Hdb|]. constructor; [|constructor].
    now apply Hok.
  - match goal with |- context [if ?b then _ else _] => destruct b end; exact Hdb.
  - match goal with |- context [if ?b then _ else _] => destruct b eqn:E end;
      [|exact Hdb].
    apply andb_prop in E. destruct E as [E _].
    apply andb_prop in E. destruct E as [E _].
    simpl. now apply update_keeps with (ok := scan_item_ok).
  - simpl. now apply Forall_filter.
  - simpl. now apply Forall_filter.
Qed.

Lemma reachable_scans (P : scan -> Prop) (db : database) :
  (forall r, scan_ok r = true -> P r) -> reachable db -> Forall P (scans db).
Proof.
  intros Hok. induction 1 as [|db ctx st _ IH]; [constructor|].
  now apply step_keeps_scans.
Qed.

Lemma reachable_scan_items (P : scan_item -> Prop) (db : database) :
  (forall r, scan_item_ok r = true -> P r) -> reachable db -> Forall P (scan_items db).
Proof.
  intros Hok. induction 1 as [|db ctx st _ IH]; [constructor|].
  now apply step_keeps_scan_items.
Qed.

(** C7.  Scan status is an enumeration that the database enforces and the
    client mirrors: in every database built by statements from the empty
    tables, each row of [scans] has a status among 'processing', 'ready',
    'confirmed' and 'completed'; every statement (insert, update, delete),
    committed or rejected, keeps it so; and the client's [SCAN_STATUS] table
    lists the same four values. *)
Theorem scan_status_is_enumerated :
  (forall db, reachable db -> forall r, In r (scans db) -> status_enumerated r)
  /\ (forall ctx db st,
        (forall r, In r (scans db) -> status_enumerated r) ->
        forall r, In r (scans (step ctx db st)) -> status_enumerated r)
  /\ [ Constants.PROCESSING Constants.SCAN_STATUS;
       Constants.READY Constants.SCAN_STATUS;
       Constants.CONFIRMED Constants.SCAN_STATUS;
       Constants.COMPLETED Constants.SCAN_STATUS ] = SCAN_STATUSES.
Proof.
  split; [|split].
  - intros db Hdb. apply Forall_forall.
    apply reachable_scans; [apply scan_ok_status | exact Hdb].
  - intros ctx db st Hdb. apply Forall_forall.
    apply step_keeps_scans; [apply scan_ok_status|].
    now apply Forall_forall.
  - reflexivity.
Qed.

End DatabaseFacts.

(** C7 on a run of statements: a first insert takes the default status, an
    insert with a status outside the enumeration and an update to such a
    status are rejected, an update to 'ready' is committed. *)
Lemma scan_status_is_enumerated_witness :
  let ctx := Database.mkContext "7f8c" 0 in
  let insert id status :=
    Database.InsertScan id (Database.Value (Some "user-1"))
      (Database.Value (Some "uploads/a.jpg")) status Database.Default in
  let everywhere (_ : Database.scan) := true in
  let set_status s (r : Database.scan) :=
    Database.mkScan (Database.scan_id r) (Database.scan_user_id r)
      (Database.scan_s3_key r) (Some s) (Database.scan_created_at r) in
  let db1 := Database.step ctx Database.empty (insert Database.Default Database.Default) in
  let db2 :=
    Database.step ctx db1
      (insert (Database.Value (Some "0b1d")) (Database.Value (Some "done"))) in
  let db3 := Database.step ctx db2 (Database.UpdateScans everywhere (set_status "failed")) in
  let db4 := Database.step ctx db3 (Database.UpdateScans everywhere (set_status "ready")) in
  map Database.scan_status (Database.scans db3) = [Some "processing"]
  /\ map Database.scan_status (Database.scans db4) = [Some "ready"]
  /\ forall r, In r (Database.scans db4) -> Properties.status_enumerated r.
Proof.
  cbv zeta. split; [reflexivity|]. split; [reflexivity|].
  apply (proj1 scan_status_is_enumerated).
  repeat apply Database.reachable_step. apply Database.reachable_empty.
Defined.

(** C3.  A scan item cannot be marked confirmed without a gram amount.  In
    every database built by statements from the empty tables, a row of
    [scan_items] with [confirmed = TRUE] has a non-null [grams] (the
    constraint [scan_items_confirmed_requires_grams]), and every statement
    keeps it so.  On the client, in every state the confirm screen can reach,
    each item that [handleConfirm] hands to [confirmScan] carries
    [confirmed = true] and a gram amount that is neither [undefined] nor
    [null]; the text of the request then has ["confirmed": true] and a
    ["grams"] property for the item, and that property is [null] exactly
    when the amount is a number that is not finite.  This does happen: after
    'Infinity', or a number of 310 digits, is typed in the gram field of a
    confirmed item, the request carries the item with ["confirmed": true]
    and ["grams": null], that is, without a gram amount. *)
Theorem confirmed_item_requires_grams :
  (forall db, Database.reachable db ->
     forall r, In r (Database.scan_items db) -> Properties.confirmed_has_grams r)
  /\ (forall ctx db st,
        (forall r, In r (Database.scan_items db) -> Properties.confirmed_has_grams r) ->
        forall r, In r (Database.scan_items (Database.step ctx db st)) ->
                  Properties.confirmed_has_grams r)
  /\ (forall parseFloat rp st awaited scan sent prefs,
        ConfirmScreen.reachable parseFloat rp st ->
        In (ConfirmScreen.Call (Api.ConfirmScan scan sent prefs))
           (snd (ConfirmScreen.handleConfirm rp st awaited)) ->
        JS.json_property (Api.confirmScan_body sent prefs) "items"
        = Some (JS.JArr (map Api.confirm_item_json sent))
        /\ forall ci, In ci sent ->
             Api.ci_confirmed ci = true /\ JS.present (Api.ci_grams ci) = true
             /\ JS.json_property (Api.confirm_item_json ci) "confirmed"
                = Some (JS.JBool true)
             /\ exists j,
                  JS.json_property (Api.confirm_item_json ci) "grams" = Some j
                  /\ (j = JS.JNull
                      <-> exists x, Api.ci_grams ci = JS.VNum x
                                    /\ PrimFloat.is_finite x = false))
  /\ (forall typed, In typed ["Infinity"; Properties.one_and_zeros 309] ->
      let rp := ConfirmScreen.mkRoute "scan-42" "file:///photo.jpg" None in
      let detected :=
        mkItem (JS.TStr "banana") JS.TAbsent (JS.VNum 0.75) (JS.VNum 120)
          JS.VUndefined false None in
      let loaded :=
        JS.Returned
          (Api.mkResult true
             (Some (ConfirmScreen.mkScanData (Some [detected]) (JS.TStr "completed")))
             JS.TAbsent) in
      let events :=
        [ConfirmScreen.LoadScanResults loaded; ConfirmScreen.ChangeGrams 0 typed] in
      let st :=
        fold_left (fun st e => fst (ConfirmScreen.dispatch JS.parseFloat rp st e))
          events ConfirmScreen.initial in
      let sent :=
        Api.mkConfirmItem JS.TAbsent (JS.TStr "banana") (JS.VNum PrimFloat.infinity)
          true false in
      ConfirmScreen.reachable JS.parseFloat rp st
      /\ (forall awaited,
            In (ConfirmScreen.Call
                  (Api.ConfirmScan "scan-42" [sent]
                     (Api.mkConfirmPreferences [] [] [] 2)))
               (snd (ConfirmScreen.handleConfirm rp st awaited)))
      /\ Api.confirm_item_json sent
         = JS.JObj [ ("label", JS.JStr "banana"); ("grams", JS.JNull);
                     ("confirmed", JS.JBool true);
                     ("manually_added", JS.JBool false) ]).
Proof.
  split; [|split; [|split]].
  - intros db Hdb. apply Forall_forall.
    apply reachable_scan_items; [apply scan_item_ok_grams | exact Hdb].
  - intros ctx db st Hdb. apply Forall_forall.
    apply step_keeps_scan_items; [apply scan_item_ok_grams|].
    now apply Forall_forall.
  - intros parseFloat rp st awaited scan sent prefs Hreach Hin.
    split; [reflexivity|]. intros ci Hci.
    destruct (confirm_request_items_carry_grams parseFloat rp st awaited scan sent
                prefs Hreach Hin ci Hci) as [Hconfirmed Hpresent].
    destruct (confirm_item_json_properties ci) as [Hc Hg].
    split; [exact Hconfirmed|]. split; [exact Hpresent|].
    split; [now rewrite Hc, Hconfirmed|].
    rewrite Hg. now apply stringify_present.
  - intros typed Htyped. cbv zeta.
    assert (Hreach : forall rp e1 e2,
      ConfirmScreen.reachable JS.parseFloat rp
        (fold_left (fun st e => fst (ConfirmScreen.dispatch JS.parseFloat rp st e))
           [e1; e2] ConfirmScreen.initial)).
    { intros rp e1 e2. cbn [fold_left].
      apply ConfirmScreen.reachable_step. apply ConfirmScreen.reachable_step.
      apply ConfirmScreen.reachable_initial. }
    split; [apply Hreach|]. split; [|reflexivity].
    intros awaited. cbn [In] in Htyped.
    destruct Htyped as [<-|[<-|[]]]; destruct awaited; vm_compute; left; reflexivity.
Qed.

(** C3 on the screen: a banana is detected with an estimate only, the user
    clears the gram field (it reads 0 from then on) and confirms: the
    request carries the banana with [confirmed = true] and [grams = 0]. *)
Lemma confirmed_item_requires_grams_witness :
  let rp := ConfirmScreen.mkRoute "scan-42" "file:///photo.jpg" None in
  let detected :=
    mkItem (JS.TStr "banana") JS.TAbsent (JS.VNum 0.75) (JS.VNum 120) JS.VUndefined
      false None in
  let loaded :=
    JS.Returned
      (Api.mkResult true
         (Some (ConfirmScreen.mkScanData (Some [detected]) (JS.TStr "completed")))
         JS.TAbsent) in
  let st1 :=
    fst (ConfirmScreen.dispatch JS.parseFloat rp ConfirmScreen.initial
           (ConfirmScreen.LoadScanResults loaded)) in
  let st2 :=
    fst (ConfirmScreen.dispatch JS.parseFloat rp st1
           (ConfirmScreen.ChangeGrams 0 "")) in
  let sent :=
    Api.mkConfirmItem JS.TAbsent (JS.TStr "banana") (JS.VNum 0) true false in
  In (ConfirmScreen.Call
        (Api.ConfirmScan "scan-42" [sent]
           (Api.mkConfirmPreferences [] [] [] 2)))
     (snd (ConfirmScreen.handleConfirm rp st2
             (JS.Returned (Api.mkResult true (Some tt) JS.TAbsent))))
  /\ Api.ci_confirmed sent = true
  /\ JS.present (Api.ci_grams sent) = true
  /\ JS.json_property (Api.confirm_item_json sent) "grams" = Some (JS.JNum 0).
Proof.
  intros rp detected loaded st1 st2 sent.
  split; [left; reflexivity|].
  destruct (proj1 (proj2 (proj2 confirmed_item_requires_grams))
              JS.parseFloat rp st2
              (JS.Returned (Api.mkResult true (Some tt) JS.TAbsent))
              "scan-42" [sent] (Api.mkConfirmPreferences [] [] [] 2))
    as [_ H].
  - apply ConfirmScreen.reachable_step. apply ConfirmScreen.reachable_step.
    apply ConfirmScreen.reachable_initial.
  - left. reflexivity.
  - destruct (H sent (or_introl eq_refl)) as (Hc & Hp & _ & _).
    split; [exact Hc|]. split; [exact Hp | reflexivity].
Defined.

(** ** Loading the scan results *)

Section LoadingFacts.
Import JS ConfirmScreen Properties.


Lemma loadScanResults_cases rp st awaited :
  load_case rp st awaited (loadScanResults rp st awaited).
Proof.
  unfold loadScanResults.
  destruct (is_mock_scan (scanId rp)) eqn:Hmock; [now constructor|].
  destruct awaited as [result|message]; [|now eapply load_thrown].
  destruct (Api.success result) eqn:Hs.
  - destruct (Api.data result) as [d|] eqn:Hd.
    + assert (Ha : answered (Returned result) = Some d)
        by (unfold answered; now rewrite Hs).
      destruct (d_items d) as [[|i l]|] eqn:Hi.
      * destruct (text_eq (d_status d) "processing") eqn:Hp.
        -- eapply load_processing; eauto. unfold with_items. now rewrite Hi.
        -- eapply load_empty; eauto. unfold with_items. now rewrite Hi.
      * pose proof (load_items rp st (Returned result) d i l Hmock Ha Hi) as H.
        unfold detection_recorded in H. cbv zeta in *.
        destruct (IngredientDetection.detectFruits (Some (mapi firstConfirmed (i :: l))));
          exact H.
      * destruct (text_eq (d_status d) "processing") eqn:Hp.
        -- eapply load_processing; eauto. unfold with_items. now rewrite Hi.
        -- eapply load_empty; eauto. unfold with_items. now rewrite Hi.
    + assert (Ha : answered (Returned result) = None)
        by (unfold answered; now rewrite Hs).
      destruct (detectedItems rp) as [[|i l]|] eqn:Hb.
      * eapply load_failed; eauto. unfold has_backup. now rewrite Hb.
      * eapply load_backup; eauto.
      * eapply load_failed; eauto. unfold has_backup. now rewrite Hb.
  - assert (Ha : answered (Returned result) = None)
      by (unfold answered; now rewrite Hs).
    assert (Hgoal :
      load_case rp st (Returned result)
        (match detectedItems rp with
         | Some (i :: l) =>
             (setLoading false (setItems (mapi firstConfirmed (i :: l)) st),
              [Call (Api.GetScan (scanId rp))])
         | _ =>
             (setLoading false (setItems [mockItem "unknown food item"] st),
              [Call (Api.GetScan (scanId rp));
               Alert "Detection Failed"
                 ("Real AI detection failed: "
                  ++ text_or (Api.error result) "Unknown error"
                  ++ String (ascii_of_nat 10) (String (ascii_of_nat 10)
                       "Using fallback detection for now."))])
         end)).
    { destruct (detectedItems rp) as [[|i l]|] eqn:Hb.
      * eapply load_failed; eauto. unfold has_backup. now rewrite Hb.
      * eapply load_backup; eauto.
      * eapply load_failed; eauto. unfold has_backup. now rewrite Hb. }
    destruct (Api.data result); exact Hgoal.
Qed.



End LoadingFacts.

(** ** Generating the recipe *)

Section RecipeFacts.
Import JS RecipeScreen Properties.

Variable type_error : string.

Lemma generateRecipe_catch_alert (message : string) (st : state) :
  exists title text buttons,
    generateRecipe_catch message st
    = (setLoading false st, [Alert title text buttons])
    /\ offers_retry buttons /\ offers_mock buttons.
Proof.
  unfold generateRecipe_catch, offers_retry, offers_mock.
  destruct (includes message "timeout" || includes message "Network"
            || includes message "fetch");
    [|destruct (includes message "Recipe generation failed"
                || includes message "AI could not generate recipes")];
    do 3 eexists; (split; [reflexivity|]); split;
    try (eexists; left; reflexivity); right; left; reflexivity.
Qed.

Lemma load_recipe_effects recipeId index st fetched :
  after_create (snd (load_recipe type_error recipeId index st fetched)).
Proof.
  assert (Hfail : forall message,
    after_create
      (snd (let (st', effects) := generateRecipe_catch message st in
            (st', Call (Api.GetRecipe recipeId) :: effects)))).
  { intros message.
    destruct (generateRecipe_catch_alert message st) as (t & m & b & E & Hr & Hm).
    rewrite E. simpl. right; right; right. now exists recipeId, t, m, b. }
  unfold load_recipe.
  destruct fetched as [recipeResponse|message]; [|apply Hfail].
  destruct (Api.success recipeResponse); [|apply Hfail].
  destruct (Api.data recipeResponse); [|apply Hfail].
  simpl. right; left. now exists recipeId.
Qed.

(** The effects of one invocation of [generateRecipe]: the timer and the
    create-recipe call first, then one of the four continuations. *)
Lemma generateRecipe_effects rp st created fetched :
  exists rest,
    snd (generateRecipe type_error rp st created fetched)
    = race_timer :: create_call rp st :: rest
    /\ after_create rest.
Proof.
  assert (Hcatch : forall message st',
    after_create (snd (generateRecipe_catch message st'))).
  { intros message st'.
    destruct (generateRecipe_catch_alert message st') as (t & m & b & E & Hr & Hm).
    rewrite E. simpl. right; right; left. now exists t, m, b. }
  unfold generateRecipe, create_call, race_timer. cbv zeta.
  eexists. split; [reflexivity|].
  unfold generateRecipe_resume.
  destruct created as [createResponse|message]; [|apply Hcatch].
  cbv zeta.
  destruct (Api.success createResponse); simpl negb; cbv iota; [|apply Hcatch].
  destruct (Api.data createResponse) as [d|]; [|apply Hcatch].
  destruct (recipe_ids d) as [ids|].
  - destruct (recipes d) as [[|r [|r' others]]|]; try apply Hcatch; try (now left).
    destruct (test_mode d || match ai_generated r with Some _ => true | None => false end);
      [now left | apply load_recipe_effects].
  - destruct (recipe_id d) as [| |rid]; try apply Hcatch.
    destruct (rid =? ""); [apply Hcatch | apply load_recipe_effects].
Qed.

(** When the create-recipe call fails, the invocation ends with the error
    alert, and loading has stopped. *)
Lemma generateRecipe_failed rp st created fetched :
  creation_failed created = true ->
  exists title message buttons,
    generateRecipe type_error rp st created fetched
    = (setLoading false st,
       [race_timer; create_call rp st; Alert title message buttons])
    /\ offers_retry buttons /\ offers_mock buttons.
Proof.
  intros Hf. unfold generateRecipe, create_call, race_timer, generateRecipe_resume.
  cbv zeta.
  destruct created as [createResponse|message]; simpl in Hf.
  - rewrite Hf.
    destruct (generateRecipe_catch_alert
                (text_or (Api.error createResponse) "Unexpected API response format") st)
      as (t & m & b & E & Hr & Hm).
    rewrite E. now exists t, m, b.
  - destruct (generateRecipe_catch_alert message st) as (t & m & b & E & Hr & Hm).
    rewrite E. now exists t, m, b.
Qed.


Lemma after_create_alerts (rest : list effect) :
  after_create rest ->
  forall buttons, In buttons (alert_buttons rest) ->
    offers_retry buttons /\ offers_mock buttons.
Proof.
  intros [H | [(i & H) | [(t & m & b & H & Hr & Hm) | (i & t & m & b & H & Hr & Hm)]]];
    subst; simpl; intros buttons Hin;
    try contradiction; destruct Hin as [<-|[]]; now split.
Qed.

End RecipeFacts.

(** ** The pipeline: polling and retries *)

Section PipelineClaims.
Import JS Properties.




End PipelineClaims.

(** ** Fallbacks *)

Section FallbackClaims.
Import JS Properties.

(** C5, as stated, fails: a fetch that succeeds with no item and status
    'ready', on a route without detected items, puts the placeholder on the
    screen without any alert; and while the status is 'processing' no
    placeholder is substituted at all. *)
Lemma placeholder_without_alert :
  let rp := ConfirmScreen.mkRoute "scan-42" "file:///photo.jpg" None in
  let answer status :=
    Returned (Api.mkResult true
                (Some (ConfirmScreen.mkScanData (Some []) (TStr status))) TAbsent) in
  let ready := ConfirmScreen.loadScanResults rp ConfirmScreen.initial (answer "ready") in
  let processing :=
    ConfirmScreen.loadScanResults rp ConfirmScreen.initial (answer "processing") in
  ConfirmScreen.items (fst ready) = [PLACEHOLDER]
  /\ alerts (snd ready) = []
  /\ ConfirmScreen.items (fst processing) = []
  /\ alerts (snd processing) = [].
Proof. cbv zeta. repeat split. Qed.

(** C5, amended.  On a real scan: (1) when the fetch fails (it reports no
    success, or has no body) and the route carries no detected items,
    [loadScanResults] puts the placeholder item on the screen (label
    'unknown food item', confidence 0.5, grams_est 100, confirmed) and shows
    the 'Detection Failed' alert; (2) when the fetch succeeds with no item
    and a status other than 'processing', it puts the same placeholder on
    the screen and shows no alert; (3) while the status is 'processing' it
    substitutes nothing and polls again after two seconds.  (4) When the
    create-recipe call fails, [generateRecipe] ends with one error alert that
    offers 'Use Mock Recipe', and every alert it shows offers it; the button
    runs [generateMockRecipe], which shows the template recipe. *)
Theorem fallback_to_placeholder_and_template :
  (forall rp st result,
     ConfirmScreen.is_mock_scan (ConfirmScreen.scanId rp) = false ->
     answered (Returned result) = None -> has_backup rp = false ->
     ConfirmScreen.items (fst (ConfirmScreen.loadScanResults rp st (Returned result)))
       = [PLACEHOLDER]
     /\ exists message,
          alerts (snd (ConfirmScreen.loadScanResults rp st (Returned result)))
          = [("Detection Failed", message)])
  /\ (forall rp st awaited d,
        ConfirmScreen.is_mock_scan (ConfirmScreen.scanId rp) = false ->
        answered awaited = Some d -> with_items d = false ->
        text_eq (ConfirmScreen.d_status d) "processing" = false ->
        ConfirmScreen.items (fst (ConfirmScreen.loadScanResults rp st awaited))
          = [PLACEHOLDER]
        /\ alerts (snd (ConfirmScreen.loadScanResults rp st awaited)) = [])
  /\ (forall rp st awaited,
        ConfirmScreen.is_mock_scan (ConfirmScreen.scanId rp) = false ->
        still_processing awaited = true ->
        ConfirmScreen.loadScanResults rp st awaited
        = (st, [ConfirmScreen.Call (Api.GetScan (ConfirmScreen.scanId rp));
                ConfirmScreen.SetTimeout 2000]))
  /\ (forall type_error rp st created fetched,
        (creation_failed created = true ->
         exists title message buttons,
           RecipeScreen.generateRecipe type_error rp st created fetched
           = (RecipeScreen.setLoading false st,
              [race_timer; create_call rp st;
               RecipeScreen.Alert title message buttons])
           /\ offers_mock buttons)
        /\ (forall buttons,
              In buttons
                (alert_buttons
                   (snd (RecipeScreen.generateRecipe type_error rp st created fetched))) ->
              offers_mock buttons))
  /\ (forall type_error rp st created fetched,
        let pressed :=
          RecipeScreen.press type_error RecipeScreen.RunGenerateMockRecipe rp st
            created fetched in
        snd pressed = []
        /\ RecipeScreen.recipe_shown (fst pressed) = Some (RecipeScreen.mockRecipe rp st)
        /\ RecipeScreen.loading (fst pressed) = false).
Proof.
  split; [|split; [|split; [|split]]].
  - intros rp st result Hmock Ha Hb.
    destruct (loadScanResults_cases rp st (Returned result))
      as [Hm | m Hm Hr | d i l Hm Hd Hi | d Hm Hd Hw Hp | d Hm Hd Hw Hp
          | r i l Hm Hr Hn Hd | r Hm Hr Hn Hd]; try congruence.
    + unfold has_backup in Hb. rewrite Hd in Hb. discriminate.
    + simpl. split; [reflexivity|]. eexists. reflexivity.
  - intros rp st awaited d Hmock Ha Hw Hp.
    destruct (loadScanResults_cases rp st awaited)
      as [Hm | m Hm Hr | d' i l Hm Hd Hi | d' Hm Hd Hw' Hp' | d' Hm Hd Hw' Hp'
          | r i l Hm Hr Hn Hd | r Hm Hr Hn Hd]; try congruence.
    + subst awaited. discriminate.
    + assert (d' = d) by congruence. subst d'.
      unfold with_items in Hw. rewrite Hi in Hw. discriminate.
    + simpl. split; reflexivity.
  - intros rp st awaited Hmock Hsp.
    unfold still_processing in Hsp.
    destruct (answered awaited) as [d|] eqn:Ha; [|discriminate].
    apply andb_prop in Hsp. destruct Hsp as [Hw Hp].
    apply negb_true_iff in Hw.
    destruct (loadScanResults_cases rp st awaited)
      as [Hm | m Hm Hr | d' i l Hm Hd Hi | d' Hm Hd Hw' Hp' | d' Hm Hd Hw' Hp'
          | r i l Hm Hr Hn Hd | r Hm Hr Hn Hd]; try congruence.
    + subst awaited. discriminate.
    + assert (d' = d) by congruence. subst d'.
      unfold with_items in Hw. rewrite Hi in Hw. discriminate.
  - intros type_error rp st created fetched. split.
    + intros Hf.
      destruct (generateRecipe_failed type_error rp st created fetched Hf)
        as (t & m & b & E & _ & Hm).
      now exists t, m, b.
    + destruct (generateRecipe_effects type_error rp st created fetched)
        as (rest & E & Hrest).
      rewrite E. simpl. intros buttons Hin.
      now apply (after_create_alerts rest Hrest buttons).
  - intros type_error rp st created fetched pressed. repeat split.
Qed.

(** C5 amended, on a fetch that the server answers with 500. *)
Lemma fallback_to_placeholder_and_template_witness :
  let rp := ConfirmScreen.mkRoute "scan-42" "file:///photo.jpg" None in
  let failed :=
    Api.apiCall (Api.Response 500 "Internal Server Error" (Thrown "not read")) in
  ConfirmScreen.items
    (fst (ConfirmScreen.loadScanResults rp ConfirmScreen.initial (Returned failed)))
  = [PLACEHOLDER].
Proof.
  intros rp failed.
  apply (proj1 fallback_to_placeholder_and_template rp ConfirmScreen.initial failed);
    reflexivity.
Defined.

End FallbackClaims.

(** ** Authentication *)

Section AuthenticationClaims.
Import JS.

Lemma substring_all (s : string) : String.substring 0 (String.length s) s = s.
Proof. induction s as [|c s IH]; simpl; [reflexivity | now rewrite IH]. Qed.

Lemma bearer_token_of_header (token : string) :
  Gateway.bearer_token ("Bearer " ++ token) = Some token.
Proof.
  unfold Gateway.bearer_token. simpl String.prefix. rewrite prefix_empty.
  simpl. now rewrite Nat.sub_0_r, substring_all.
Qed.

Lemma no_token_no_bearer (c : Api.call) :
  Gateway.bearer_token (Api.req_authorization (Api.request_of None c)) = None.
Proof. reflexivity. Qed.

(** C6.  Every endpoint of the REST surface requires bearer-token
    authentication.  Whatever the call (presign upload, start scan, get scan,
    confirm scan, create recipe, get recipe, log meal), a request whose
    Authorization header is not a bearer token that the identity provider
    accepts is answered 401 and the state behind the API is the one before
    (no function runs); in particular every call of a client that holds no
    token is rejected, and [apiCall] reports it as a failure.  A request with
    an accepted token is served. *)
Theorem rest_surface_requires_bearer_token :
  forall (valid_token : string -> bool) (backend : Type)
         (serve : Api.call -> string -> backend -> backend * (Z * string)),
    (forall (req : Api.request) (b : backend),
       Gateway.authenticated valid_token req = false ->
       Gateway.handle valid_token backend serve req b = (b, (401%Z, "Unauthorized")))
    /\ (forall (c : Api.call) (b : backend),
          Gateway.handle valid_token backend serve (Api.request_of None c) b
          = (b, (401%Z, "Unauthorized")))
    /\ (forall (c : Api.call) (token : string) (b : backend),
          token <> "" -> valid_token token = true ->
          Gateway.handle valid_token backend serve (Api.request_of (Some token) c) b
          = serve c token b)
    /\ (forall (D : Type) (json : outcome (option D)),
          Api.apiCall (Api.Response 401 "Unauthorized" json)
          = Api.mkResult false None
              (TStr "HTTP error! status: 401, body: Unauthorized")).
Proof.
  intros valid_token backend serve. split; [|split; [|split]].
  - intros req b. unfold Gateway.authenticated, Gateway.handle, Gateway.UNAUTHORIZED.
    destruct (Gateway.bearer_token (Api.req_authorization req)) as [token|];
      [|reflexivity].
    now intros ->.
  - intros c b. unfold Gateway.handle. now rewrite no_token_no_bearer.
  - intros c token b Hne Hvalid. unfold Gateway.handle, Api.request_of.
    cbn [Api.req_authorization Api.req_call].
    unfold Api.authorization_header.
    destruct (String.eqb_spec token ""); [contradiction|].
    now rewrite bearer_token_of_header, Hvalid.
  - intros D json. reflexivity.
Qed.

(** C6 on a backend that counts the requests it serves, with one accepted
    token: a get-scan request with another token is answered 401 and the
    count stays 0. *)
Lemma rest_surface_requires_bearer_token_witness :
  let valid_token := String.eqb "eyJhbGciOi" in
  let serve (c : Api.call) (token : string) (served : nat) :=
    (S served, (200%Z, "{}")) in
  let req := Api.request_of (Some "forged") (Api.GetScan "scan-42") in
  Gateway.handle valid_token nat serve req 0%nat = (0%nat, (401%Z, "Unauthorized")).
Proof.
  intros valid_token serve req.
  apply (proj1 (rest_surface_requires_bearer_token valid_token nat serve) req 0%nat).
  reflexivity.
Defined.

End AuthenticationClaims.

(** ** The template recipes *)

Section TemplateClaims.
Import JS RecipeScreen Properties.








End TemplateClaims.

(** ** Fruit ingredients on the confirm screen *)

Section FruitOptionClaims.
Import JS IngredientDetection ConfirmScreen Properties.

Lemma Forall_mapi_from_impl {A B : Type} (P : A -> Prop) (Q : B -> Prop)
    (f : A -> nat -> B) (l : list A) (n : nat) :
  (forall a i, P a -> Q (f a i)) -> Forall P l -> Forall Q (mapi_from f n l).
Proof.
  intros H Hl. revert n.
  induction Hl as [|a l Ha _ IH]; intros n; simpl; constructor; auto.
Qed.

Lemma labeled_fruit_firstConfirmed (it : item) (index : nat) :
  labeled_fruit it -> labeled_fruit (firstConfirmed it index).
Proof. intros H. exact H. Qed.

(** When the get-scan call succeeds with a non-empty list of ingredients
    labeled as fruit, the confirm screen records the detection and shows the
    Smoothie and Dessert options in place of the cuisines; the category
    selector lists the same two. *)
Lemma fetched_fruit_shows_fruit_options rp st awaited d (i : item) (l : list item) :
  is_mock_scan (scanId rp) = false ->
  answered awaited = Some d -> d_items d = Some (i :: l) ->
  Forall labeled_fruit (i :: l) ->
  let st' := fst (loadScanResults rp st awaited) in
  isFruitDetected st' = true
  /\ recipeTypeTitle st' = "Recipe Type:"
  /\ recipeTypeOptions st' = ["Smoothie"; "Dessert"]
  /\ selectedRecipeType st' = "smoothie"
  /\ map RecipeCategorySelector.id
       (RecipeCategorySelector.categoryOptions (isFruitDetected st'))
     = ["smoothie"; "dessert"].
Proof.
  intros Hmock Ha Hi Hall st'.
  assert (Hdet : detectFruits (Some (mapi firstConfirmed (i :: l))) = true).
  { apply detectFruits_all_tallied; [discriminate|].
    apply Forall_mapi_from_impl with (P := labeled_fruit); [|exact Hall].
    intros a n Hf. unfold tallied.
    now rewrite (labeled_fruit_isFruit _ (labeled_fruit_firstConfirmed a n Hf)). }
  assert (E : st' = setLoading false (detection_recorded (mapi firstConfirmed (i :: l)) st)).
  { subst st'.
    destruct (loadScanResults_cases rp st awaited)
      as [Hm | m Hm Hr | d' i' l' Hm Hd Hi' | d' Hm Hd Hw Hp | d' Hm Hd Hw Hp
          | r i' l' Hm Hr Hn Hd | r Hm Hr Hn Hd]; try congruence.
    - subst awaited. discriminate.
    - assert (d' = d) by congruence. subst d'.
      assert (i' :: l' = i :: l) as -> by congruence. reflexivity.
    - assert (d' = d) by congruence. subst d'.
      unfold with_items in Hw. rewrite Hi in Hw. discriminate.
    - assert (d' = d) by congruence. subst d'.
      unfold with_items in Hw. rewrite Hi in Hw. discriminate. }
  rewrite E. unfold detection_recorded. cbv zeta. rewrite Hdet.
  repeat split.
Qed.

(** C2 at the failing input.  The scan of a banana and a mango started with
    its items in the response, the later get-scan call fails (HTTP 500), and
    the confirm screen falls back on the detected items it was given: the
    list on the screen is all fruit and [getRecipeCategories] classifies it
    as fruit-based, yet the detection flag stays unset and the screen shows
    the six cuisines, not Smoothie and Dessert. *)
Theorem backup_fruit_shows_cuisine_options :
  let fruit name :=
    mkItem (TStr name) TAbsent (VNum 0.75) (VNum 120) VUndefined false None in
  let rp := mkRoute "scan-42" "file:///photo.jpg" (Some [fruit "banana"; fruit "mango"]) in
  let failed :=
    Api.apiCall (Api.Response 500 "Internal Server Error" (Thrown "not read")) in
  let st := fst (loadScanResults rp initial (Returned failed)) in
  map label (items st) = [TStr "banana"; TStr "mango"]
  /\ getRecipeCategories (Some (items st))
     = {| isFruitBased := true;
          suggestedCategories := ["smoothie"; "dessert"];
          defaultCategory := "smoothie" |}
  /\ isFruitDetected st = false
  /\ recipeTypeTitle st = "Cuisine Type:"
  /\ recipeTypeOptions st
     = ["Italian"; "Mexican"; "Asian"; "Indian"; "Mediterranean"; "American"].
Proof. cbv zeta. repeat split. Qed.

End FruitOptionClaims.

(** C1 on a list whose only item was unchecked by the user. *)
Lemma zero_confirmed_is_rejected_witness :
  let rp := ConfirmScreen.mkRoute "scan-42" "file:///photo.jpg" None in
  let banana :=
    mkItem (JS.TStr "banana") JS.TAbsent (JS.VNum 0.75) (JS.VNum 120) (JS.VNum 120)
      false (Some false) in
  let st := ConfirmScreen.setLoading false
              (ConfirmScreen.setItems [banana] ConfirmScreen.initial) in
  let awaited := JS.Returned (Api.mkResult true (Some tt) JS.TAbsent) in
  ConfirmScreen.dispatch JS.parseFloat rp st
    (ConfirmScreen.PressGenerateRecipe awaited)
  = (st, [ConfirmScreen.Alert "Error" "Please confirm at least one ingredient"]).
Proof.
  intros rp banana st awaited.
  apply (zero_confirmed_is_rejected JS.parseFloat rp st awaited).
  - intros it [<-|[]]. reflexivity.
  - reflexivity.
  - reflexivity.
Defined.

(** The fruit categories on two labels that contain a fruit name. *)
Lemma getRecipeCategories_fruit_witness :
  let it name := mkItem (JS.TStr name) JS.TAbsent (JS.VNum 0.75) (JS.VNum 120)
                   JS.VUndefined false None in
  IngredientDetection.getRecipeCategories (Some [it "Ripe Banana"; it "MANGO"])
  = {| IngredientDetection.isFruitBased := true;
       IngredientDetection.suggestedCategories := ["smoothie"; "dessert"];
       IngredientDetection.defaultCategory := "smoothie" |}.
Proof.
  intros it. apply getRecipeCategories_fruit; [discriminate|].
  apply Forall_cons; [|apply Forall_cons; [|apply Forall_nil]].
  - exists "banana". split; [|reflexivity].
    unfold IngredientDetection.COMMON_FRUITS. do 12 right. left. reflexivity.
  - exists "mango". split; [|reflexivity].
    unfold IngredientDetection.COMMON_FRUITS. do 14 right. left. reflexivity.
Defined.

(** A successful fetch of a strawberry and a kiwi: the confirm screen shows
    Smoothie and Dessert. *)
Lemma fetched_fruit_shows_fruit_options_witness :
  let it name := mkItem (JS.TStr name) JS.TAbsent (JS.VNum 0.75) (JS.VNum 120)
                   JS.VUndefined false None in
  let rp := ConfirmScreen.mkRoute "scan-42" "file:///photo.jpg" None in
  let d := ConfirmScreen.mkScanData (Some [it "strawberry"; it "kiwi"]) (JS.TStr "ready") in
  let st' :=
    fst (ConfirmScreen.loadScanResults rp ConfirmScreen.initial
           (JS.Returned (Api.mkResult true (Some d) JS.TAbsent))) in
  ConfirmScreen.isFruitDetected st' = true
  /\ ConfirmScreen.recipeTypeTitle st' = "Recipe Type:"
  /\ ConfirmScreen.recipeTypeOptions st' = ["Smoothie"; "Dessert"]
  /\ ConfirmScreen.selectedRecipeType st' = "smoothie"
  /\ map RecipeCategorySelector.id
       (RecipeCategorySelector.categoryOptions (ConfirmScreen.isFruitDetected st'))
     = ["smoothie"; "dessert"].
Proof.
  intros it rp d.
  apply (fetched_fruit_shows_fruit_options rp ConfirmScreen.initial
           (JS.Returned (Api.mkResult true (Some d) JS.TAbsent)) d
           (it "strawberry") [it "kiwi"]); try reflexivity.
  apply Forall_cons; [|apply Forall_cons; [|apply Forall_nil]].
  - exists "strawberry". split; [|reflexivity].
    unfold IngredientDetection.COMMON_FRUITS. do 6 right. left. reflexivity.
  - exists "kiwi". split; [|reflexivity].
    unfold IngredientDetection.COMMON_FRUITS. do 17 right. left. reflexivity.
Defined.

(* ================================================================= *)
(** * Further properties of the code *)

(** ** Lists and strings *)

Lemma array_includes_app (l : list string) (p s : string) :
  JS.array_includes (l ++ [p]) s = JS.array_includes l s || (s =? p).
Proof.
  unfold JS.array_includes. rewrite existsb_app. simpl. now rewrite orb_false_r.
Qed.

Lemma array_includes_remove (l : list string) (p s : string) :
  JS.array_includes (filter (fun i => negb (i =? p)) l) s
  = JS.array_includes l s && negb (s =? p).
Proof.
  unfold JS.array_includes. induction l as [|a l IH]; simpl; [reflexivity|].
  destruct (String.eqb_spec a p) as [->|Hap]; simpl.
  - rewrite IH. destruct (String.eqb_spec s p); simpl.
    + now rewrite andb_false_r.
    + reflexivity.
  - rewrite IH. destruct (String.eqb_spec s a) as [->|Hsa]; simpl; [|reflexivity].
    destruct (String.eqb_spec a p); [contradiction | reflexivity].
Qed.

Lemma nth_error_update_at {A : Type} (f : A -> A) (l : list A) (index j : nat) :
  nth_error (ConfirmScreen.update_at f index l) j
  = if (j =? index)%nat then option_map f (nth_error l j) else nth_error l j.
Proof.
  revert index j. induction l as [|a l IH]; intros index j.
  - destruct index, j; simpl; try reflexivity; now destruct (j =? index)%nat.
  - destruct index, j; simpl; try reflexivity. apply IH.
Qed.

Lemma length_update_at {A : Type} (f : A -> A) (l : list A) (index : nat) :
  List.length (ConfirmScreen.update_at f index l) = List.length l.
Proof.
  revert index. induction l as [|a l IH]; intros [|n]; simpl; auto.
Qed.

Lemma update_at_involutive {A : Type} (f : A -> A) (l : list A) (index : nat) :
  (forall a, f (f a) = a) ->
  ConfirmScreen.update_at f index (ConfirmScreen.update_at f index l) = l.
Proof.
  intros Hf. revert index. induction l as [|a l IH]; intros [|n]; simpl;
    try reflexivity; [now rewrite Hf | now rewrite IH].
Qed.

(** ** Fruit detection, continued *)

Section DetectionThreshold.
Import JS IngredientDetection Properties.

Lemma fold_tally_filter (l : list item) (n : nat) :
  fold_left tally l n = (n + List.length (filter tallied l))%nat.
Proof.
  revert n. induction l as [|it l IH]; intros n; simpl; [lia|].
  rewrite IH. unfold tally, tallied.
  destruct (isFruit it || isSmoothieVegetable it); simpl; lia.
Qed.

(** X3.  [detectFruits] counts the ingredients whose label matches a fruit
    or a smoothie vegetable and answers [true] exactly when they are
    strictly more than three fifths of the list (the [> 0.6] test): three
    matches out of five are not enough, and the empty list is never
    fruit-based. *)
Theorem detectFruits_threshold (l : list item) :
  fruitCount l = List.length (filter tallied l)
  /\ (detectFruits (Some l) = true
      <-> (3 * List.length l < 5 * List.length (filter tallied l))%nat).
Proof.
  assert (Hc : fruitCount l = List.length (filter tallied l))
    by (unfold fruitCount; now rewrite fold_tally_filter).
  split; [exact Hc|].
  destruct l as [|it l]; [simpl; split; [discriminate | lia]|].
  rewrite detectFruits_ratio by discriminate. rewrite Hc.
  rewrite Z.ltb_lt. lia.
Qed.

(** X4.  [validateMealCombination] accepts exactly the categories that
    [getRecipeCategories] suggests for the same ingredients, whatever the
    meal type is; the default category is always accepted, and a combination
    is given a suggestion exactly when it is rejected or is a snack of a
    cuisine. *)
Theorem validateMealCombination_accepts_suggested
    (mealType recipeCategory : string) (ingredients : option (list item)) :
  isValid (validateMealCombination mealType recipeCategory ingredients)
  = array_includes (suggestedCategories (getRecipeCategories ingredients))
      recipeCategory
  /\ isValid (validateMealCombination mealType
                (defaultCategory (getRecipeCategories ingredients)) ingredients)
     = true
  /\ (suggestion (validateMealCombination mealType recipeCategory ingredients) = None
      <-> isValid (validateMealCombination mealType recipeCategory ingredients) = true
          /\ (detectFruits ingredients = true \/ mealType <> "snack")).
Proof.
  unfold validateMealCombination, getRecipeCategories. cbv zeta.
  destruct (detectFruits ingredients);
    cbn [andb negb suggestedCategories defaultCategory].
  - split; [|split].
    + destruct (array_includes ["smoothie"; "dessert"] recipeCategory); reflexivity.
    + reflexivity.
    + destruct (array_includes ["smoothie"; "dessert"] recipeCategory);
        cbn [suggestion isValid]; split; try discriminate; auto.
      intros [H _]; discriminate.
  - split; [|split].
    + destruct (array_includes ["italian"; "thai"; "mexican"; "indian"; "mediterranean"]
                  recipeCategory); [|reflexivity].
      destruct (mealType =? "snack"); reflexivity.
    + change (array_includes ["italian"; "thai"; "mexican"; "indian"; "mediterranean"]
                "italian") with true. cbv iota.
      destruct (mealType =? "snack"); reflexivity.
    + destruct (array_includes ["italian"; "thai"; "mexican"; "indian"; "mediterranean"]
                  recipeCategory).
      * destruct (String.eqb_spec mealType "snack"); cbn [suggestion isValid];
          split; try discriminate; auto.
        intros [_ [H|H]]; [discriminate | contradiction].
      * cbn [suggestion isValid]. split; [discriminate | intros [H _]; discriminate].
Qed.

End DetectionThreshold.

(** ** The confirm screen, continued *)

Section ConfirmScreenHandlers.
Import JS ConfirmScreen Properties.

Variable parseFloat : string -> float.

Lemma flip_confirmed_involutive (it : item) :
  flip_confirmed (flip_confirmed it) = it.
Proof. destruct it; unfold flip_confirmed; simpl. now rewrite negb_involutive. Qed.

Lemma nth_error_beyond {A : Type} (l : list A) (index : nat) :
  (index <? List.length l)%nat = false -> nth_error l index = None.
Proof. intros H. apply nth_error_None. apply Nat.ltb_ge in H. exact H. Qed.

(** X5.  [toggleItemConfirmed] flips the [confirmed] flag of the item at the
    index and touches nothing else (no item at all when the index is outside
    the list); pressing the same checkbox twice gives back the state. *)
Theorem toggleItemConfirmed_twice (index : nat) (st : state) :
  toggleItemConfirmed index (toggleItemConfirmed index st) = st
  /\ (forall j,
        nth_error (items (toggleItemConfirmed index st)) j
        = if (j =? index)%nat
          then option_map flip_confirmed (nth_error (items st) j)
          else nth_error (items st) j).
Proof.
  unfold toggleItemConfirmed. split.
  - destruct (index <? List.length (items st))%nat eqn:E.
    + rewrite items_setItems, length_update_at, E.
      rewrite update_at_involutive by apply flip_confirmed_involutive.
      destruct st; reflexivity.
    + now rewrite E.
  - intros j. destruct (index <? List.length (items st))%nat eqn:E.
    + rewrite items_setItems. apply nth_error_update_at.
    + destruct (Nat.eqb_spec j index) as [->|]; [|reflexivity].
      now rewrite (nth_error_beyond _ _ E).
Qed.

Lemma num_or_zero_not_nan (x : float) : PrimFloat.is_nan (num_or x 0) = false.
Proof.
  unfold num_or. destruct (truthy (VNum x)) eqn:E; [|reflexivity].
  simpl in E. apply negb_true_iff, orb_false_iff in E. apply E.
Qed.

(** The number that [updateItemGrams] stores is never -0: a zero of either
    sign is replaced by the literal 0. *)
Lemma num_or_zero_written (x : float) :
  (if PrimFloat.is_zero (num_or x 0) then PrimFloat.zero else num_or x 0)
  = num_or x 0.
Proof.
  unfold num_or, truthy.
  destruct (PrimFloat.is_zero x) eqn:Hz; [reflexivity|].
  destruct (PrimFloat.is_nan x); [reflexivity|]. cbn [orb negb]. now rewrite Hz.
Qed.

(** X6.  [updateItemGrams] writes one number into both gram fields of the
    item at the index and touches nothing else.  The number is what
    [parseFloat] reads from the text, or 0 when that is [NaN] or zero (an
    empty field): it is never [NaN].  It is the amount that [handleConfirm]
    later hands to [confirmScan] for the item; the text of the request
    carries it as a number when it is finite and as [null] when it is
    infinite. *)
Theorem updateItemGrams_sets_both_fields (index : nat) (grams_text : string)
    (st : state) :
  let gramsValue := num_or (parseFloat grams_text) 0 in
  let st' := updateItemGrams parseFloat index grams_text st in
  PrimFloat.is_nan gramsValue = false
  /\ (gramsValue = parseFloat grams_text \/ gramsValue = 0%float)
  /\ (forall j,
        nth_error (items st') j
        = if (j =? index)%nat
          then option_map (set_grams gramsValue) (nth_error (items st) j)
          else nth_error (items st) j)
  /\ (forall it,
        grams (set_grams gramsValue it) = VNum gramsValue
        /\ grams_est (set_grams gramsValue it) = VNum gramsValue
        /\ label (set_grams gramsValue it) = label it
        /\ confirmed (set_grams gramsValue it) = confirmed it
        /\ Api.ci_grams (confirmation_item (set_grams gramsValue it))
           = VNum gramsValue
        /\ json_property
             (Api.confirm_item_json (confirmation_item (set_grams gramsValue it)))
             "grams"
           = Some (if PrimFloat.is_infinity gramsValue then JNull
                   else JNum gramsValue)).
Proof.
  cbv zeta. split; [apply num_or_zero_not_nan|]. split; [|split].
  - unfold num_or. destruct (truthy (VNum (parseFloat grams_text))); auto.
  - intros j. unfold updateItemGrams.
    destruct (index <? List.length (items st))%nat eqn:E.
    + rewrite items_setItems. apply nth_error_update_at.
    + destruct (Nat.eqb_spec j index) as [->|]; [|reflexivity].
      now rewrite (nth_error_beyond _ _ E).
  - intros it.
    assert (Hsent : Api.ci_grams
                      (confirmation_item
                         (set_grams (num_or (parseFloat grams_text) 0) it))
                    = VNum (num_or (parseFloat grams_text) 0)).
    { unfold confirmation_item, set_grams, JS.or. cbn [Api.ci_grams grams grams_est].
      now destruct (truthy (VNum (num_or (parseFloat grams_text) 0))). }
    split; [reflexivity|]. split; [reflexivity|]. split; [reflexivity|].
    split; [reflexivity|]. split; [exact Hsent|].
    rewrite (proj2 (confirm_item_json_properties _)), Hsent.
    cbn [stringify_value]. unfold stringify_number, PrimFloat.is_finite.
    rewrite num_or_zero_not_nan, num_or_zero_written. cbn [orb].
    now destruct (PrimFloat.is_infinity (num_or (parseFloat grams_text) 0)).
Qed.

(** X7.  [addNewIngredient] does nothing when the name is blank (empty or
    white space only).  Otherwise it appends one item to the list, keeping
    the items before it: the new item carries the trimmed name, is
    confirmed, is flagged as manually added and has a gram amount that is
    neither 0 nor [NaN] (100 when the gram field does not read as such a
    number); the two input fields are reset. *)
Theorem addNewIngredient_appends (now : Z) (st : state) :
  let name := trim (newIngredientName st) in
  let st' := addNewIngredient parseFloat now st in
  (name = "" -> st' = st)
  /\ (name <> "" ->
      exists it,
        items st' = items st ++ [it]
        /\ label it = TStr name
        /\ confirmed it = true
        /\ manually_added it = Some true
        /\ truthy (grams it) = true
        /\ (grams it = VNum (parseFloat (newIngredientGrams st))
            \/ grams it = VNum 100)
        /\ newIngredientName st' = ""
        /\ newIngredientGrams st' = "100").
Proof.
  cbv zeta. unfold addNewIngredient. split.
  - intros ->. reflexivity.
  - intros Hne. apply String.eqb_neq in Hne. rewrite Hne. cbn [negb].
    eexists. split; [reflexivity|]. cbn [label confirmed manually_added grams].
    repeat split.
    + apply num_or_hundred_truthy.
    + unfold num_or. destruct (truthy (VNum (parseFloat (newIngredientGrams st)))); auto.
Qed.

(** X8.  [togglePreference] flips the membership of the pressed diet in
    [selectedDiets] and of no other one, and leaves the ingredient list
    alone. *)
Theorem togglePreference_flips (pref : string) (st : state) :
  let st' := togglePreference pref st in
  array_includes (selectedDiets st') pref
  = negb (array_includes (selectedDiets st) pref)
  /\ (forall other, other <> pref ->
        array_includes (selectedDiets st') other
        = array_includes (selectedDiets st) other)
  /\ items st' = items st.
Proof.
  cbv zeta. unfold togglePreference.
  destruct (array_includes (selectedDiets st) pref) eqn:E; cbn [selectedDiets setSelectedDiets items].
  - split; [|split; [|reflexivity]].
    + rewrite array_includes_remove, String.eqb_refl. now rewrite andb_false_r.
    + intros other Hne. rewrite array_includes_remove.
      apply String.eqb_neq in Hne. rewrite Hne. now rewrite andb_true_r.
  - split; [|split; [|reflexivity]].
    + rewrite array_includes_app, String.eqb_refl. now rewrite orb_true_r.
    + intros other Hne. rewrite array_includes_app.
      apply String.eqb_neq in Hne. rewrite Hne. now rewrite orb_false_r.
Qed.

(** What [handleConfirm] comes to when an item is confirmed. *)
Lemma handleConfirm_confirmed (rp : route_params) (st : state)
    (awaited : outcome (Api.result unit)) :
  filter confirmed (items st) <> [] ->
  handleConfirm rp st awaited
  = (setLoading false st,
     [ Call (Api.ConfirmScan (scanId rp)
               (map confirmation_item (filter confirmed (items st)))
               {| Api.cp_diets := selectedDiets st;
                  Api.cp_cuisines := cuisines_of st;
                  Api.cp_allergens := selectedAllergens st;
                  Api.cp_servings := servings st |});
       Navigate "Recipe"
         {| r_scanId := scanId rp;
            r_confirmedItems := filter confirmed (items st);
            r_servings := servings st;
            r_preferences := navigationPreferences st |} ]).
Proof.
  intros Hne. unfold handleConfirm.
  destruct (filter confirmed (items st)) as [|it l]; [congruence|].
  cbn [List.length Nat.eqb]. destruct awaited; reflexivity.
Qed.

(** X9.  [handleConfirm] does not look at the answer to the confirm-scan
    call: whatever the call returns or throws, the screen ends in the same
    state with the same effects.  When an item is confirmed these are the
    request and then the navigation to the recipe screen with the confirmed
    items, the servings and the preferences, and the spinner is off. *)
Theorem handleConfirm_ignores_answer (rp : route_params) (st : state)
    (a b : outcome (Api.result unit)) :
  handleConfirm rp st a = handleConfirm rp st b
  /\ (filter confirmed (items st) <> [] ->
      handleConfirm rp st a
      = (setLoading false st,
         [ Call (Api.ConfirmScan (scanId rp)
                   (map confirmation_item (filter confirmed (items st)))
                   {| Api.cp_diets := selectedDiets st;
                      Api.cp_cuisines := cuisines_of st;
                      Api.cp_allergens := selectedAllergens st;
                      Api.cp_servings := servings st |});
           Navigate "Recipe"
             {| r_scanId := scanId rp;
                r_confirmedItems := filter confirmed (items st);
                r_servings := servings st;
                r_preferences := navigationPreferences st |} ])).
Proof.
  split; [|apply handleConfirm_confirmed].
  unfold handleConfirm.
  destruct (List.length (filter confirmed (items st)) =? 0)%nat; [reflexivity|].
  destruct a, b; reflexivity.
Qed.

Lemma mapi_from_firstConfirmed_label (l : list item) (n : nat) :
  map label (mapi_from firstConfirmed n l) = map label l.
Proof. revert n. induction l as [|it l IH]; intros n; simpl; [|rewrite IH]; reflexivity. Qed.

Lemma mapi_from_firstConfirmed_rest (l : list item) (n : nat) :
  filter confirmed (mapi_from firstConfirmed (S n) l) = [].
Proof. revert n. induction l as [|it l IH]; intros n; simpl; [|rewrite IH]; reflexivity. Qed.

(** X10.  When the get-scan call of a real scan succeeds with items,
    [loadScanResults] puts every fetched item on the screen, in order and
    under its label, and confirms the first one only: a Generate Recipe
    press right after loading sends exactly the first ingredient. *)
Theorem loadScanResults_confirms_first (rp : route_params) (st : state)
    (awaited : outcome (Api.result scan_data)) (d : scan_data) (i : item)
    (l : list item) :
  is_mock_scan (scanId rp) = false ->
  answered awaited = Some d ->
  d_items d = Some (i :: l) ->
  let st' := fst (loadScanResults rp st awaited) in
  map label (items st') = map label (i :: l)
  /\ filter confirmed (items st') = [firstConfirmed i 0]
  /\ loading st' = false
  /\ forall confirmation,
       exists params,
         snd (handleConfirm rp st' confirmation)
         = [ Call (Api.ConfirmScan (scanId rp) [confirmation_item (firstConfirmed i 0)]
                     {| Api.cp_diets := selectedDiets st';
                        Api.cp_cuisines := cuisines_of st';
                        Api.cp_allergens := selectedAllergens st';
                        Api.cp_servings := servings st' |});
             Navigate "Recipe" params ].
Proof.
  intros Hmock Ha Hi. cbv zeta.
  destruct (loadScanResults_cases rp st awaited)
    as [Hm | m Hm Hthrown | d' i' l' Hm Ha' Hi' | d' Hm Ha' Hw Hp | d' Hm Ha' Hw Hp
        | r i' l' Hm Hr Ha' Hb | r Hm Hr Ha' Hb];
    try congruence.
  - subst awaited. discriminate.
  - assert (d' = d) by congruence. subst d'.
    assert (Hil : i' :: l' = i :: l) by congruence. injection Hil as -> ->.
    cbn [fst]. unfold detection_recorded. cbv zeta.
    assert (Hitems :
      items (setLoading false
               (if IngredientDetection.detectFruits (Some (mapi firstConfirmed (i :: l)))
                then setSelectedRecipeType "smoothie"
                       (setIsFruitDetected
                          (IngredientDetection.detectFruits
                             (Some (mapi firstConfirmed (i :: l))))
                          (setItems (mapi firstConfirmed (i :: l)) st))
                else setIsFruitDetected
                       (IngredientDetection.detectFruits
                          (Some (mapi firstConfirmed (i :: l))))
                       (setItems (mapi firstConfirmed (i :: l)) st)))
      = mapi firstConfirmed (i :: l)).
    { destruct (IngredientDetection.detectFruits (Some (mapi firstConfirmed (i :: l))));
        reflexivity. }
    assert (Hfilter : filter confirmed (mapi firstConfirmed (i :: l))
                      = [firstConfirmed i 0]).
    { unfold mapi. simpl. now rewrite mapi_from_firstConfirmed_rest. }
    split; [|split; [|split]].
    + rewrite Hitems. unfold mapi. apply mapi_from_firstConfirmed_label.
    + now rewrite Hitems.
    + destruct (IngredientDetection.detectFruits (Some (mapi firstConfirmed (i :: l))));
        reflexivity.
    + intros confirmation.
      match goal with
      | |- context [handleConfirm rp ?s confirmation] =>
          destruct (handleConfirm_effects rp s confirmation) as [params Heff];
            [rewrite Hitems, Hfilter; discriminate|]
      end.
      exists params. rewrite Heff, Hitems, Hfilter. reflexivity.
  - unfold with_items in Hw. assert (d' = d) by congruence. subst d'.
    rewrite Hi in Hw. discriminate.
  - unfold with_items in Hw. assert (d' = d) by congruence. subst d'.
    rewrite Hi in Hw. discriminate.
Qed.

End ConfirmScreenHandlers.

(** ** Invariants of the confirm screen *)

Section ConfirmScreenInvariants.
Import JS ConfirmScreen Properties.

Variable parseFloat : string -> float.

(** What [loadScanResults] leaves of the user's choices. *)
Lemma loadScanResults_frame rp st awaited :
  let st' := fst (loadScanResults rp st awaited) in
  servings st' = servings st
  /\ selectedDiets st' = selectedDiets st
  /\ selectedMealType st' = selectedMealType st
  /\ selectedCookingLevel st' = selectedCookingLevel st
  /\ ((isFruitDetected st' = isFruitDetected st
       /\ selectedRecipeType st' = selectedRecipeType st)
      \/ (isFruitDetected st' = true /\ selectedRecipeType st' = "smoothie")
      \/ (isFruitDetected st' = false
          /\ selectedRecipeType st' = selectedRecipeType st)).
Proof.
  cbv zeta.
  destruct (loadScanResults_cases rp st awaited)
    as [Hm | m Hm Hthrown | d i l Hm Ha Hi | d Hm Ha Hw Hp | d Hm Ha Hw Hp
        | r i l Hm Hr Ha Hb | r Hm Hr Ha Hb];
    cbn [fst]; try (repeat split; left; split; reflexivity).
  unfold detection_recorded. cbv zeta.
  destruct (IngredientDetection.detectFruits (Some (mapi firstConfirmed (i :: l))));
    repeat split; right; [left | right]; split; reflexivity.
Qed.

Lemma handleConfirm_frame rp st awaited :
  fst (handleConfirm rp st awaited) = st
  \/ fst (handleConfirm rp st awaited) = setLoading false st.
Proof.
  unfold handleConfirm.
  destruct (List.length (filter confirmed (items st)) =? 0)%nat; [now left|].
  destruct awaited; now right.
Qed.

Lemma loadUserInfo_frame st awaited :
  loadUserInfo st awaited = st
  \/ exists name, loadUserInfo st awaited = setUserName name st.
Proof.
  unfold loadUserInfo. destruct awaited as [r|]; [|now left].
  destruct (Api.success r); [|now left].
  destruct (Api.data r); [|now left]. right. eexists. reflexivity.
Qed.

(** The events that touch neither the servings nor the diets nor the three
    chip selections. *)
Ltac untouched H :=
  unfold updateItemGrams, toggleItemConfirmed, addNewIngredient;
  repeat match goal with
         | |- context [if ?b then _ else _] => destruct b
         end;
  exact H.

Lemma dispatch_servings rp st e :
  (1 <= servings st)%Z -> (1 <= servings (fst (dispatch parseFloat rp st e)))%Z.
Proof.
  intros H.
  destruct e; unfold dispatch;
    try (destruct (shows_form st); [|exact H]); cbn [fst].
  - now rewrite (proj1 (loadScanResults_frame rp st awaited)).
  - destruct (loadUserInfo_frame st awaited) as [-> | [name ->]]; exact H.
  - untouched H.
  - untouched H.
  - exact H.
  - exact H.
  - untouched H.
  - cbn [servings setServings]. lia.
  - cbn [servings setServings]. lia.
  - unfold press. untouched H.
  - unfold press. untouched H.
  - unfold press. untouched H.
  - unfold togglePreference. untouched H.
  - exact H.
  - unfold addCustomDiet. untouched H.
  - cbn [andb]. destruct (negb (loading st)); [|exact H].
    destruct (handleConfirm_frame rp st awaited) as [-> | ->]; exact H.
Qed.

Lemma NoDup_snoc (l : list string) (s : string) :
  NoDup l -> array_includes l s = false -> NoDup (l ++ [s]).
Proof.
  intros Hl Hs.
  assert (Hnot : ~ In s l).
  { intros Hin. apply array_includes_In in Hin. congruence. }
  clear Hs. induction Hl as [|a l Ha Hl IH]; simpl.
  - constructor; [intros [] | constructor].
  - constructor.
    + rewrite in_app_iff. intros [Hin | [-> | []]]; [contradiction|].
      apply Hnot. now left.
    + apply IH. intros Hin. apply Hnot. now right.
Qed.

Lemma dispatch_diets rp st e :
  NoDup (selectedDiets st) -> NoDup (selectedDiets (fst (dispatch parseFloat rp st e))).
Proof.
  intros H.
  destruct e; unfold dispatch;
    try (destruct (shows_form st); [|exact H]); cbn [fst].
  - now rewrite (proj1 (proj2 (loadScanResults_frame rp st awaited))).
  - destruct (loadUserInfo_frame st awaited) as [-> | [name ->]]; exact H.
  - untouched H.
  - untouched H.
  - exact H.
  - exact H.
  - untouched H.
  - exact H.
  - exact H.
  - unfold press. untouched H.
  - unfold press. untouched H.
  - unfold press. untouched H.
  - match goal with
    | |- context [if ?b then togglePreference _ _ else _] => destruct b
    end; [|exact H].
    unfold togglePreference.
    destruct (array_includes (selectedDiets st) diet) eqn:E;
      cbn [selectedDiets setSelectedDiets].
    + now apply NoDup_filter.
    + now apply NoDup_snoc.
  - exact H.
  - unfold addCustomDiet.
    destruct (negb (trim (customDiet st) =? "")); cbn [andb]; [|exact H].
    destruct (array_includes (selectedDiets st) (trim (customDiet st))) eqn:E;
      cbn [negb]; [exact H|].
    cbn [selectedDiets setSelectedDiets setCustomDiet]. now apply NoDup_snoc.
  - cbn [andb]. destruct (negb (loading st)); [|exact H].
    destruct (handleConfirm_frame rp st awaited) as [-> | ->]; exact H.
Qed.

Lemma press_chip (options : list string) (name : string)
    (setter : string -> state -> state) (P : state -> Prop) (st : state) :
  P st ->
  (forall chip, In chip options -> P (setter (toLowerCase chip) st)) ->
  P (press options name setter st).
Proof.
  intros Hst Hset. unfold press.
  destruct (array_includes options name) eqn:E; [|exact Hst].
  apply Hset. now apply array_includes_In.
Qed.

Lemma dispatch_selections rp st e :
  selections_enumerated st ->
  selections_enumerated (fst (dispatch parseFloat rp st e)).
Proof.
  intros H.
  destruct e; unfold dispatch;
    try (destruct (shows_form st); [|exact H]); cbn [fst].
  - destruct (loadScanResults_frame rp st awaited)
      as (_ & _ & Hmeal & Hlevel & Htype).
    destruct H as (Hm & Hl & Ht). unfold selections_enumerated.
    rewrite Hmeal, Hlevel. split; [exact Hm|]. split; [exact Hl|].
    destruct Htype as [[-> ->] | [[-> ->] | [-> ->]]].
    + exact Ht.
    + simpl. auto.
    + destruct (isFruitDetected st); [|exact Ht].
      simpl in Ht. simpl. destruct Ht as [<- | [<- | []]]; auto.
  - destruct (loadUserInfo_frame st awaited) as [-> | [name ->]]; exact H.
  - untouched H.
  - untouched H.
  - exact H.
  - exact H.
  - untouched H.
  - exact H.
  - exact H.
  - apply press_chip; [exact H|]. intros chip Hin.
    destruct H as (Hm & Hl & Ht). split; [|split; [exact Hl | exact Ht]].
    simpl in Hin. destruct Hin as [<- | [<- | [<- | [<- | []]]]]; simpl; auto.
  - apply press_chip; [exact H|]. intros chip Hin.
    destruct H as (Hm & Hl & Ht). split; [exact Hm|]. split; [exact Hl|].
    unfold recipeTypeOptions in Hin.
    cbn [isFruitDetected setSelectedRecipeType selectedRecipeType].
    destruct (isFruitDetected st); simpl in Hin.
    + destruct Hin as [<- | [<- | []]]; simpl; auto.
    + destruct Hin as [<- | [<- | [<- | [<- | [<- | [<- | []]]]]]]; simpl; auto 12.
  - apply press_chip; [exact H|]. intros chip Hin.
    destruct H as (Hm & Hl & Ht). split; [exact Hm|]. split; [|exact Ht].
    simpl in Hin. destruct Hin as [<- | [<- | [<- | []]]]; simpl; auto.
  - unfold togglePreference. untouched H.
  - exact H.
  - unfold addCustomDiet. untouched H.
  - cbn [andb]. destruct (negb (loading st)); [|exact H].
    destruct (handleConfirm_frame rp st awaited) as [-> | ->]; exact H.
Qed.

Lemma reachable_selections rp st :
  reachable parseFloat rp st -> selections_enumerated st.
Proof.
  induction 1 as [|st e _ IH]; [|now apply dispatch_selections].
  unfold selections_enumerated. simpl. auto 12.
Qed.

(** X11.  In every state the confirm screen can reach, the number of
    servings is at least 1 (the minus button stops there) and no diet is
    selected twice (chips toggle, a custom diet that is already selected is
    not added); so every confirm-scan request carries such servings and
    diets. *)
Theorem confirm_request_servings_and_diets (rp : route_params) (st : state) :
  reachable parseFloat rp st ->
  (1 <= servings st)%Z
  /\ NoDup (selectedDiets st)
  /\ forall awaited scan sent prefs,
       In (Call (Api.ConfirmScan scan sent prefs)) (snd (handleConfirm rp st awaited)) ->
       (1 <= Api.cp_servings prefs)%Z /\ NoDup (Api.cp_diets prefs).
Proof.
  intros Hreach.
  assert (Hboth : (1 <= servings st)%Z /\ NoDup (selectedDiets st)).
  { induction Hreach as [|st e _ [IHs IHd]].
    - split; [simpl; lia | apply NoDup_nil].
    - split; [now apply dispatch_servings | now apply dispatch_diets]. }
  destruct Hboth as [Hs Hd].
  split; [exact Hs|]. split; [exact Hd|].
  intros awaited scan sent prefs Hin.
  destruct (filter confirmed (items st)) as [|it0 l0] eqn:E.
  - rewrite (handleConfirm_none_confirmed rp st awaited E) in Hin.
    destruct Hin as [Heq|[]]; discriminate.
  - destruct (handleConfirm_effects rp st awaited) as [params Heff]; [congruence|].
    rewrite Heff in Hin. destruct Hin as [Heq|[Heq|[]]]; [|discriminate].
    injection Heq as _ _ <-. now split.
Qed.

(** X12.  In every state the confirm screen can reach, the meal type, the
    cooking level and the recipe type are ids of chips of the screen (the
    recipe type may still be its default 'international'), and whenever
    fruit was detected the recipe type is 'smoothie' or 'dessert'. *)
Theorem confirm_selections_are_chip_ids (rp : route_params) (st : state) :
  reachable parseFloat rp st ->
  In (selectedMealType st) (map toLowerCase MEAL_TYPES)
  /\ In (selectedCookingLevel st) (map toLowerCase COOKING_LEVELS)
  /\ In (selectedRecipeType st)
       ("international"
        :: map toLowerCase ["Smoothie"; "Dessert"]
        ++ map toLowerCase
             ["Italian"; "Mexican"; "Asian"; "Indian"; "Mediterranean"; "American"])
  /\ (isFruitDetected st = true ->
      In (selectedRecipeType st) (map toLowerCase (recipeTypeOptions st))).
Proof.
  intros Hreach. destruct (reachable_selections rp st Hreach) as (Hm & Hl & Ht).
  split; [exact Hm|]. split; [exact Hl|]. split.
  - destruct (isFruitDetected st); [|exact Ht].
    simpl in Ht. destruct Ht as [<- | [<- | []]]; simpl; auto.
  - intros Hf. unfold recipeTypeOptions. rewrite Hf in *. exact Ht.
Qed.

End ConfirmScreenInvariants.

(** ** The recipe screen, continued *)

Section RecipeScreenFacts.
Import JS RecipeScreen Properties.

Variable type_error : string.

(** The cells that hold the preferences, and the spinner. *)
Lemma generateRecipe_catch_cells message st :
  let st' := fst (generateRecipe_catch message st) in
  loading st' = false
  /\ selectedCuisine st' = selectedCuisine st
  /\ selectedSkillLevel st' = selectedSkillLevel st
  /\ dietaryRestrictions st' = dietaryRestrictions st
  /\ selectedMealType st' = selectedMealType st
  /\ selectedRecipeCategory st' = selectedRecipeCategory st
  /\ isFruitDetected st' = isFruitDetected st.
Proof. cbv zeta. unfold generateRecipe_catch. cbn [fst]. repeat split. Qed.

Lemma load_recipe_cells recipeId index st fetched :
  let st' := fst (load_recipe type_error recipeId index st fetched) in
  loading st' = false
  /\ selectedCuisine st' = selectedCuisine st
  /\ selectedSkillLevel st' = selectedSkillLevel st
  /\ dietaryRestrictions st' = dietaryRestrictions st
  /\ selectedMealType st' = selectedMealType st
  /\ selectedRecipeCategory st' = selectedRecipeCategory st
  /\ isFruitDetected st' = isFruitDetected st.
Proof.
  cbv zeta. unfold load_recipe.
  destruct fetched as [recipeResponse|message];
    [|unfold generateRecipe_catch; cbn [fst]; repeat split].
  destruct (Api.success recipeResponse);
    [|unfold generateRecipe_catch; cbn [fst]; repeat split].
  destruct (Api.data recipeResponse);
    [|unfold generateRecipe_catch; cbn [fst]; repeat split].
  destruct index; cbn [fst]; repeat split.
Qed.

(** X13.  Every invocation of [generateRecipe] ends with the spinner off,
    whatever the create-recipe and get-recipe calls come to, and it never
    changes the preferences (cuisine, skill level, dietary restrictions,
    meal type, recipe category, fruit flag). *)
Theorem generateRecipe_stops_loading (rp : route_params) (st : state)
    (created : outcome (Api.result create_data))
    (fetched : outcome (Api.result recipe_details)) :
  let st' := fst (generateRecipe type_error rp st created fetched) in
  loading st' = false
  /\ selectedCuisine st' = selectedCuisine st
  /\ selectedSkillLevel st' = selectedSkillLevel st
  /\ dietaryRestrictions st' = dietaryRestrictions st
  /\ selectedMealType st' = selectedMealType st
  /\ selectedRecipeCategory st' = selectedRecipeCategory st
  /\ isFruitDetected st' = isFruitDetected st.
Proof.
  cbv zeta. unfold generateRecipe. cbn [fst]. unfold generateRecipe_resume.
  destruct created as [createResponse|message];
    [|apply generateRecipe_catch_cells].
  cbv zeta.
  destruct (Api.success createResponse); cbn [negb];
    [|apply generateRecipe_catch_cells].
  destruct (Api.data createResponse) as [d|]; [|apply generateRecipe_catch_cells].
  destruct (recipe_ids d) as [ids|].
  - destruct (recipes d) as [[|r [|r' others]]|];
      try (cbn [fst]; repeat split; fail).
    destruct (test_mode d
              || match ai_generated r with Some _ => true | None => false end);
      [cbn [fst]; repeat split|].
    apply (load_recipe_cells (text_to_string (id r)) (Some 0%nat)
             (setRecipeOptions (Some [r]) st) fetched).
  - destruct (recipe_id d) as [| |rid]; try apply generateRecipe_catch_cells.
    destruct (rid =? ""); [apply generateRecipe_catch_cells|].
    apply load_recipe_cells.
Qed.

(** X14.  How a failure is labelled.  A get-recipe call that answers
    without [success] always gives the 'Connection Issue' alert, and no
    other one, whatever the server reported (the fixed message 'Failed to
    fetch recipe details' contains 'fetch'): so it is inside [generateRecipe]
    after a create-recipe response with a [recipe_id].  The screen's own
    15-second timeout gives 'Connection Issue' too. *)
Theorem recipe_failure_titles (rp : route_params) (st : state)
    (fetched : outcome (Api.result recipe_details)) :
  (forall recipeId index recipeResponse,
     Api.success recipeResponse = false ->
     alert_titles
       (snd (load_recipe type_error recipeId index st (Returned recipeResponse)))
     = ["Connection Issue"])
  /\ alert_titles
       (snd (generateRecipe type_error rp st (Thrown TIMEOUT_MESSAGE) fetched))
     = ["Connection Issue"]
  /\ (forall createResponse d rid recipeResponse,
        Api.success createResponse = true ->
        Api.data createResponse = Some d ->
        recipe_ids d = None -> recipe_id d = TStr rid -> rid <> "" ->
        Api.success recipeResponse = false ->
        alert_titles
          (snd (generateRecipe type_error rp st (Returned createResponse)
                  (Returned recipeResponse)))
        = ["Connection Issue"]).
Proof.
  split; [|split].
  - intros recipeId index recipeResponse Hs. unfold load_recipe. rewrite Hs.
    reflexivity.
  - reflexivity.
  - intros createResponse d rid recipeResponse Hs Hd Hids Hid Hne Hf.
    unfold generateRecipe, generateRecipe_resume. cbv zeta.
    rewrite Hs, Hd, Hids, Hid. apply String.eqb_neq in Hne. rewrite Hne.
    cbn [negb snd]. unfold load_recipe. rewrite Hf. reflexivity.
Qed.

End RecipeScreenFacts.

(** ** From the confirm screen to the recipe screen *)

Section ConfirmToRecipe.
Import JS Properties.

Variable parseFloat : string -> float.
Variable type_error : string.

Lemma chip_id_not_empty (s : string) (chips : list string) :
  In s (map toLowerCase chips) -> Forall (fun c => c <> "") chips -> s <> "".
Proof.
  intros Hin Hall. apply in_map_iff in Hin. destruct Hin as [c [<- Hc]].
  rewrite Forall_forall in Hall. specialize (Hall c Hc).
  destruct c as [|c1 [|c2 [|c3 s3]]]; [congruence | discriminate | |]; cbn.
  - destruct (is_dotted_I c1 c2); discriminate.
  - destruct (is_dotted_I c1 c2); [discriminate|].
    destruct (is_kelvin c1 c2 c3); discriminate.
Qed.

Lemma str_or_not_empty (a b : string) : a <> "" -> RecipeScreen.str_or a b = a.
Proof.
  intros H. unfold RecipeScreen.str_or. apply String.eqb_neq in H. now rewrite H.
Qed.

(** X15.  The choices made on the confirm screen are the ones the recipe
    is asked for.  From any state the confirm screen can reach with an item
    confirmed, [handleConfirm] navigates to the recipe screen; mounted with
    these parameters, that screen hides its preferences panel and at once
    makes the create-recipe call with the scan id, the servings, the cooking
    level, the diets, the meal type and the recipe type of the confirm
    screen, the cuisine being 'healthy' when fruit was detected and the
    recipe type otherwise. *)
Theorem confirm_choices_reach_create_recipe
    (now : IngredientDetection.Date) (rp : ConfirmScreen.route_params)
    (st : ConfirmScreen.state) (awaited : outcome (Api.result unit))
    (created : outcome (Api.result RecipeScreen.create_data))
    (fetched : outcome (Api.result RecipeScreen.recipe_details)) :
  ConfirmScreen.reachable parseFloat rp st ->
  filter confirmed (ConfirmScreen.items st) <> [] ->
  exists request params rest,
    snd (ConfirmScreen.handleConfirm rp st awaited)
    = [request; ConfirmScreen.Navigate "Recipe" params]
    /\ RecipeScreen.showPreferences (RecipeScreen.initial (RecipeScreen.route_of params))
       = false
    /\ snd (RecipeScreen.mount type_error now (RecipeScreen.route_of params)
              created fetched)
       = race_timer
         :: RecipeScreen.Call
              (Api.CreateRecipe (ConfirmScreen.scanId rp) (ConfirmScreen.servings st)
                 (if ConfirmScreen.isFruitDetected st then "healthy"
                  else ConfirmScreen.selectedRecipeType st)
                 (ConfirmScreen.selectedCookingLevel st)
                 (ConfirmScreen.selectedDiets st)
                 (ConfirmScreen.selectedMealType st)
                 (ConfirmScreen.selectedRecipeType st)
                 false)
         :: rest.
Proof.
  intros Hreach Hne.
  destruct (reachable_selections parseFloat rp st Hreach) as (Hm & Hl & Ht).
  assert (Hmeal : ConfirmScreen.selectedMealType st <> "").
  { simpl in Hm. intros E. rewrite E in Hm.
    destruct Hm as [H|[H|[H|[H|[]]]]]; discriminate. }
  assert (Hlevel : ConfirmScreen.selectedCookingLevel st <> "").
  { simpl in Hl. intros E. rewrite E in Hl.
    destruct Hl as [H|[H|[H|[]]]]; discriminate. }
  assert (Htype : ConfirmScreen.selectedRecipeType st <> ""
                  /\ toLowerCase (ConfirmScreen.selectedRecipeType st)
                     = ConfirmScreen.selectedRecipeType st).
  { destruct (ConfirmScreen.isFruitDetected st); simpl in Ht.
    - destruct Ht as [<-|[<-|[]]]; split; (discriminate || reflexivity).
    - destruct Ht as [<-|[<-|[<-|[<-|[<-|[<-|[<-|[<-|[<-|[]]]]]]]]]];
        split; (discriminate || reflexivity). }
  destruct Htype as [Htype Hlower].
  pose proof (handleConfirm_confirmed rp st awaited Hne) as Heff.
  rewrite Heff. cbn [snd].
  eexists. eexists. eexists. split; [reflexivity|].
  assert (Hshow :
    RecipeScreen.showPreferences
      (RecipeScreen.initial
         (RecipeScreen.route_of
            {| ConfirmScreen.r_scanId := ConfirmScreen.scanId rp;
               ConfirmScreen.r_confirmedItems :=
                 filter confirmed (ConfirmScreen.items st);
               ConfirmScreen.r_servings := ConfirmScreen.servings st;
               ConfirmScreen.r_preferences := ConfirmScreen.navigationPreferences st |}))
    = false).
  { cbn [RecipeScreen.showPreferences RecipeScreen.initial RecipeScreen.route_of
           RecipeScreen.preferences ConfirmScreen.r_preferences RecipeScreen.pref_or
           ConfirmScreen.navigationPreferences ConfirmScreen.p_mealType].
    rewrite (str_or_not_empty _ _ Hmeal).
    apply String.eqb_neq in Hmeal. now rewrite Hmeal. }
  split; [exact Hshow|].
  unfold RecipeScreen.mount, race_timer. cbv zeta. rewrite Hshow. cbn [negb snd].
  apply f_equal. f_equal.
  cbn [RecipeScreen.initial RecipeScreen.route_of RecipeScreen.preferences
         RecipeScreen.scanId RecipeScreen.servings RecipeScreen.isFruitDetected
         RecipeScreen.selectedCuisine RecipeScreen.selectedSkillLevel
         RecipeScreen.dietaryRestrictions RecipeScreen.selectedMealType
         RecipeScreen.selectedRecipeCategory RecipeScreen.pref_or
         RecipeScreen.first_cuisine
         ConfirmScreen.r_scanId ConfirmScreen.r_servings ConfirmScreen.r_preferences
         ConfirmScreen.navigationPreferences ConfirmScreen.p_mealType
         ConfirmScreen.p_recipeType ConfirmScreen.p_cookingLevel
         ConfirmScreen.p_diets ConfirmScreen.p_cuisines
         ConfirmScreen.p_isFruitDetected].
  rewrite (str_or_not_empty _ "intermediate" Hlevel),
          (str_or_not_empty _ "lunch" Hmeal),
          (str_or_not_empty _ "smoothie" Htype).
  unfold ConfirmScreen.cuisines_of.
  destruct (ConfirmScreen.isFruitDetected st); [reflexivity|].
  rewrite Hlower, (str_or_not_empty _ _ Htype). reflexivity.
Qed.

(** X16.  An ingredient added by hand keeps the amount the user typed in
    the confirm-scan request, but not in the template recipe: the new item
    has [grams] and no [grams_est], the request sends [grams], and the
    template recipe reads [grams_est || 100], so it lists the ingredient
    with 100 grams whatever was typed. *)
Theorem manual_ingredient_listed_with_100_grams
    (now : Z) (st : ConfirmScreen.state) (rp : RecipeScreen.route_params)
    (rst : RecipeScreen.state) :
  trim (ConfirmScreen.newIngredientName st) <> "" ->
  let st' := ConfirmScreen.addNewIngredient parseFloat now st in
  RecipeScreen.confirmedItems rp = Some (filter confirmed (ConfirmScreen.items st')) ->
  exists it sent shown,
    filter confirmed (ConfirmScreen.items st')
    = filter confirmed (ConfirmScreen.items st) ++ [it]
    /\ map ConfirmScreen.confirmation_item (filter confirmed (ConfirmScreen.items st'))
       = sent
         ++ [ {| Api.ci_fdc_id := TStr ("manual_" ++ Api.decimal now);
                 Api.ci_label := TStr (trim (ConfirmScreen.newIngredientName st));
                 Api.ci_grams :=
                   VNum (ConfirmScreen.num_or
                           (parseFloat (ConfirmScreen.newIngredientGrams st)) 100);
                 Api.ci_confirmed := true;
                 Api.ci_manually_added := true |} ]
    /\ RecipeScreen.ingredients (RecipeScreen.mockRecipe rp rst)
       = shown
         ++ [ {| RecipeScreen.ri_name :=
                   TStr (trim (ConfirmScreen.newIngredientName st));
                 RecipeScreen.ri_grams := VNum 100;
                 RecipeScreen.ri_notes := RecipeScreen.Note "prepared as needed";
                 RecipeScreen.ri_fdc_id := Some ("manual_" ++ Api.decimal now)%string |} ].
Proof.
  intros Hne. cbv zeta. unfold ConfirmScreen.addNewIngredient.
  apply String.eqb_neq in Hne. rewrite Hne. cbn [negb].
  cbn [ConfirmScreen.items ConfirmScreen.setNewIngredientGrams
         ConfirmScreen.setNewIngredientName ConfirmScreen.setItems].
  rewrite filter_app. cbn [filter confirmed app].
  intros Hrp. eexists. eexists. eexists. split; [reflexivity|]. split.
  - rewrite map_app. cbn [map]. f_equal.
    unfold ConfirmScreen.confirmation_item, JS.or.
    cbn [fdc_id label grams grams_est manually_added].
    now rewrite num_or_hundred_truthy.
  - cbn [RecipeScreen.ingredients RecipeScreen.mockRecipe]. rewrite Hrp.
    unfold RecipeScreen.mock_ingredients. rewrite map_app. cbn [map]. reflexivity.
Qed.

End ConfirmToRecipe.

Section RecipePreferences.
Import JS IngredientDetection RecipeScreen Properties.

(** X17.  [initializePreferences] leaves the state alone when preferences
    were passed.  Without them it records the fruit detection on the
    confirmed items (none when they are missing), takes the meal type from
    the hour, and sets the category to 'smoothie' for fruit and to 'italian'
    otherwise, in which case the cuisine becomes 'italian' too; the meal
    type and category it chooses always pass [validateMealCombination]. *)
Theorem initializePreferences_defaults (now : Date) (rp : route_params) (st : state) :
  (preferences rp <> None -> initializePreferences now rp st = st)
  /\ (preferences rp = None ->
      let ingredients := items_or_empty (confirmedItems rp) in
      let fruit := detectFruits ingredients in
      let st' := initializePreferences now rp st in
      isFruitDetected st' = fruit
      /\ selectedMealType st' = suggestMealType now ingredients None
      /\ selectedRecipeCategory st' = (if fruit then "smoothie" else "italian")
      /\ selectedCuisine st' = (if fruit then selectedCuisine st else "italian")
      /\ isValid (validateMealCombination (selectedMealType st')
                    (selectedRecipeCategory st') ingredients) = true).
Proof.
  unfold initializePreferences. split.
  - destruct (preferences rp); [reflexivity | congruence].
  - intros ->. cbv zeta.
    set (ingredients := items_or_empty (confirmedItems rp)).
    unfold getRecipeCategories, validateMealCombination. cbv zeta.
    destruct (detectFruits ingredients) eqn:E; cbn [negb]; repeat split.
    cbn [selectedMealType selectedRecipeCategory setSelectedCuisine
           setSelectedRecipeCategory setSelectedMealType defaultCategory andb negb].
    change (array_includes ["italian"; "thai"; "mexican"; "indian"; "mediterranean"]
              "italian") with true. cbv iota.
    destruct (suggestMealType now ingredients None =? "snack"); reflexivity.
Qed.

(** X18.  When [generateMultipleMockRecipes] returns, each of its recipes is
    for the servings asked and lists every ingredient of the input, in
    order, under its label with the amount [grams_est || 100] (also the
    ingredients labelled 'food' or 'produce', which only the choice of the
    variants ignores); the preferences argument is not used. *)
Theorem mock_recipes_list_every_ingredient (type_error : string)
    (l : list item) (servings : Z)
    (preferences preferences' : option ConfirmScreen.preferences) :
  generateMultipleMockRecipes type_error l servings preferences
  = generateMultipleMockRecipes type_error l servings preferences'
  /\ forall recipes,
       generateMultipleMockRecipes type_error l servings preferences = Returned recipes ->
       Forall (fun r =>
                 recipe_servings r = servings
                 /\ map ri_name (ingredients r) = map label l
                 /\ map ri_grams (ingredients r)
                    = map (fun it => JS.or (grams_est it) (VNum 100)) l)
         recipes.
Proof.
  split; [reflexivity|].
  assert (Hn : map ri_name (map recipe_ingredient_of l) = map label l)
    by (rewrite map_map; reflexivity).
  assert (Hg : map ri_grams (map recipe_ingredient_of l)
               = map (fun it => JS.or (grams_est it) (VNum 100)) l)
    by (rewrite map_map; reflexivity).
  intros recipes. unfold generateMultipleMockRecipes. cbv zeta.
  destruct (lowered_labels type_error _) as [names|m]; [|discriminate].
  destruct (array_includes names "paneer" && array_includes names "spinach");
    intros H; injection H as <-;
    repeat (apply Forall_cons; [split; [reflexivity | split; [exact Hn | exact Hg]]|]);
    apply Forall_nil.
Qed.

End RecipePreferences.

(** ** Choosing and uploading a picture *)

Section CameraFacts.
Import JS Properties.

Variable type_error : string.

(** The ways [pickImage] can go. *)
Ltac pick_cases asked launched :=
  unfold CameraService.pickImage, CameraService.requestMediaLibraryPermissions;
  destruct asked as [status|m];
    [destruct (String.eqb_spec status "granted") as [->|Hs];
       [destruct launched as [picked|m];
          [destruct (CameraService.canceled picked) eqn:Hc;
             [|destruct (CameraService.assets picked) as [|asset rest] eqn:Ha]|]|]|];
  cbn [fst snd Api.success Api.data Api.error negb].

(** X19.  [pickImage] opens the image library only after the permission
    was granted.  It succeeds exactly when the permission was granted, the
    picker returned without the user cancelling and with an asset; the image
    is then the first asset.  In every other case the result carries an
    error message and no image: 'Media library permission denied' whenever
    the permission request did not come back as 'granted' (also when it
    threw); [handlePickImage] then shows that message in an 'Error' alert
    and makes no API call. *)
Theorem pickImage_needs_permission (asked : outcome string)
    (launched : outcome CameraService.picker_result) :
  let result := fst (CameraService.pickImage type_error asked launched) in
  let effects := snd (CameraService.pickImage type_error asked launched) in
  (In CameraService.LaunchImageLibrary effects <-> asked = Returned "granted")
  /\ (asked <> Returned "granted" ->
      result = Api.mkResult false None (TStr "Media library permission denied"))
  /\ (Api.success result = true
      <-> asked = Returned "granted"
          /\ exists picked asset rest,
               launched = Returned picked
               /\ CameraService.canceled picked = false
               /\ CameraService.assets picked = asset :: rest
               /\ Api.data result = Some asset)
  /\ (Api.success result = false ->
      Api.data result = None /\ exists message, Api.error result = TStr message)
  /\ (asked <> Returned "granted" ->
      forall st presigned uploaded started,
        CameraScreen.handlePickImage st (Returned result) presigned uploaded started
        = (CameraScreen.setLoading false (CameraScreen.setLoading true st),
           [ CameraScreen.PickImage;
             CameraScreen.Alert "Error" (TStr "Media library permission denied") ])).
Proof.
  cbv zeta. split; [|split; [|split; [|split]]].
  5: { intros Hne st presigned uploaded started.
       assert (E : fst (CameraService.pickImage type_error asked launched)
                   = Api.mkResult false None (TStr "Media library permission denied"))
         by (pick_cases asked launched; congruence).
       rewrite E. reflexivity. }
  - pick_cases asked launched;
      (split; intros H;
       [simpl in H; intuition (try discriminate; try congruence)
       | try congruence; simpl; auto]).
  - pick_cases asked launched; intros H; congruence.
  - pick_cases asked launched;
      (split;
       [intros H; try discriminate
       | intros [H (p & a & r & Hl & Hc' & Ha' & Hd)]; congruence]).
    split; [reflexivity|]. exists picked, asset, rest. repeat split; auto.
    destruct asset; reflexivity.
  - pick_cases asked launched; intros H; try discriminate;
      (split; [reflexivity | eexists; reflexivity]).
Qed.


End CameraFacts.

(** ** Signing in *)

Section SignInFacts.
Import JS SignInScreen Properties.

(** X21.  [handleSignIn] makes no sign-in attempt while the email or the
    password is empty: it shows one alert and changes nothing.  With both
    filled in it makes exactly one attempt and replaces the screen by the
    camera screen exactly when the identity library accepted the
    credentials; when the library throws, [authService.signIn] turns the
    exception into a failed result and the screen shows its message under
    'Sign In Failed' and stays. *)
Theorem handleSignIn_navigates_on_success {U : Type} (st : state) (called : outcome U) :
  let awaited := Returned (Auth.signIn called) in
  let effects := snd (handleSignIn st awaited) in
  (In (Replace "Camera") effects
   <-> email st <> "" /\ password st <> "" /\ exists user, called = Returned user)
  /\ (email st = "" \/ password st = "" ->
      handleSignIn st awaited
      = (st, [Alert "Error" (TStr "Please enter email and password")]))
  /\ (email st <> "" -> password st <> "" ->
      (forall user, called = Returned user ->
         handleSignIn st awaited
         = (setLoading false st, [SignIn (email st) (password st); Replace "Camera"]))
      /\ (forall message, called = Thrown message ->
            handleSignIn st awaited
            = (setLoading false st,
               [SignIn (email st) (password st);
                Alert "Sign In Failed" (TStr message)]))).
Proof.
  cbv zeta. unfold handleSignIn, Auth.signIn.
  destruct (String.eqb_spec (email st) "") as [He|He];
    [|destruct (String.eqb_spec (password st) "") as [Hp|Hp]];
    cbn [orb]; (split; [|split]).
  - split; [intros [H|[]]; discriminate | intros [H _]; contradiction].
  - reflexivity.
  - intros H. contradiction.
  - split; [intros [H|[]]; discriminate | intros [_ [H _]]; contradiction].
  - reflexivity.
  - intros _ H. contradiction.
  - destruct called as [user|message]; cbn [Api.success snd].
    + split; [intros _; repeat split; auto; now exists user | simpl; auto].
    + split; [intros [H|[H|[]]]; discriminate | intros (_ & _ & user & H); discriminate].
  - intros [H|H]; contradiction.
  - intros _ _. split.
    + intros user ->. reflexivity.
    + intros message ->. reflexivity.
Qed.

End SignInFacts.

(** ** Logging *)

Section LoggerFacts.
Import JS Logger.


End LoggerFacts.

(** ** Keys of the tables *)

Section DatabaseKeys.
Import Database Properties.

Lemma same_key_sym (a b : option string) : same_key a b = same_key b a.
Proof. destruct a, b; simpl; try reflexivity. apply String.eqb_sym. Qed.

Lemma existsb_same_key_map {A : Type} (key : A -> option string) (k : option string)
    (rows : list A) :
  existsb (same_key k) (map key rows) = existsb (fun r => same_key k (key r)) rows.
Proof. induction rows as [|r rows IH]; simpl; [|rewrite IH]; reflexivity. Qed.

Lemma unique_keys_snoc (keys : list (option string)) (k : option string) :
  unique_keys keys = true -> existsb (same_key k) keys = false ->
  unique_keys (keys ++ [k]) = true.
Proof.
  induction keys as [|a keys IH]; simpl; intros Hu Hk; [reflexivity|].
  apply andb_prop in Hu. destruct Hu as [Ha Hu].
  apply orb_false_iff in Hk. destruct Hk as [Hka Hk].
  rewrite existsb_app. simpl. rewrite orb_false_r.
  rewrite (same_key_sym a k), Hka, orb_false_r, Ha. simpl. now apply IH.
Qed.

Lemma existsb_filter_false {A : Type} (f g : A -> bool) (l : list A) :
  existsb f l = false -> existsb f (filter g l) = false.
Proof.
  induction l as [|a l IH]; simpl; intros H; [reflexivity|].
  apply orb_false_iff in H. destruct H as [Ha Hl].
  destruct (g a); simpl; [rewrite Ha|]; now apply IH.
Qed.

Lemma unique_keys_filter {A : Type} (key : A -> option string) (g : A -> bool)
    (rows : list A) :
  unique_keys (map key rows) = true -> unique_keys (map key (filter g rows)) = true.
Proof.
  induction rows as [|r rows IH]; simpl; intros H; [reflexivity|].
  apply andb_prop in H. destruct H as [Hr Hrows].
  destruct (g r); simpl; [|now apply IH].
  rewrite (IH Hrows), andb_true_r.
  apply negb_true_iff in Hr. apply negb_true_iff.
  rewrite existsb_same_key_map in *. now apply existsb_filter_false.
Qed.

Lemma step_keeps_unique (ctx : context) (db : database) (st : statement) :
  unique_keys (map scan_id (scans db)) = true
  /\ unique_keys (map si_id (scan_items db)) = true ->
  unique_keys (map scan_id (scans (step ctx db st))) = true
  /\ unique_keys (map si_id (scan_items (step ctx db st))) = true.
Proof.
  intros [Hs Hi]. unfold step, execute.
  destruct st as [c1 c2 c3 c4 c5 | c1 c2 c3 c4 c5 c6 c7 c8 c9
                 | cond assign | cond assign | cond | cond].
  - match goal with |- context [if ?b then _ else _] => destruct b eqn:E end;
      [|now split].
    apply andb_prop in E. destruct E as [_ E]. apply negb_true_iff in E.
    cbn [scans scan_items]. split; [|exact Hi].
    rewrite map_app. apply unique_keys_snoc; [exact Hs|].
    now rewrite existsb_same_key_map.
  - match goal with |- context [if ?b then _ else _] => destruct b eqn:E end;
      [|now split].
    apply andb_prop in E. destruct E as [E _].
    apply andb_prop in E. destruct E as [_ E]. apply negb_true_iff in E.
    cbn [scans scan_items]. split; [exact Hs|].
    rewrite map_app. apply unique_keys_snoc; [exact Hi|].
    now rewrite existsb_same_key_map.
  - match goal with |- context [if ?b then _ else _] => destruct b eqn:E end;
      [|now split].
    apply andb_prop in E. destruct E as [E _].
    apply andb_prop in E. destruct E as [_ E].
    cbn [scans scan_items] in *. now split.
  - match goal with |- context [if ?b then _ else _] => destruct b eqn:E end;
      [|now split].
    apply andb_prop in E. destruct E as [E _].
    apply andb_prop in E. destruct E as [_ E].
    cbn [scans scan_items] in *. now split.
  - cbn [scans scan_items]. split; now apply unique_keys_filter.
  - cbn [scans scan_items]. split; [exact Hs | now apply unique_keys_filter].
Qed.

Lemma unique_keys_NoDup (keys : list (option string)) :
  unique_keys keys = true -> Forall (fun k => k <> None) keys -> NoDup keys.
Proof.
  induction keys as [|k keys IH]; simpl; intros Hu Hall; [constructor|].
  apply andb_prop in Hu. destruct Hu as [Hk Hu].
  inversion Hall as [|? ? Hsome Hrest]; subst.
  constructor; [|now apply IH].
  intros Hin. apply negb_true_iff in Hk.
  assert (existsb (same_key k) keys = true); [|congruence].
  apply existsb_exists. exists k. split; [exact Hin|].
  destruct k as [s|]; [simpl; apply String.eqb_refl | congruence].
Qed.

Lemma scan_ok_id (r : scan) : scan_ok r = true -> scan_id r <> None.
Proof.
  unfold scan_ok. intros H.
  repeat (apply andb_prop in H; destruct H as [H ?]).
  destruct (scan_id r); [discriminate | discriminate].
Qed.

Lemma scan_item_ok_id (r : scan_item) : scan_item_ok r = true -> si_id r <> None.
Proof.
  unfold scan_item_ok. intros H.
  repeat (apply andb_prop in H; destruct H as [H ?]).
  destruct (si_id r); [discriminate | discriminate].
Qed.

(** X23.  Primary keys.  In every database built by statements from the
    empty tables, no two rows of [scans] and no two rows of [scan_items]
    share an id, and no id is NULL: an insert with an id in use and an
    update that would make two ids equal are rejected. *)
Theorem primary_keys_are_unique (db : database) :
  reachable db ->
  NoDup (map scan_id (scans db))
  /\ NoDup (map si_id (scan_items db))
  /\ (forall r, In r (scans db) -> scan_id r <> None)
  /\ (forall r, In r (scan_items db) -> si_id r <> None).
Proof.
  intros Hdb.
  assert (Hu : unique_keys (map scan_id (scans db)) = true
               /\ unique_keys (map si_id (scan_items db)) = true).
  { induction Hdb as [|db ctx st _ IH]; [split; reflexivity|].
    now apply step_keeps_unique. }
  pose proof (reachable_scans (fun r => scan_id r <> None) db scan_ok_id Hdb) as Hs.
  pose proof (reachable_scan_items (fun r => si_id r <> None) db scan_item_ok_id Hdb)
    as Hi.
  destruct Hu as [Hus Hui]. split; [|split; [|split]].
  - apply unique_keys_NoDup; [exact Hus|]. now apply Forall_map.
  - apply unique_keys_NoDup; [exact Hui|]. now apply Forall_map.
  - now apply Forall_forall.
  - now apply Forall_forall.
Qed.

Lemma references_more_scans (items : list scan_item) (l l' : list scan) :
  forallb (fun r => existsb (fun s => same_key (si_scan_id r) (scan_id s)) l) items
  = true ->
  forallb (fun r => existsb (fun s => same_key (si_scan_id r) (scan_id s)) (l ++ l'))
    items = true.
Proof.
  rewrite !forallb_forall. intros H r Hr. rewrite existsb_app, (H r Hr). reflexivity.
Qed.

Lemma forallb_filter_self {A : Type} (f : A -> bool) (l : list A) :
  forallb f (filter f l) = true.
Proof.
  induction l as [|a l IH]; simpl; [reflexivity|].
  destruct (f a) eqn:E; simpl; [rewrite E|]; exact IH.
Qed.

Lemma forallb_filter {A : Type} (f g : A -> bool) (l : list A) :
  forallb f l = true -> forallb f (filter g l) = true.
Proof.
  rewrite !forallb_forall. intros H a Ha. apply filter_In in Ha. now apply H.
Qed.

Lemma step_keeps_references (ctx : context) (db : database) (st : statement) :
  references_ok db = true -> references_ok (step ctx db st) = true.
Proof.
  intros H. unfold step, execute.
  destruct st as [c1 c2 c3 c4 c5 | c1 c2 c3 c4 c5 c6 c7 c8 c9
                 | cond assign | cond assign | cond | cond].
  - match goal with |- context [if ?b then _ else _] => destruct b end; [|exact H].
    unfold references_ok in *. cbn [scans scan_items].
    now apply references_more_scans.
  - match goal with |- context [if ?b then _ else _] => destruct b eqn:E end;
      [|exact H].
    apply andb_prop in E. destruct E as [_ E].
    unfold references_ok in *. cbn [scans scan_items].
    rewrite forallb_app, H. cbn [forallb]. now rewrite E.
  - match goal with |- context [if ?b then _ else _] => destruct b eqn:E end;
      [|exact H].
    apply andb_prop in E. now destruct E as [_ E].
  - match goal with |- context [if ?b then _ else _] => destruct b eqn:E end;
      [|exact H].
    apply andb_prop in E. now destruct E as [_ E].
  - unfold references_ok. cbn [scans scan_items]. apply forallb_filter_self.
  - unfold references_ok in *. cbn [scans scan_items]. now apply forallb_filter.
Qed.

(** X24.  Referential integrity.  In every database built by statements
    from the empty tables, each row of [scan_items] refers to a row of
    [scans] through a non-NULL [scan_id]: an item cannot be inserted for a
    scan that does not exist, and deleting scans deletes their items with
    them (ON DELETE CASCADE), so that right after a delete no item is left
    that belongs to a deleted scan. *)
Theorem scan_items_refer_to_scans :
  (forall db, reachable db ->
     forall r, In r (scan_items db) -> refers_to_scan db r)
  /\ (forall ctx db cond r,
        In r (scan_items (step ctx db (DeleteScans cond))) ->
        In r (scan_items db)
        /\ exists s, In s (scans db) /\ cond s = false
                     /\ same_key (si_scan_id r) (scan_id s) = true).
Proof.
  split.
  - intros db Hdb.
    assert (Hok : references_ok db = true).
    { induction Hdb as [|db ctx st _ IH]; [reflexivity|].
      now apply step_keeps_references. }
    intros r Hr. unfold references_ok in Hok. rewrite forallb_forall in Hok.
    specialize (Hok r Hr). apply existsb_exists in Hok.
    destruct Hok as [s [Hs Hkey]]. unfold same_key in Hkey.
    destruct (si_scan_id r) as [a|] eqn:Ea; [|discriminate].
    destruct (scan_id s) as [b|] eqn:Eb; [|discriminate].
    apply String.eqb_eq in Hkey. subst b. now exists s, a.
  - intros ctx db cond r Hr. unfold step, execute in Hr. cbn [scan_items] in Hr.
    apply filter_In in Hr. destruct Hr as [Hin Hex]. split; [exact Hin|].
    apply existsb_exists in Hex. destruct Hex as [s [Hs Hkey]].
    apply filter_In in Hs. destruct Hs as [Hs Hc]. apply negb_true_iff in Hc.
    now exists s.
Qed.

End DatabaseKeys.

(** ** The API client *)

Section ApiFacts.
Import JS Api Properties.

(** X25.  The contract of [apiCall].  The Authorization header of a request
    is 'Bearer ' followed by the id token of the session, and the empty
    string when the session has no id token or could not be fetched (the
    request is sent all the same).  The call resolves to [success] exactly
    for a response with a status from 200 to 299 whose body parses, and then
    carries the parsed body and no error; in every other case it carries no
    data and a message: the status and body of the response, the parser's
    message, 'Request timed out after 30 seconds', or the message of the
    rejection. *)
Theorem apiCall_contract {D : Type} (session : outcome (option string)) (c : call)
    (f : fetched D) :
  (req_authorization (request_of (Auth.getUserToken session) c) = ""
   <-> (forall token, session = Returned (Some token) -> token = ""))
  /\ (forall token, session = Returned (Some token) -> token <> "" ->
        req_authorization (request_of (Auth.getUserToken session) c)
        = ("Bearer " ++ token)%string)
  /\ (success (apiCall f) = true
      <-> exists status body d,
            f = Response status body (Returned d) /\ (200 <= status <= 299)%Z
            /\ data (apiCall f) = d)
  /\ (success (apiCall f) = true -> error (apiCall f) = TAbsent)
  /\ (success (apiCall f) = false ->
      data (apiCall f) = None
      /\ ((exists status body json,
             f = Response status body json /\ ~ (200 <= status <= 299)%Z
             /\ error (apiCall f)
                = TStr ("HTTP error! status: " ++ decimal status ++ ", body: " ++ body))
          \/ (exists status body message,
                f = Response status body (Thrown message)
                /\ error (apiCall f) = TStr message)
          \/ (f = Aborted
              /\ error (apiCall f) = TStr "Request timed out after 30 seconds")
          \/ (exists message, f = Rejected message /\ error (apiCall f) = TStr message))).
Proof.
  split; [|split; [|split; [|split]]].
  - unfold request_of, authorization_header, Auth.getUserToken.
    cbn [req_authorization].
    destruct session as [[token|]|m].
    + destruct (String.eqb_spec token "") as [->|Hne].
      * split; [intros _ t Ht; congruence | reflexivity].
      * split; [discriminate|]. intros H. exfalso. apply Hne. now apply H.
    + split; [intros _ t Ht; discriminate | reflexivity].
    + split; [intros _ t Ht; discriminate | reflexivity].
  - intros token -> Hne. unfold request_of, authorization_header, Auth.getUserToken.
    cbn [req_authorization]. apply String.eqb_neq in Hne. now rewrite Hne.
  - unfold apiCall. destruct f as [status body json| |m].
    + unfold ok. destruct (Z.leb_spec 200 status) as [Hlo|Hlo];
        destruct (Z.leb_spec status 299) as [Hhi|Hhi];
        cbn [andb].
      * destruct json as [d|m]; cbn [success data].
        -- split; [intros _; exists status, body, d; repeat split; assumption | reflexivity].
        -- split; [discriminate | intros (s & b & d & Heq & _); discriminate].
      * cbn [success]. split; [discriminate|].
        intros (s & b & d & Heq & Hr & _). injection Heq as <- _ _. lia.
      * cbn [success]. split; [discriminate|].
        intros (s & b & d & Heq & Hr & _). injection Heq as <- _ _. lia.
      * cbn [success]. split; [discriminate|].
        intros (s & b & d & Heq & Hr & _). injection Heq as <- _ _. lia.
    + cbn [success]. split; [discriminate | intros (s & b & d & Heq & _); discriminate].
    + cbn [success]. split; [discriminate | intros (s & b & d & Heq & _); discriminate].
  - unfold apiCall. destruct f as [status body json| |m]; try discriminate.
    destruct (ok status); [|discriminate]. destruct json; [reflexivity | discriminate].
  - unfold apiCall. destruct f as [status body json| |m].
    + unfold ok. destruct (Z.leb_spec 200 status) as [Hlo|Hlo];
        destruct (Z.leb_spec status 299) as [Hhi|Hhi];
        cbn [andb].
      * destruct json as [d|m]; [discriminate|]. intros _. split; [reflexivity|].
        right; left. now exists status, body, m.
      * intros _. split; [reflexivity|]. left. exists status, body, json.
        repeat split. lia.
      * intros _. split; [reflexivity|]. left. exists status, body, json.
        repeat split. lia.
      * intros _. split; [reflexivity|]. left. exists status, body, json.
        repeat split. lia.
    + intros _. split; [reflexivity|]. right; right; left. split; reflexivity.
    + intros _. split; [reflexivity|]. right; right; right. now exists m.
Qed.

End ApiFacts.

(** ** Loading and showing, continued *)

Section ShowingFacts.
Import JS Properties.

(** X26.  An invocation of [loadScanResults] either re-arms the polling
    timer and leaves the state as it was, or ends with the spinner off and
    the form on the screen; in the second case the list holds at least one
    item unless the get-scan call threw (the list is then empty). *)
Theorem loadScanResults_ends_loading (rp : ConfirmScreen.route_params)
    (st : ConfirmScreen.state)
    (awaited : outcome (Api.result ConfirmScreen.scan_data)) :
  let st' := fst (ConfirmScreen.loadScanResults rp st awaited) in
  let effects := snd (ConfirmScreen.loadScanResults rp st awaited) in
  (ConfirmScreen.rescheduled effects = true -> st' = st)
  /\ (ConfirmScreen.rescheduled effects = false ->
      ConfirmScreen.loading st' = false
      /\ ConfirmScreen.shows_form st' = true
      /\ (ConfirmScreen.items st' = []
          <-> ConfirmScreen.is_mock_scan (ConfirmScreen.scanId rp) = false
              /\ exists message, awaited = Thrown message)).
Proof.
  cbv zeta.
  destruct (loadScanResults_cases rp st awaited)
    as [Hm | m Hm Hthrown | d i l Hm Ha Hi | d Hm Ha Hw Hp | d Hm Ha Hw Hp
        | r i l Hm Hr Ha Hb | r Hm Hr Ha Hb];
    cbn [fst snd ConfirmScreen.rescheduled existsb orb];
    (split; [intros H; try discriminate; try reflexivity|]);
    intros H; try discriminate.
  - repeat split; try discriminate. intros [Hf _]. congruence.
  - repeat split; auto. now exists m.
  - unfold detection_recorded. cbv zeta.
    destruct (IngredientDetection.detectFruits
                (Some (ConfirmScreen.mapi ConfirmScreen.firstConfirmed (i :: l))));
      (repeat split; try discriminate;
       intros [_ [message E]]; subst awaited; discriminate).
  - repeat split; try discriminate.
    intros [_ [message E]]; subst awaited; discriminate.
  - repeat split; try discriminate.
    intros [_ [message E]]; subst awaited; discriminate.
  - repeat split; try discriminate.
    intros [_ [message E]]; subst awaited; discriminate.
Qed.

End ShowingFacts.

Section RecipeSuccess.
Import JS RecipeScreen Properties.

Variable type_error : string.

(** X27.  What [generateRecipe] shows when the create-recipe call succeeds
    with a list of recipes ([recipe_ids] present); the list is stored.  A
    single recipe that is AI-generated (or any single recipe in test mode)
    is put in the recipe cell without a get-recipe call, and the screen
    renders it (or the selection view with that one recipe, when the
    selection flag was set before).  With several recipes the selection flag
    is set and the screen renders the selection list.  With no recipe the
    flag is set as well, but the screen renders 'Failed to generate recipe'
    with its Try Again button (or the recipe that was shown before), and no
    alert is shown.  In these cases the timer and the create-recipe call are
    the only effects: no get-recipe call, no alert.  A single recipe that is
    not AI-generated is fetched by its id.  The renderings are those of a
    screen whose preferences panel is closed. *)
Theorem generateRecipe_shows_recipes (rp : route_params) (st : state)
    (createResponse : Api.result create_data) (d : create_data)
    (ids : list string) (l : list recipe)
    (fetched : outcome (Api.result recipe_details)) :
  Api.success createResponse = true ->
  Api.data createResponse = Some d ->
  recipe_ids d = Some ids ->
  recipes d = Some l ->
  let st' := fst (generateRecipe type_error rp st (Returned createResponse) fetched) in
  let effects :=
    snd (generateRecipe type_error rp st (Returned createResponse) fetched) in
  recipeOptions st' = Some l
  /\ (forall r, l = [r] ->
      (test_mode d = true \/ ai_generated r <> None) ->
      recipe_shown st' = Some r /\ showRecipeSelection st' = showRecipeSelection st
      /\ effects = [race_timer; create_call rp st]
      /\ (showPreferences st = false ->
          render type_error st'
          = Returned (if showRecipeSelection st then SelectionView [r]
                      else RecipeView r)))
  /\ (List.length l <> 1%nat ->
      showRecipeSelection st' = true /\ recipe_shown st' = recipe_shown st
      /\ effects = [race_timer; create_call rp st]
      /\ (showPreferences st = false ->
          render type_error st'
          = Returned match l, recipe_shown st with
                     | _ :: _, _ => SelectionView l
                     | [], Some r => RecipeView r
                     | [], None => FailedView TRY_AGAIN
                     end))
  /\ (forall r, l = [r] -> test_mode d = false -> ai_generated r = None ->
      exists rest,
        effects
        = race_timer :: create_call rp st
          :: Call (Api.GetRecipe (text_to_string (id r))) :: rest).
Proof.
  intros Hs Hd Hids Hl. cbv zeta.
  unfold generateRecipe, generateRecipe_resume, create_call, race_timer. cbv zeta.
  rewrite Hs, Hd, Hids, Hl. cbn [negb fst snd].
  split; [|split; [|split]].
  - destruct l as [|r [|r' others]]; try reflexivity.
    destruct (test_mode d || match ai_generated r with Some _ => true | None => false end);
      [reflexivity|].
    unfold load_recipe.
    destruct fetched as [recipeResponse|message]; [|reflexivity].
    destruct (Api.success recipeResponse); [|reflexivity].
    destruct (Api.data recipeResponse); reflexivity.
  - intros r -> Hai.
    assert (E : test_mode d
                || match ai_generated r with Some _ => true | None => false end = true).
    { destruct Hai as [-> | Hai]; [reflexivity|].
      destruct (ai_generated r); [apply orb_true_r | congruence]. }
    rewrite E. split; [reflexivity|]. split; [reflexivity|]. split; [reflexivity|].
    intros Hp. unfold render. cbn. rewrite Hp.
    destruct (showRecipeSelection st); reflexivity.
  - intros Hlen. destruct l as [|r [|r' others]]; [| simpl in Hlen; congruence |];
      (split; [reflexivity|]); (split; [reflexivity|]); (split; [reflexivity|]);
      intros Hp; unfold render; cbn; rewrite Hp; reflexivity.
  - intros r -> Ht Hai. rewrite Ht, Hai. cbn [orb].
    unfold load_recipe.
    destruct fetched as [recipeResponse|message].
    + destruct (Api.success recipeResponse).
      * destruct (Api.data recipeResponse); eexists; reflexivity.
      * eexists; reflexivity.
    + eexists; reflexivity.
Qed.

End RecipeSuccess.

(** ** The properties on concrete inputs *)

(** X10 on a fetched banana and mango: both are listed, the banana alone is
    confirmed and sent. *)
Lemma loadScanResults_confirms_first_witness :
  let it name := mkItem (JS.TStr name) JS.TAbsent (JS.VNum 0.75) (JS.VNum 120)
                   JS.VUndefined false None in
  let rp := ConfirmScreen.mkRoute "scan-42" "file:///photo.jpg" None in
  let d := ConfirmScreen.mkScanData (Some [it "banana"; it "mango"]) (JS.TStr "ready") in
  let awaited := JS.Returned (Api.mkResult true (Some d) JS.TAbsent) in
  let st' := fst (ConfirmScreen.loadScanResults rp ConfirmScreen.initial awaited) in
  map label (ConfirmScreen.items st') = [JS.TStr "banana"; JS.TStr "mango"]
  /\ filter confirmed (ConfirmScreen.items st')
     = [ConfirmScreen.firstConfirmed (it "banana") 0]
  /\ ConfirmScreen.loading st' = false
  /\ forall confirmation,
       exists params,
         snd (ConfirmScreen.handleConfirm rp st' confirmation)
         = [ ConfirmScreen.Call
               (Api.ConfirmScan "scan-42"
                  [ConfirmScreen.confirmation_item
                     (ConfirmScreen.firstConfirmed (it "banana") 0)]
                  {| Api.cp_diets := ConfirmScreen.selectedDiets st';
                     Api.cp_cuisines := ConfirmScreen.cuisines_of st';
                     Api.cp_allergens := ConfirmScreen.selectedAllergens st';
                     Api.cp_servings := ConfirmScreen.servings st' |});
             ConfirmScreen.Navigate "Recipe" params ].
Proof.
  intros it rp d awaited.
  apply (loadScanResults_confirms_first rp ConfirmScreen.initial awaited d
           (it "banana") [it "mango"]); reflexivity.
Defined.

(** X11 after a mock scan was loaded, the minus button was pressed three
    times and the Vegan chip twice. *)
Lemma confirm_request_servings_and_diets_witness :
  let rp := ConfirmScreen.mkRoute "mock_1" "file:///photo.jpg" None in
  let events :=
    [ ConfirmScreen.LoadScanResults (JS.Thrown "not called");
      ConfirmScreen.PressServingsMinus;
      ConfirmScreen.PressServingsMinus;
      ConfirmScreen.PressServingsMinus;
      ConfirmScreen.PressDiet "Vegan";
      ConfirmScreen.PressDiet "Keto";
      ConfirmScreen.PressDiet "Vegan" ] in
  let st :=
    fold_left (fun st e => fst (ConfirmScreen.dispatch JS.parseFloat rp st e))
      events ConfirmScreen.initial in
  ConfirmScreen.servings st = 1%Z
  /\ ConfirmScreen.selectedDiets st = ["Keto"]
  /\ (1 <= ConfirmScreen.servings st)%Z
  /\ NoDup (ConfirmScreen.selectedDiets st).
Proof.
  intros rp events st.
  split; [reflexivity|]. split; [reflexivity|].
  assert (H := confirm_request_servings_and_diets JS.parseFloat rp st).
  split; [apply H | apply H];
    repeat apply ConfirmScreen.reachable_step; apply ConfirmScreen.reachable_initial.
Defined.

(** X12 after a fetched strawberry made the screen offer the fruit options
    and the Dessert chip was pressed. *)
Lemma confirm_selections_are_chip_ids_witness :
  let it name := mkItem (JS.TStr name) JS.TAbsent (JS.VNum 0.75) (JS.VNum 120)
                   JS.VUndefined false None in
  let rp := ConfirmScreen.mkRoute "scan-42" "file:///photo.jpg" None in
  let d := ConfirmScreen.mkScanData (Some [it "strawberry"]) (JS.TStr "ready") in
  let st1 :=
    fst (ConfirmScreen.dispatch JS.parseFloat rp ConfirmScreen.initial
           (ConfirmScreen.LoadScanResults
              (JS.Returned (Api.mkResult true (Some d) JS.TAbsent)))) in
  let st2 :=
    fst (ConfirmScreen.dispatch JS.parseFloat rp st1
           (ConfirmScreen.PressRecipeType "Dessert")) in
  ConfirmScreen.selectedRecipeType st2 = "dessert"
  /\ In (ConfirmScreen.selectedRecipeType st2)
       (map JS.toLowerCase (ConfirmScreen.recipeTypeOptions st2)).
Proof.
  intros it rp d st1 st2. split; [reflexivity|].
  apply (confirm_selections_are_chip_ids JS.parseFloat rp st2).
  - apply ConfirmScreen.reachable_step. apply ConfirmScreen.reachable_step.
    apply ConfirmScreen.reachable_initial.
  - reflexivity.
Defined.

(** X15 after a mock scan was loaded and the Indian and Advanced chips were
    pressed: the recipe screen asks for an Indian recipe at the advanced
    level. *)
Lemma confirm_choices_reach_create_recipe_witness :
  let rp := ConfirmScreen.mkRoute "mock_1" "file:///photo.jpg" None in
  let st1 :=
    fst (ConfirmScreen.dispatch JS.parseFloat rp ConfirmScreen.initial
           (ConfirmScreen.LoadScanResults (JS.Thrown "not called"))) in
  let st2 :=
    fst (ConfirmScreen.dispatch JS.parseFloat rp st1
           (ConfirmScreen.PressRecipeType "Indian")) in
  let st3 :=
    fst (ConfirmScreen.dispatch JS.parseFloat rp st2
           (ConfirmScreen.PressCookingLevel "Advanced")) in
  let confirmation := JS.Thrown "offline" in
  let created := JS.Thrown "Network request failed" in
  let fetched := JS.Thrown "not called" in
  exists request params rest,
    snd (ConfirmScreen.handleConfirm rp st3 confirmation)
    = [request; ConfirmScreen.Navigate "Recipe" params]
    /\ RecipeScreen.showPreferences (RecipeScreen.initial (RecipeScreen.route_of params))
       = false
    /\ snd (RecipeScreen.mount "TypeError" (IngredientDetection.mkDate 12)
              (RecipeScreen.route_of params) created fetched)
       = Properties.race_timer
         :: RecipeScreen.Call
              (Api.CreateRecipe "mock_1" 2 "indian" "advanced" [] "lunch" "indian" false)
         :: rest.
Proof.
  intros rp st1 st2 st3 confirmation created fetched.
  apply (confirm_choices_reach_create_recipe JS.parseFloat "TypeError"
           (IngredientDetection.mkDate 12) rp st3 confirmation created fetched).
  - apply ConfirmScreen.reachable_step. apply ConfirmScreen.reachable_step.
    apply ConfirmScreen.reachable_step. apply ConfirmScreen.reachable_initial.
  - discriminate.
Defined.

(** X16 on a tomato typed in with 250 grams. *)
Lemma manual_ingredient_listed_with_100_grams_witness :
  let st :=
    ConfirmScreen.setNewIngredientGrams "250"
      (ConfirmScreen.setNewIngredientName " Tomato "
         (ConfirmScreen.setLoading false ConfirmScreen.initial)) in
  let st' := ConfirmScreen.addNewIngredient JS.parseFloat 1700000000000 st in
  let rp :=
    RecipeScreen.mkRoute "scan-42" (Some (filter confirmed (ConfirmScreen.items st'))) 2
      None in
  map Api.ci_grams
    (map ConfirmScreen.confirmation_item (filter confirmed (ConfirmScreen.items st')))
  = [JS.VNum 250]
  /\ map RecipeScreen.ri_grams
       (RecipeScreen.ingredients (RecipeScreen.mockRecipe rp (RecipeScreen.initial rp)))
     = [JS.VNum 100]
  /\ exists it sent shown,
       filter confirmed (ConfirmScreen.items st')
       = filter confirmed (ConfirmScreen.items st) ++ [it]
       /\ map ConfirmScreen.confirmation_item (filter confirmed (ConfirmScreen.items st'))
          = sent
            ++ [ {| Api.ci_fdc_id := JS.TStr ("manual_" ++ Api.decimal 1700000000000);
                    Api.ci_label := JS.TStr (JS.trim (ConfirmScreen.newIngredientName st));
                    Api.ci_grams :=
                      JS.VNum (ConfirmScreen.num_or
                                 (JS.parseFloat
                                    (ConfirmScreen.newIngredientGrams st)) 100);
                    Api.ci_confirmed := true;
                    Api.ci_manually_added := true |} ]
       /\ RecipeScreen.ingredients (RecipeScreen.mockRecipe rp (RecipeScreen.initial rp))
          = shown
            ++ [ {| RecipeScreen.ri_name :=
                      JS.TStr (JS.trim (ConfirmScreen.newIngredientName st));
                    RecipeScreen.ri_grams := JS.VNum 100;
                    RecipeScreen.ri_notes := RecipeScreen.Note "prepared as needed";
                    RecipeScreen.ri_fdc_id :=
                      Some ("manual_" ++ Api.decimal 1700000000000)%string |} ].
Proof.
  intros st st' rp.
  split; [vm_compute; reflexivity|]. split; [reflexivity|].
  apply (manual_ingredient_listed_with_100_grams JS.parseFloat
           1700000000000 st rp (RecipeScreen.initial rp)).
  - discriminate.
  - reflexivity.
Defined.

(** X23 on a run of statements: a scan is inserted, a second insert with
    the same id is rejected, an item is inserted for the scan. *)
Lemma primary_keys_are_unique_witness :
  let ctx := Database.mkContext "7f8c" 0 in
  let scan id :=
    Database.InsertScan id (Database.Value (Some "user-1"))
      (Database.Value (Some "uploads/a.jpg")) Database.Default Database.Default in
  let item :=
    Database.InsertScanItem (Database.Value (Some "item-1")) (Database.Value (Some "7f8c"))
      (Database.Value (Some "banana")) Database.Default Database.Default
      Database.Default Database.Default Database.Default Database.Default in
  let db1 := Database.step ctx Database.empty (scan Database.Default) in
  let db2 := Database.step ctx db1 (scan (Database.Value (Some "7f8c"))) in
  let db3 := Database.step ctx db2 item in
  map Database.scan_id (Database.scans db3) = [Some "7f8c"]
  /\ map Database.si_id (Database.scan_items db3) = [Some "item-1"]
  /\ NoDup (map Database.scan_id (Database.scans db3))
  /\ NoDup (map Database.si_id (Database.scan_items db3)).
Proof.
  intros ctx scan item db1 db2 db3.
  split; [reflexivity|]. split; [reflexivity|].
  assert (H := primary_keys_are_unique db3).
  split; [apply H | apply H];
    repeat apply Database.reachable_step; apply Database.reachable_empty.
Defined.

(** X27 on a screen opened with preferences, for a response with one
    AI-generated recipe and for one with an empty list. *)
Lemma generateRecipe_shows_recipes_witness :
  let chosen :=
    ConfirmScreen.mkPreferences [] ["italian"] [] "dinner" "italian" "beginner" false in
  let rp := RecipeScreen.mkRoute "scan-42" None 2 (Some chosen) in
  let st := RecipeScreen.initial rp in
  let r :=
    RecipeScreen.mkRecipe (JS.TStr "r1") (Some true) "Banana Smoothie" 2 None None None
      None None [] [] [] [] [] in
  let answer l :=
    JS.Returned
      (Api.mkResult true
         (Some (RecipeScreen.mkCreateData (Some ["r1"]) JS.TAbsent (Some l) false))
         JS.TAbsent) in
  let fetched := JS.Thrown "not called" in
  RecipeScreen.render "TypeError"
    (fst (RecipeScreen.generateRecipe "TypeError" rp st (answer [r]) fetched))
  = JS.Returned (RecipeScreen.RecipeView r)
  /\ snd (RecipeScreen.generateRecipe "TypeError" rp st (answer [r]) fetched)
     = [Properties.race_timer; Properties.create_call rp st]
  /\ RecipeScreen.render "TypeError"
       (fst (RecipeScreen.generateRecipe "TypeError" rp st (answer []) fetched))
     = JS.Returned (RecipeScreen.FailedView RecipeScreen.TRY_AGAIN).
Proof.
  intros chosen rp st r answer fetched.
  assert (H := fun l =>
    generateRecipe_shows_recipes "TypeError" rp st
      (Api.mkResult true
         (Some (RecipeScreen.mkCreateData (Some ["r1"]) JS.TAbsent (Some l) false))
         JS.TAbsent)
      (RecipeScreen.mkCreateData (Some ["r1"]) JS.TAbsent (Some l) false)
      ["r1"] l fetched eq_refl eq_refl eq_refl eq_refl).
  cbv zeta in H.
  destruct (H [r]) as (_ & H1 & _).
  destruct (H1 r eq_refl) as (_ & _ & Heffects & Hrender); [right; discriminate|].
  destruct (H []) as (_ & _ & H0 & _).
  destruct H0 as (_ & _ & _ & Hfailed); [discriminate|].
  split; [exact (Hrender eq_refl)|]. split; [exact Heffects | exact (Hfailed eq_refl)].
Defined.

(** X6 on a banana whose gram field receives '12.5' and then 'Infinity':
    the request carries 12.5, then [null]. *)
Lemma updateItemGrams_sets_both_fields_witness :
  let banana :=
    mkItem (JS.TStr "banana") JS.TAbsent (JS.VNum 0.75) (JS.VNum 120) JS.VUndefined
      true None in
  let st := ConfirmScreen.setItems [banana] ConfirmScreen.initial in
  let sent text :=
    Api.confirm_item_json
      (ConfirmScreen.confirmation_item
         (ConfirmScreen.set_grams
            (ConfirmScreen.num_or (JS.parseFloat text) 0) banana)) in
  map grams (ConfirmScreen.items (ConfirmScreen.updateItemGrams JS.parseFloat 0 "12.5" st))
  = [JS.VNum 12.5]
  /\ JS.json_property (sent "12.5") "grams" = Some (JS.JNum 12.5)
  /\ JS.json_property (sent "Infinity") "grams" = Some JS.JNull.
Proof.
  intros banana st sent.
  assert (H := fun text =>
    updateItemGrams_sets_both_fields JS.parseFloat 0 text st).
  cbv zeta in H. split; [|split].
  - destruct (H "12.5") as (_ & _ & Hnth & _). specialize (Hnth 0%nat).
    cbn [Nat.eqb] in Hnth.
    destruct (ConfirmScreen.items
                (ConfirmScreen.updateItemGrams JS.parseFloat 0 "12.5" st))
      as [|it [|it' rest]] eqn:E; try (vm_compute in E; discriminate).
    cbn [nth_error] in Hnth. injection Hnth as ->. vm_compute. reflexivity.
  - destruct (H "12.5") as (_ & _ & _ & Hit).
    destruct (Hit banana) as (_ & _ & _ & _ & _ & Hjson).
    etransitivity; [exact Hjson|]. vm_compute. reflexivity.
  - destruct (H "Infinity") as (_ & _ & _ & Hit).
    destruct (Hit banana) as (_ & _ & _ & _ & _ & Hjson).
    etransitivity; [exact Hjson|]. vm_compute. reflexivity.
Defined.

(** X7 on a name made of a no-break space and a space, and on 'tofu'
    between a no-break space and a space. *)
Lemma addNewIngredient_appends_witness :
  let nbsp := String (ascii_of_nat 194) (String (ascii_of_nat 160) EmptyString) in
  let blank :=
    ConfirmScreen.setNewIngredientName (nbsp ++ " ") ConfirmScreen.initial in
  let padded :=
    ConfirmScreen.setNewIngredientName (nbsp ++ "tofu ") ConfirmScreen.initial in
  ConfirmScreen.addNewIngredient JS.parseFloat 1700000000000 blank = blank
  /\ map label
       (ConfirmScreen.items
          (ConfirmScreen.addNewIngredient JS.parseFloat 1700000000000 padded))
     = [JS.TStr "tofu"].
Proof.
  intros nbsp blank padded. split.
  - apply (proj1 (addNewIngredient_appends JS.parseFloat 1700000000000 blank)).
    reflexivity.
  - destruct (proj2 (addNewIngredient_appends JS.parseFloat 1700000000000 padded))
      as (it & Hitems & Hlabel & _); [discriminate|].
    rewrite Hitems. change (ConfirmScreen.items padded) with (@nil item).
    cbn [app map]. rewrite Hlabel. reflexivity.
Defined.

(** ** Processing the picture and signing up *)

Section ProcessImageFacts.
Import JS Properties.

Variable stringify_result : Api.result CameraScreen.start_data -> string.
Variable stringify_data : option CameraScreen.start_data -> string.


(** The effects of the handler when the scan delivered an id. *)
Lemma processImage_started (st : CameraScreen.state) (img : CameraService.image)
    (base64 : string)
    (started : CameraScreen.attempt (Api.result CameraScreen.start_data))
    (navigated : CameraScreen.attempt unit) (d : CameraScreen.start_data) :
  CameraScreen.image st = Some img ->
  scan_started started = Some d ->
  navigations
    (snd (CameraScreen.processImage stringify_result stringify_data st
            (CameraScreen.Done base64) started navigated))
  = [ ("Confirm",
       {| CameraScreen.scanId := CameraScreen.scan_id d;
          CameraScreen.imageUri := CameraService.uri img;
          CameraScreen.detectedItems :=
            Some (match CameraScreen.start_items d with
                  | Some l => l
                  | None => []
                  end) |}) ].
Proof.
  intros Himg Hstarted. unfold CameraScreen.processImage. rewrite Himg.
  cbv zeta beta. unfold scan_started in Hstarted.
  destruct started as [scanResult|apiError]; [|discriminate].
  destruct (Api.success scanResult); [|discriminate].
  destruct (Api.data scanResult) as [d'|]; [|discriminate].
  destruct (CameraScreen.truthy_text (CameraScreen.scan_id d')) eqn:Ht;
    [|discriminate].
  injection Hstarted as ->. destruct navigated; reflexivity.
Qed.

(** X30.  The detected items are a working backup.  When the Process Image
    handler navigates after a scan that delivered the id of a real scan, the
    confirm screen is mounted with that id and the items of the start-scan
    response.  If its get-scan call then comes back without [success] or
    without a body, it lists exactly those items (gram fields normalized,
    the first one confirmed) and shows no alert, provided there is at least
    one; with no item it lists the placeholder and shows the 'Detection
    Failed' alert. *)
Theorem detected_items_back_up_failed_fetch (st : CameraScreen.state)
    (img : CameraService.image) (base64 id : string)
    (started : CameraScreen.attempt (Api.result CameraScreen.start_data))
    (navigated : CameraScreen.attempt unit) (d : CameraScreen.start_data) :
  CameraScreen.image st = Some img ->
  scan_started started = Some d ->
  CameraScreen.scan_id d = TStr id ->
  ConfirmScreen.is_mock_scan id = false ->
  exists params rp,
    navigations
      (snd (CameraScreen.processImage stringify_result stringify_data st
              (CameraScreen.Done base64) started navigated))
    = [("Confirm", params)]
    /\ CameraScreen.confirm_route params = Some rp
    /\ ConfirmScreen.scanId rp = id
    /\ forall (cst : ConfirmScreen.state) (result : Api.result ConfirmScreen.scan_data),
         answered (Returned result) = None ->
         let cst' := fst (ConfirmScreen.loadScanResults rp cst (Returned result)) in
         let effects := snd (ConfirmScreen.loadScanResults rp cst (Returned result)) in
         match CameraScreen.start_items d with
         | Some (i :: l) =>
             ConfirmScreen.items cst'
             = ConfirmScreen.mapi ConfirmScreen.firstConfirmed (i :: l)
             /\ alerts effects = []
         | _ =>
             ConfirmScreen.items cst' = [PLACEHOLDER]
             /\ map fst (alerts effects) = ["Detection Failed"]
         end.
Proof.
  intros Himg Hstarted Hid Hmock.
  rewrite (processImage_started st img base64 started navigated d Himg Hstarted).
  eexists. eexists. split; [reflexivity|].
  unfold CameraScreen.confirm_route. cbn [CameraScreen.scanId]. rewrite Hid.
  split; [reflexivity|]. split; [reflexivity|].
  intros cst result Hnone. cbv zeta.
  cbn [CameraScreen.imageUri CameraScreen.detectedItems].
  unfold ConfirmScreen.loadScanResults. cbn [ConfirmScreen.scanId]. rewrite Hmock.
  cbn [ConfirmScreen.detectedItems].
  unfold answered in Hnone.
  destruct (Api.success result) eqn:Hs.
  - destruct (Api.data result) as [body|] eqn:Hd; [discriminate|].
    destruct (CameraScreen.start_items d) as [[|i l]|]; split; reflexivity.
  - destruct (Api.data result);
      destruct (CameraScreen.start_items d) as [[|i l]|]; split; reflexivity.
Qed.

End ProcessImageFacts.

Section SignUpFacts.
Import JS SignInScreen Properties.


End SignUpFacts.


(** X30 on the same picture, when the later get-scan call is answered 500. *)
Lemma detected_items_back_up_failed_fetch_witness :
  let img := CameraService.mkImage "blob:photo" 640 480 in
  let st := CameraScreen.setImage (Some img) CameraScreen.initial in
  let banana :=
    mkItem (JS.TStr "banana") JS.TAbsent (JS.VNum 0.75) (JS.VNum 120) JS.VUndefined
      false None in
  let d := CameraScreen.mkStartData (JS.TStr "scan-42") (Some [banana]) in
  let started := CameraScreen.Done (Api.mkResult true (Some d) JS.TAbsent) in
  exists params rp,
    Properties.navigations
      (snd (CameraScreen.processImage (fun _ => "{}") (fun _ => "{}") st
              (CameraScreen.Done "data:image/jpeg;base64,AAAA") started
              (CameraScreen.Done tt)))
    = [("Confirm", params)]
    /\ CameraScreen.confirm_route params = Some rp
    /\ ConfirmScreen.scanId rp = "scan-42"
    /\ forall (cst : ConfirmScreen.state) (result : Api.result ConfirmScreen.scan_data),
         Properties.answered (JS.Returned result) = None ->
         ConfirmScreen.items
           (fst (ConfirmScreen.loadScanResults rp cst (JS.Returned result)))
         = ConfirmScreen.mapi ConfirmScreen.firstConfirmed [banana]
         /\ Properties.alerts
              (snd (ConfirmScreen.loadScanResults rp cst (JS.Returned result)))
            = [].
Proof.
  intros img st banana d started.
  apply (detected_items_back_up_failed_fetch (fun _ => "{}") (fun _ => "{}") st img
           "data:image/jpeg;base64,AAAA" "scan-42" started (CameraScreen.Done tt) d);
    reflexivity.
Defined.
